(** * deltadump: the split / compile / init pipeline of [text_utils.py]

    A shallow embedding of [src/text_utils.py] and the properties its
    specification states about it.

    Conventions of the embedding.
    - A Python [str] is a [string]; a character stands for the code point of
      the same number (0..255).
    - A Python [dict] with string keys is an insertion-ordered association
      list ([pydict]); [dict_set] is [d[k] = v], which keeps the position of
      an existing key and appends a new one.
    - A directory of JSON object files is a [gmap] from file name to the
      parsed object; the order in which [iterdir] lists it is a parameter.
    - Python integers are [nat]; the one floating point expression of the
      program is evaluated on binary64 primitive floats.
    - Exceptions that the program does not catch end the run: every fallible
      function returns a [result].
    - Of the file system, the object directories, the chapter source maps
      and the compiled documents are kept; chapter directories are not, and
      a write into a directory that exists succeeds. The directory of the
      compiled document under [DELTARUNE_HOME] may be missing, and the
      write into it then raises.
    - A file name stands for the file of that name in its directory, and
      names that differ stand for different files: this is what the
      program's paths are, on a POSIX system that tells upper from lower
      case, when the name is a single path component. The names of
      [sourcemap.json] are not checked by the program, and the properties
      of the files [split_dump] writes take them to be path components
      ([flat_sourcemap]). *)

From Stdlib Require Import ZArith Ascii Floats.
From stdpp Require Import gmap strings list pretty.

(** ** Python strings *)

(** [s.split(sep)] for a one-character separator. *)
Fixpoint split (sep : ascii) (s : string) : list string :=
  match s with
  | EmptyString => [EmptyString]
  | String c s' =>
      if Ascii.eqb c sep then EmptyString :: split sep s'
      else match split sep s' with
           | piece :: pieces => String c piece :: pieces
           | [] => [String c EmptyString]
           end
  end.

(** The characters below 256 for which [str.isdigit] holds: the ten decimal
    digits and the superscripts two, three and one (178, 179, 185). *)
Definition isdigit_char (c : ascii) : bool :=
  let n := nat_of_ascii c in
  ((48 <=? n)%nat && (n <=? 57)%nat)
  || (n =? 178)%nat || (n =? 179)%nat || (n =? 185)%nat.

Fixpoint all_chars (p : ascii → bool) (s : string) : bool :=
  match s with
  | EmptyString => true
  | String c s' => p c && all_chars p s'
  end.

(** [s.isdigit()]: false on the empty string. *)
Definition isdigit (s : string) : bool :=
  match s with
  | EmptyString => false
  | String _ _ => all_chars isdigit_char s
  end.

Fixpoint fill_chars (n : nat) (c : ascii) : string :=
  match n with
  | O => EmptyString
  | S n' => String c (fill_chars n' c)
  end.

(** [s.rjust(width, fillchar)]. *)
Definition rjust (width : nat) (fillchar : ascii) (s : string) : string :=
  fill_chars (width - String.length s) fillchar +:+ s.

Definition endswith (s suffix : string) : bool :=
  (String.length suffix <=? String.length s)%nat
  && String.eqb
       (String.substring (String.length s - String.length suffix)
                  (String.length suffix) s)
       suffix.

(** [s.removesuffix(suffix)] for a non-empty suffix. *)
Definition removesuffix (s suffix : string) : string :=
  if endswith s suffix
  then String.substring 0 (String.length s - String.length suffix) s
  else s.

(** [c in s] *)
Fixpoint contains (c : ascii) (s : string) : bool :=
  match s with
  | EmptyString => false
  | String c' s' => Ascii.eqb c' c || contains c s'
  end.

(** The length of [s.encode("utf-8")]: code points below 128 take one
    byte, the others of the embedding two. *)
Fixpoint utf8_length (s : string) : nat :=
  match s with
  | EmptyString => 0
  | String c s' => (if (nat_of_ascii c <? 128)%nat then 1 else 2) + utf8_length s'
  end.

(** Decimal digits proper, and the integer a string of them denotes
    ([int(s)]); used to state what the sort key achieves. *)
Definition isdecimal_char (c : ascii) : bool :=
  let n := nat_of_ascii c in (48 <=? n)%nat && (n <=? 57)%nat.

Definition isdecimal (s : string) : bool :=
  match s with
  | EmptyString => false
  | String _ _ => all_chars isdecimal_char s
  end.

Definition digit_value (c : ascii) : Z := (Z.of_nat (nat_of_ascii c) - 48)%Z.

Fixpoint int_of_digits_from (acc : Z) (s : string) : Z :=
  match s with
  | EmptyString => acc
  | String c s' => int_of_digits_from (10 * acc + digit_value c)%Z s'
  end.

Definition int_of_digits (s : string) : Z := int_of_digits_from 0 s.

(** Lexicographic [<] on sequences of integers: the order the sort key is
    meant to realise on the numeric segments of position tokens. *)
Fixpoint int_list_ltb (a b : list Z) : bool :=
  match a, b with
  | [], [] => false
  | [], _ :: _ => true
  | _ :: _, [] => false
  | x :: a', y :: b' => if (x =? y)%Z then int_list_ltb a' b' else (x <? y)%Z
  end.

(** What [smartsort] makes of one segment. *)
Definition pad_segment (piece : string) : string :=
  if isdigit piece then rjust 16 "0" piece else piece.

(** ** Python dictionaries *)

Abbreviation pydict V := (list (string * V)).

Fixpoint dict_get {V : Type} (d : pydict V) (k : string) : option V :=
  match d with
  | [] => None
  | (k', v) :: d' => if decide (k' = k) then Some v else dict_get d' k
  end.

(** [k in d] *)
Definition dict_mem {V : Type} (k : string) (d : pydict V) : bool :=
  bool_decide (is_Some (dict_get d k)).

(** [d[k] = v] *)
Fixpoint dict_set {V : Type} (d : pydict V) (k : string) (v : V) : pydict V :=
  match d with
  | [] => [(k, v)]
  | (k', v') :: d' =>
      if decide (k' = k) then (k, v) :: d' else (k', v') :: dict_set d' k v
  end.

(** [d |= other] *)
Definition dict_update {V : Type} (d other : pydict V) : pydict V :=
  foldl (λ acc kv, dict_set acc kv.1 kv.2) d other.

(** [dict(pairs)] *)
Definition dict_of_items {V : Type} (pairs : list (string * V)) : pydict V :=
  dict_update [] pairs.

Definition dict_keys {V : Type} (d : pydict V) : list string := d.*1.

(** ** Natural sort key and [sorted] *)

(** Python's [a < b] on lists of strings. *)
Fixpoint list_ltb (a b : list string) : bool :=
  match a, b with
  | [], [] => false
  | [], _ :: _ => true
  | _ :: _, [] => false
  | x :: a', y :: b' => if String.eqb x y then list_ltb a' b' else String.ltb x y
  end.

(** The loop of [smartsort]: [pieces] is updated in place at index [i] while
    [enumerate] walks it; an entry is read before it is overwritten. *)
Definition smartsort_loop (pieces : list string) : list string :=
  foldl (λ pieces ip,
           if isdigit ip.2 then <[ip.1 := rjust 16 "0" ip.2]> pieces
           else pieces)
        pieces (imap pair pieces).

Definition smartsort {V : Type} (k_and_v : string * V) : list string :=
  smartsort_loop (split "_" k_and_v.1).

(** [sorted(items, key=key)]: the stable sort, by insertion from the left;
    only [<] on keys is used, as in Python. *)
Fixpoint sorted_insert {A : Type} (key : A → list string) (x : A) (l : list A)
  : list A :=
  match l with
  | [] => [x]
  | y :: l' =>
      if list_ltb (key x) (key y) then x :: y :: l'
      else y :: sorted_insert key x l'
  end.

Definition sorted {A : Type} (key : A → list string) (l : list A) : list A :=
  foldl (λ acc x, sorted_insert key x acc) [] l.

(** ** Exceptions *)

Inductive exn : Set :=
  | KeyError
  | ValueError
  | FileNotFoundError
  | ZeroDivisionError
  | OverflowError.

Inductive result (A : Type) : Type :=
  | Ok (a : A)
  | Raise (e : exn).
Arguments Ok {A} a.
Arguments Raise {A} e.

Global Instance result_ret : MRet result := @Ok.
Global Instance result_bind : MBind result :=
  λ A B f m, match m with Ok a => f a | Raise e => Raise e end.

(** A [for] loop whose body may raise. *)
Fixpoint foldlM {A S : Type} (f : S → A → result S) (s : S) (l : list A)
  : result S :=
  match l with
  | [] => Ok s
  | a :: l' => s' ← f s a; foldlM f s' l'
  end.

(** A [for] loop over a store that outlives an exception: the store reached
    when the body raises is the one the run leaves behind. *)
Fixpoint for_each {A S : Type} (body : A → S → result unit * S)
    (l : list A) (s : S) : result unit * S :=
  match l with
  | [] => (Ok (), s)
  | a :: l' =>
      match body a s with
      | (Ok _, s') => for_each body l' s'
      | (Raise e, s') => (Raise e, s')
      end
  end.

(** ** Module constants *)

Definition CHAPTERS : list string := ["1"; "2"; "3"; "4"].
Definition LANGS : list string := ["en"; "ja"].
Definition BASE_LANG : string := "en".
Definition L10N_LANG : string := "vi".
Definition L10N_CHAPTER : string := "1".

(** ** The file system

    [obj_dirs] holds the object directories [chapter<c>/<lang>/obj] that
    exist, by chapter and language, each as its files by name; [sourcemaps]
    holds [chapter<c>/sourcemap.json] by chapter; [documents] holds the
    compiled language documents by path. A file is the JSON object it
    stores: [json.dump] with fixed options writes the bytes as a function of
    the ordered object, so equal objects are equal files.

    An object directory holds files only, each under its name, and a name
    stands for the file of that name in the directory: this is what the
    path [obj_dir / name] is when [name] is one path component, with no
    separator in it. The names that [split_dump] takes from
    [sourcemap.json] are not checked by the program; the properties of the
    files it writes are stated for names that are path components. *)

Abbreviation directory := (gmap string (pydict string)).

Record fs : Type := mk_fs {
  obj_dirs : gmap (string * string) directory;
  sourcemaps : gmap string (pydict (pydict string));
  documents : gmap string (pydict string)
}.

Definition set_obj_dir (d : string * string) (dir : directory) (st : fs) : fs :=
  mk_fs (<[d := dir]> (obj_dirs st)) (sourcemaps st) (documents st).

(** The directory after [mkdir(dir, parents=True, exist_ok=True)]. *)
Definition dir_contents (d : string * string) (st : fs) : directory :=
  default ∅ (obj_dirs st !! d).

Definition mkdir (d : string * string) (st : fs) : fs :=
  set_obj_dir d (dir_contents d st) st.

(** A name that [directory / name] takes for a file of [directory] itself
    on a POSIX system: one path component, with no separator and no NUL
    character in it, not one of the names of the directory and its parent,
    and of no more than the 255 bytes the common file systems allow. *)
Definition path_component (name : string) : bool :=
  negb (contains "/" name) && negb (contains "000" name)
  && negb (bool_decide (name ∈ [EmptyString; "."; ".."]))
  && bool_decide (utf8_length name ≤ 255).

(** [dict2file] into, and [rmfile] in, an object directory that exists,
    under a name that is a path component. *)
Definition dict2file (in_dict : pydict string) (out_file : string)
    (dir : directory) : directory :=
  <[out_file := in_dict]> dir.

Definition rmfile (file : string) (dir : directory) : directory :=
  delete file dir.

(** [file.unlink()]: raises on a file that is not there. *)
Definition unlink (file : string) (dir : directory) : result unit * directory :=
  match dir !! file with
  | Some _ => (Ok (), delete file dir)
  | None => (Raise FileNotFoundError, dir)
  end.

Definition write_sourcemap (chapter : string) (m : pydict (pydict string))
    (st : fs) : fs :=
  mk_fs (obj_dirs st) (<[chapter := m]> (sourcemaps st)) (documents st).

Definition set_document (path : string) (doc : pydict string) (st : fs) : fs :=
  mk_fs (obj_dirs st) (sourcemaps st) (<[path := doc]> (documents st)).

(** [dict2file] of a document: [open(path, "w")] makes no directory, and
    raises when the directory of [path] is missing, writing nothing. *)
Definition write_document (parent_missing : bool) (path : string)
    (doc : pydict string) (st : fs) : result unit * fs :=
  if parent_missing then (Raise FileNotFoundError, st)
  else (Ok (), set_document path doc st).

(** ** Splitter: [split_dump] *)

(** Lines 70-75: how often each location occurs among the values of the
    chapter's raw source map. *)
Definition count_dups (filenos : list string) : pydict nat :=
  foldl (λ ch_dup_map fileno,
           match dict_get ch_dup_map fileno with
           | None => dict_set ch_dup_map fileno 1
           | Some count => dict_set ch_dup_map fileno (count + 1)
           end)
        [] filenos.

(** How often [v] occurs in [l]. *)
Definition occurrences (v : string) (l : list string) : nat :=
  length (filter (λ x, x = v) l).

(** Lines 90-94: the new counter and the position token of one entry. *)
Definition disambiguate (linedups : pydict nat) (dupecount : nat)
    (v lineno : string) : result (nat * string) :=
  match dict_get linedups v with
  | None => Raise KeyError
  | Some count =>
      if (1 <? count)%nat
      then Ok (S dupecount, lineno +:+ "_" +:+ pretty (S dupecount))
      else Ok (0, lineno)
  end.

(** Line 83: [filename, lineno = v.split(":")]. *)
Definition split_location (v : string) : result (string * string) :=
  match split ":" v with
  | [filename; lineno] => Ok (filename, lineno)
  | _ => Raise ValueError
  end.

(** Lines 84-87: the file's map, created empty on first use. *)
Definition ensure_file (ch_sourcemap : pydict (pydict string))
    (filename : string) : pydict (pydict string) :=
  match dict_get ch_sourcemap filename with
  | Some _ => ch_sourcemap
  | None => dict_set ch_sourcemap filename []
  end.

(** Line 95: [ch_sourcemap[filename][lineno] = k]. *)
Definition record_position (ch_sourcemap : pydict (pydict string))
    (filename lineno k : string) : pydict (pydict string) :=
  dict_set ch_sourcemap filename
    (dict_set (default [] (dict_get ch_sourcemap filename)) lineno k).

(** Lines 82-95: the body of the loop over the raw source map; the state is
    [(dupecount, ch_sourcemap)]. *)
Definition sourcemap_step (linedups : pydict nat)
    (st : nat * pydict (pydict string)) (kv : string * string)
  : result (nat * pydict (pydict string)) :=
  loc ← split_location kv.2;
  let ch_sourcemap := ensure_file st.2 loc.1 in
  dl ← disambiguate linedups st.1 kv.2 loc.2;
  Ok (dl.1, record_position ch_sourcemap loc.1 dl.2 kv.1).

Definition sourcemap_loop (linedups : pydict nat) (entries : pydict string)
  : result (nat * pydict (pydict string)) :=
  foldlM (sourcemap_step linedups) (0, []) entries.

(** Lines 96-97: each file's map re-created in natural order of the tokens. *)
Definition sort_sourcemap (ch_sourcemap : pydict (pydict string))
  : pydict (pydict string) :=
  foldl (λ ch_sourcemap filename,
           dict_set ch_sourcemap filename
             (dict_of_items
                (sorted smartsort (default [] (dict_get ch_sourcemap filename)))))
        ch_sourcemap (dict_keys ch_sourcemap).

(** Lines 70-97: the Chapter Source Map of a chapter's raw source map. *)
Definition new_sourcemap (raw_sourcemap_ch : pydict string)
  : result (pydict (pydict string)) :=
  let linedups := count_dups raw_sourcemap_ch.*2 in
  st ← sourcemap_loop linedups raw_sourcemap_ch;
  Ok (sort_sourcemap st.2).

(** The position token each key receives, in encounter order: the counter of
    [sourcemap_step] run on its own, with the counter it ends on. An element
    is [(key, filename, token)]. *)
Fixpoint position_tokens (linedups : pydict nat) (dupecount : nat)
    (entries : pydict string)
  : result (nat * list (string * string * string)) :=
  match entries with
  | [] => Ok (dupecount, [])
  | kv :: entries' =>
      loc ← split_location kv.2;
      dl ← disambiguate linedups dupecount kv.2 loc.2;
      rest ← position_tokens linedups dl.1 entries';
      Ok (rest.1, (kv.1, loc.1, dl.2) :: rest.2)
  end.

(** Lines 84-87 and 95 for a sequence of tokens. *)
Definition record_tokens (ch_sourcemap : pydict (pydict string))
    (tokens : list (string * string * string)) : pydict (pydict string) :=
  foldl (λ ch_sourcemap t,
           record_position (ensure_file ch_sourcemap t.1.2) t.1.2 t.2 t.1.1)
        ch_sourcemap tokens.

(** A location that line 83 unpacks without raising. *)
Definition well_formed_location (v : string) : Prop :=
  ∃ filename lineno, split ":" v = [filename; lineno].

(** Lines 109-115: the strings of one file; [strings] is
    [raw_lang[chapter][lang]], absent when either lookup raises the
    [KeyError] that line 112 catches. The state is
    [(lang_strings, obj_strings)]. *)
Definition split_obj_step (strings : option (pydict string))
    (st : pydict string * pydict string) (kv : string * string)
  : pydict string * pydict string :=
  match strings ≫= (λ s, dict_get s kv.2) with
  | None => st
  | Some str_value =>
      (dict_set st.1 kv.2 str_value, dict_set st.2 kv.2 str_value)
  end.

Definition split_obj (strings : option (pydict string))
    (positions : pydict string) (lang_strings : pydict string)
  : pydict string * pydict string :=
  foldl (split_obj_step strings) (lang_strings, []) positions.

Definition obj_file_name (filename : string) : string :=
  removesuffix filename ".gml" +:+ ".json".

(** Lines 116-119: an empty object removes the file, any other is written. *)
Definition emit (obj : pydict string) (file : string) (dir : directory)
  : directory :=
  match obj with
  | [] => rmfile file dir
  | _ :: _ => dict2file obj file dir
  end.

(** Lines 106-119; the state is [(lang_strings, obj_dir)]. *)
Definition split_files_step (strings : option (pydict string))
    (st : pydict string * directory) (fm : string * pydict string)
  : pydict string * directory :=
  let r := split_obj strings fm.2 st.1 in
  (r.1, emit r.2 (obj_file_name fm.1) st.2).

Definition split_files (ch_sourcemap : pydict (pydict string))
    (strings : option (pydict string)) (dir : directory)
  : pydict string * directory :=
  foldl (split_files_step strings) ([], dir) ch_sourcemap.

(** The objects that lines 106-119 hand to [emit], in order, as
    [(obj_file, obj_strings)], with the final [lang_strings]. *)
Definition split_objects_step (strings : option (pydict string))
    (st : pydict string * list (string * pydict string))
    (fm : string * pydict string)
  : pydict string * list (string * pydict string) :=
  let r := split_obj strings fm.2 st.1 in
  (r.1, st.2 ++ [(obj_file_name fm.1, r.2)]).

Definition split_objects (ch_sourcemap : pydict (pydict string))
    (strings : option (pydict string))
  : pydict string * list (string * pydict string) :=
  foldl (split_objects_step strings) ([], []) ch_sourcemap.

(** The objects among them that are written, the rest being empty. *)
Definition per_file_objects (ch_sourcemap : pydict (pydict string))
    (strings : pydict string) : list (string * pydict string) :=
  filter (λ o, o.2 ≠ []) (split_objects ch_sourcemap (Some strings)).2.

(** All keys of a sequence of objects, object after object. *)
Definition object_keys (objects : list (string * pydict string)) : list string :=
  mjoin ((λ o, dict_keys o.2) <$> objects).

(** All keys recorded in a Chapter Source Map, file after file. *)
Definition all_values (ch_sourcemap : pydict (pydict string)) : list string :=
  mjoin ((λ fm, fm.2.*2) <$> ch_sourcemap).

(** Lines 122-131. *)
Definition orphan_step (lang_strings lang_orphan : pydict string)
    (kv : string * string) : pydict string :=
  if dict_mem kv.1 lang_strings then lang_orphan
  else if decide (kv.1 = "date") then lang_orphan
  else dict_set lang_orphan kv.1 kv.2.

Definition orphans (strings lang_strings : pydict string) : pydict string :=
  foldl (orphan_step lang_strings) [] strings.

(** The keys of [raw_lang[chapter][lang]], none when it is absent. *)
Definition known_keys (strings : option (pydict string)) : list string :=
  match strings with Some s => dict_keys s | None => [] end.

(** Lines 104-140 on the directory [chapter<c>/<lang>/obj]; the result is
    [(stats_t, stats_u, stats_o)]. Line 124 raises when
    [raw_lang[chapter][lang]] is absent. *)
Definition split_lang (ch_sourcemap : pydict (pydict string))
    (strings : option (pydict string)) (dir : directory)
  : result (nat * nat * nat) * directory :=
  let r := split_files ch_sourcemap strings dir in
  match strings with
  | None => (Raise KeyError, r.2)
  | Some s =>
      let lang_orphan := orphans s r.1 in
      let stats_u := length r.1 in
      let stats_o := length lang_orphan in
      (Ok (stats_u + stats_o, stats_u, stats_o),
       emit lang_orphan "orphan.json" r.2)
  end.

Definition raw_strings (raw_lang : pydict (pydict (pydict string)))
    (chapter lang : string) : option (pydict string) :=
  dict_get raw_lang chapter ≫= (λ langs, dict_get langs lang).

(** Lines 101-140 for one language: [mkdir(obj_dir)] makes the directory,
    empty, when it is not there, and the loops then write into it. *)
Definition split_lang_fs (raw_lang : pydict (pydict (pydict string)))
    (ch_sourcemap : pydict (pydict string)) (chapter lang : string) (st : fs)
  : result unit * fs :=
  let r := split_lang ch_sourcemap (raw_strings raw_lang chapter lang)
             (dir_contents (chapter, lang) st) in
  (r.1 ≫= (λ _, Ok ()), set_obj_dir (chapter, lang) r.2 st).

(** Lines 65-140 for one chapter. *)
Definition split_chapter (raw_lang : pydict (pydict (pydict string)))
    (raw_sourcemap : pydict (pydict string)) (chapter : string) (st : fs)
  : result unit * fs :=
  match dict_get raw_sourcemap chapter with
  | None => (Raise KeyError, st)
  | Some raw_sourcemap_ch =>
      match new_sourcemap raw_sourcemap_ch with
      | Raise e => (Raise e, st)
      | Ok ch_sourcemap =>
          for_each (split_lang_fs raw_lang ch_sourcemap chapter) LANGS
            (write_sourcemap chapter ch_sourcemap st)
      end
  end.

(** [split_dump()], given the contents of [lang.json] and [sourcemap.json]. *)
Definition split_dump (raw_lang : pydict (pydict (pydict string)))
    (raw_sourcemap : pydict (pydict string)) (st : fs) : result unit * fs :=
  for_each (split_chapter raw_lang raw_sourcemap) CHAPTERS st.

(** The objects a run of [split_lang] hands to [emit]. *)
Definition split_lang_objects (ch_sourcemap : pydict (pydict string))
    (strings : option (pydict string)) : list (string * pydict string) :=
  let r := split_objects ch_sourcemap strings in
  match strings with
  | None => r.2
  | Some s => r.2 ++ [("orphan.json", orphans s r.1)]
  end.

(** [emit] over a sequence of objects. *)
Definition emit_all (objects : list (string * pydict string)) (dir : directory)
  : directory :=
  foldl (λ dir o, emit o.2 o.1 dir) dir objects.

(** What can be observed of the file system: whether an object directory
    exists, the object stored in a file of it, a chapter's source map, a
    compiled document. *)
Inductive loc : Type :=
  | LDir (d : string * string)
  | LFile (d : string * string) (name : string)
  | LSourcemap (chapter : string)
  | LDocument (path : string).

Inductive cell : Type :=
  | CDir (there : bool)
  | CFile (obj : option (pydict string))
  | CSourcemap (m : option (pydict (pydict string)))
  | CDocument (doc : option (pydict string)).

Definition observe (l : loc) (st : fs) : cell :=
  match l with
  | LDir d => CDir (bool_decide (is_Some (obj_dirs st !! d)))
  | LFile d name => CFile (obj_dirs st !! d ≫= (λ dir, dir !! name))
  | LSourcemap chapter => CSourcemap (sourcemaps st !! chapter)
  | LDocument path => CDocument (documents st !! path)
  end.

(** A run that reads nothing of the store it writes to: its result does not
    depend on the store, and each location is either left as it was or set
    to a fixed value. *)
Definition write_only {A : Type} (run : fs → result A * fs) : Prop :=
  (∃ res, ∀ st, (run st).1 = res)
  ∧ ∀ l, (∀ st, observe l (run st).2 = observe l st)
         ∨ (∃ c, ∀ st, observe l (run st).2 = c).

(** One run after another, the second only when the first returns. *)
Definition and_then {A B : Type} (run1 : fs → result A * fs)
    (run2 : fs → result B * fs) (st : fs) : result B * fs :=
  match run1 st with
  | (Ok _, st') => run2 st'
  | (Raise e, st') => (Raise e, st')
  end.

(** ** Compiler: [compile_lang] *)

(** Lines 160-164; the state is [(baselang_obj, count_translated)]. *)
Definition compile_key (newlang_obj : pydict string)
    (st : pydict string * nat) (k : string) : pydict string * nat :=
  match dict_get newlang_obj k with
  | None => st
  | Some translated => (dict_set st.1 k translated, S st.2)
  end.

Definition compile_obj (baselang_obj newlang_obj : pydict string)
    (count_translated : nat) : pydict string * nat :=
  foldl (compile_key newlang_obj) (baselang_obj, count_translated)
    (dict_keys baselang_obj).

(** How many of the keys [ks] the target object translates. *)
Definition translated_among (newlang_obj : pydict string) (ks : list string)
  : nat :=
  length (filter (λ k, is_Some (dict_get newlang_obj k)) ks).

(** Lines 156-159: the same-named target object, empty when the file is
    not found. *)
Definition load_newlang (new_lang_objs : directory) (name : string)
  : pydict string :=
  match new_lang_objs !! name with
  | Some newlang_obj => newlang_obj
  | None => []
  end.

(** Lines 155-165; the state is [(new_lang_dict, count_translated)]. *)
Definition compile_step (new_lang_objs : directory)
    (st : pydict string * nat) (obj : string * pydict string)
  : pydict string * nat :=
  let r := compile_obj obj.2 (load_newlang new_lang_objs obj.1) st.2 in
  (dict_update st.1 r.1, r.2).

(** Lines 149-165, over the base objects in the order they are listed. *)
Definition compile_objs (DATE : string) (listing : list (string * pydict string))
    (new_lang_objs : directory) : pydict string * nat :=
  foldl (compile_step new_lang_objs) ([("date", DATE)], 0) listing.

(** Python's conversion of a count to [float], exact below 2^53. *)
Definition float_of_nat (n : nat) : float :=
  PrimFloat.of_uint63 (Uint63.of_Z (Z.of_nat n)).

(** [int(x)] of a float: truncation toward zero. *)
Definition int_of_float (x : float) : result Z :=
  match Prim2SF x with
  | S754_zero _ => Ok 0%Z
  | S754_finite s m e =>
      let magnitude :=
        match e with
        | Z0 => Zpos m
        | Zpos p => Z.shiftl (Zpos m) (Zpos p)
        | Zneg p => Z.shiftr (Zpos m) (Zpos p)
        end in
      Ok (if s then (- magnitude)%Z else magnitude)
  | S754_infinity _ => Raise OverflowError
  | S754_nan => Raise ValueError
  end.

(** Line 167: [int((count_translated / count_all) * 100)]. *)
Definition l10n_progress (count_translated count_all : nat) : result Z :=
  match count_all with
  | O => Raise ZeroDivisionError
  | S _ =>
      int_of_float
        (PrimFloat.mul
           (PrimFloat.div (float_of_nat count_translated)
                          (float_of_nat count_all))
           (float_of_nat 100))
  end.

(** Lines 169-172: where the document goes; [home] is the value of the
    environment variable [DELTARUNE_HOME], if set. *)
Definition new_lang_file (home : option string) (lang chapter : string)
  : string :=
  match home with
  | Some root => root +:+ "/chapter" +:+ chapter +:+ "_windows/lang/lang_en.json"
  | None => "chapter" +:+ chapter +:+ "/lang_" +:+ lang +:+ ".json"
  end.

(** The names that [compile_lang] makes of its arguments, lines 146-148
    and 172, are path components. *)
Definition compile_names_ok (lang chapter : string) : bool :=
  path_component ("chapter" +:+ chapter) && path_component lang
  && path_component ("lang_" +:+ lang +:+ ".json").

(** What a run of the Compiler reports. *)
Record report : Type := mk_report {
  count_translated : nat;
  count_all : nat;
  progress : Z
}.

Section Directories.

(** The order in which the system lists a directory. *)
Variable iterdir : directory → list (string * pydict string).

(** [install_dir_missing root chapter]: under [DELTARUNE_HOME = root], the
    directory [chapter<chapter>_windows/lang] is missing, so that opening a
    file in it raises [FileNotFoundError]; the program makes no such
    directory. Other refusals of the system (a file in the place of a
    directory, permissions, a full disk) are not modelled. *)
Variable install_dir_missing : string → string → bool.

(** Whether the directory of [new_lang_file] is missing at line 174: the
    chapter directory is not, line 153 has made it with the object
    directory; the directory under [DELTARUNE_HOME] is as it was found. *)
Definition new_lang_dir_missing (home : option string) (chapter : string) : bool :=
  match home with
  | Some root => install_dir_missing root chapter
  | None => false
  end.

(** [compile_lang(lang, chapter)]; [DATE] is the time stamp of line 145.
    The paths of the run are those of the embedding when [lang] and
    [chapter] make path components ([compile_names_ok]), as the ["vi"] and
    ["1"] of the program do. *)
Definition compile_lang (DATE : string) (home : option string)
    (lang chapter : string) (st : fs) : result report * fs :=
  let st := mkdir (chapter, lang) st in
  match obj_dirs st !! (chapter, BASE_LANG) with
  | None => (Raise FileNotFoundError, st)
  | Some baselang_objs =>
      let r := compile_objs DATE (iterdir baselang_objs)
                 (dir_contents (chapter, lang) st) in
      let count_all := (length r.1 - 1)%nat in
      match l10n_progress r.2 count_all with
      | Raise e => (Raise e, st)
      | Ok l10n_progress =>
          let w := write_document (new_lang_dir_missing home chapter)
                     (new_lang_file home lang chapter) r.1 st in
          (w.1 ≫= (λ _, Ok (mk_report r.2 count_all l10n_progress)), w.2)
      end
  end.

(** ** Initializer: [init_lang] *)

(** Lines 195-198. *)
Definition init_create (ls_base : list string) (new_lang_objs : directory)
  : directory :=
  foldl (λ dir obj,
           match dir !! obj with
           | Some _ => dir
           | None => dict2file [] obj dir
           end)
        new_lang_objs ls_base.

(** Lines 199-202. *)
Definition init_prune (ls_base ls_new : list string) (new_lang_objs : directory)
  : result unit * directory :=
  let diff := filter (λ i, i ∉ ls_base) ls_new in
  for_each unlink diff new_lang_objs.

(** Lines 193-202 on the two directories of one chapter. *)
Definition init_dir (baselang_objs new_lang_objs : directory)
  : result unit * directory :=
  let ls_base := (iterdir baselang_objs).*1 in
  let ls_new := (iterdir new_lang_objs).*1 in
  init_prune ls_base ls_new (init_create ls_base new_lang_objs).

(** Lines 189-202 for one chapter. The parameter [lang] of [init_lang] is
    not used by its body, which works on [L10N_LANG]. *)
Definition init_chapter (chapter : string) (st : fs) : result unit * fs :=
  let st := mkdir (chapter, L10N_LANG) st in
  match obj_dirs st !! (chapter, BASE_LANG) with
  | None => (Raise FileNotFoundError, st)
  | Some baselang_objs =>
      let r := init_dir baselang_objs (dir_contents (chapter, L10N_LANG) st) in
      (r.1, set_obj_dir (chapter, L10N_LANG) r.2 st)
  end.

Definition init_lang (lang : string) (st : fs) : result unit * fs :=
  for_each init_chapter CHAPTERS st.

End Directories.

(** ** Inputs of the examples *)

Definition c3_example : pydict string :=
  [("k1", "a.gml:7"); ("k2", "a.gml:7"); ("k3", "a.gml:9")].

Definition same_line_pair : pydict string :=
  [("k1", "file.gml:42"); ("k2", "file.gml:42")].

Definition c2_before : pydict string := [("a", "other.gml:1")].
Definition c2_between : pydict string := [("b", "file.gml:43")].
Definition c2_after : pydict string := [("c", "file.gml:44")].

Definition c9_sourcemap : pydict string :=
  [("k1", "f:10"); ("k2", "f:20"); ("k3", "f:10")].
Definition c9_strings : pydict string :=
  [("k1", "one"); ("k2", "two"); ("k3", "three")].
Definition c9_chapter_sourcemap : pydict (pydict string) :=
  [("f", [("10_1", "k3"); ("20", "k2")])].

Definition c1_strings : pydict string :=
  [("date", "1700000000000"); ("k1", "one"); ("k2", "two"); ("k3", "three");
   ("zz", "unmapped")].

Definition c8_listing_before : list (string * pydict string) :=
  [("a.json", [("A", "original")])].
Definition c8_base_obj : pydict string := [("B", "original2"); ("C", "original3")].
Definition c8_listing_after : list (string * pydict string) :=
  [("c.json", [("D", "original4")])].
Definition c8_target : directory := {[ "a.json" := [("A", "translated")] ]}.

Definition c8_shared_fs : fs :=
  mk_fs {[ ("1", "en") := {[ "new.json" := [("K", "new")];
                             "old.json" := [("K", "old")] ]} ]} ∅ ∅.

Definition c10_fs : fs :=
  mk_fs {[ ("1", "en") := {[ "a.json" := [("date", "0")] ]} ]} ∅ ∅.

Definition c10_empty_fs : fs :=
  mk_fs {[ ("1", "en") := {[ "a.json" := [] ]} ]} ∅ ∅.

Definition c4_spec_fs : fs :=
  mk_fs {[ ("1", "en") := {[ "a.json" := [("A", "original"); ("B", "original2")] ]};
           ("1", "vi") := {[ "a.json" := [("A", "translated")] ]} ]} ∅ ∅.

Definition c4_keys : list string := (λ i : nat, "k" +:+ pretty i) <$> seq 1 50.
Definition c4_base_obj : pydict string := (λ k, (k, "original")) <$> c4_keys.
Definition c4_target_obj : pydict string :=
  (λ k, (k, "translated")) <$> take 29 c4_keys.
Definition c4_fs : fs :=
  mk_fs {[ ("1", "en") := {[ "a.json" := c4_base_obj ]};
           ("1", "vi") := {[ "a.json" := c4_target_obj ]} ]} ∅ ∅.

Definition c6_base : directory :=
  {[ "x.json" := [("a", "one")]; "y.json" := [("b", "two")] ]}.
Definition c6_target : directory :=
  {[ "y.json" := [("b", "deux")]; "z.json" := [("c", "trois")] ]}.

(** ** Further definitions *)

(** [sep.join(pieces)] for a one-character separator. *)
Fixpoint join (sep : ascii) (pieces : list string) : string :=
  match pieces with
  | [] => EmptyString
  | [piece] => piece
  | piece :: pieces' => piece +:+ String sep (join sep pieces')
  end.

(** [x] may stand before [y] in a list sorted by [key]: the key of [y] is
    not less than the key of [x]. *)
Definition key_le {A : Type} (key : A → list string) (x y : A) : Prop :=
  list_ltb (key y) (key x) = false.

(** A list in which no element is followed, directly or later, by one of
    smaller key. *)
Fixpoint in_key_order {A : Type} (key : A → list string) (l : list A) : Prop :=
  match l with
  | [] => True
  | x :: l' => Forall (key_le key x) l' ∧ in_key_order key l'
  end.

(** The strings of the positions of one file: for each position in order,
    the key with its string, when the language has one. *)
Definition strings_at (strings : option (pydict string))
    (positions : pydict string) : pydict string :=
  omap (λ kv, (λ txt, (kv.2, txt)) <$> (strings ≫= (λ s, dict_get s kv.2)))
       positions.

(** The strings that neither are mapped nor are the time stamp. *)
Definition unmapped (strings lang_strings : pydict string) : pydict string :=
  filter (λ kv, (kv.1 ∉ dict_keys lang_strings) ∧ kv.1 ≠ "date") strings.

(** A base object with the values of the target object put in: the keys and
    their order are the base object's. *)
Definition merge_obj (baselang_obj newlang_obj : pydict string) : pydict string :=
  (λ kv, (kv.1, default kv.2 (dict_get newlang_obj kv.1))) <$> baselang_obj.

(** The base objects of a listing, merged with their namesakes of the
    target directory, one after the other. *)
Definition merged_objects (listing : list (string * pydict string))
    (new_lang_objs : directory) : pydict string :=
  mjoin ((λ o, merge_obj o.2 (load_newlang new_lang_objs o.1)) <$> listing).

(** The number of keys of the listed base objects that their namesakes
    translate. *)
Definition translated_keys (listing : list (string * pydict string))
    (new_lang_objs : directory) : nat :=
  sum_list ((λ o, translated_among (load_newlang new_lang_objs o.1)
                    (dict_keys o.2)) <$> listing).

(** The target directory the Initializer aims at: under each base file name,
    what the target held there, or the empty object. *)
Definition mirror (baselang_objs new_lang_objs : directory) : directory :=
  map_imap (λ name _, Some (default [] (new_lang_objs !! name))) baselang_objs.

(** The document of a listing nothing of which is translated. *)
Definition untranslated (DATE : string) (listing : list (string * pydict string))
  : pydict string :=
  foldl (λ doc o, dict_update doc o.2) [("date", DATE)] listing.

(** A state with the four base directories, and one with the third missing. *)
Definition init_fs : fs :=
  mk_fs {[ ("1", "en") := c6_base; ("2", "en") := ∅; ("3", "en") := ∅;
           ("4", "en") := ∅; ("1", "vi") := c6_target ]} ∅ ∅.

Definition init_fs_missing : fs :=
  mk_fs {[ ("1", "en") := c6_base; ("2", "en") := ∅; ("4", "en") := ∅;
           ("1", "vi") := c6_target ]} ∅ ∅.

(** What [split_dump] needs of [lang.json] and [sourcemap.json] for one
    chapter: the chapter's raw source map, each location of it with one
    colon, and the chapter's strings in each language of [LANGS]. *)
Definition chapter_ok (raw_lang : pydict (pydict (pydict string)))
    (raw_sourcemap : pydict (pydict string)) (chapter : string) : Prop :=
  ∃ raw_sourcemap_ch,
    dict_get raw_sourcemap chapter = Some raw_sourcemap_ch
    ∧ Forall (λ kv, well_formed_location kv.2) raw_sourcemap_ch
    ∧ ∀ lang, lang ∈ LANGS → is_Some (raw_strings raw_lang chapter lang).

(** The object file names of a Chapter Source Map are path components. *)
Definition flat_names (ch_sourcemap : pydict (pydict string)) : bool :=
  forallb (λ fm, path_component (obj_file_name fm.1)) ch_sourcemap.

(** So are those of each chapter that [sourcemap.json] has. *)
Definition flat_sourcemap (raw_sourcemap : pydict (pydict string)) : bool :=
  forallb (λ chapter,
             match dict_get raw_sourcemap chapter with
             | Some raw_sourcemap_ch =>
                 match new_sourcemap raw_sourcemap_ch with
                 | Ok ch_sourcemap => flat_names ch_sourcemap
                 | Raise _ => true
                 end
             | None => true
             end)
          CHAPTERS.

(** The file names a run may write or remove in the object directories of a
    chapter: one per file of the Chapter Source Map, and [orphan.json]. *)
Definition object_names (ch_sourcemap : pydict (pydict string)) : list string :=
  (obj_file_name <$> dict_keys ch_sourcemap) ++ ["orphan.json"].

Definition written_names (raw_sourcemap : pydict (pydict string))
    (chapter : string) : list string :=
  match dict_get raw_sourcemap chapter with
  | Some raw_sourcemap_ch =>
      match new_sourcemap raw_sourcemap_ch with
      | Ok ch_sourcemap => object_names ch_sourcemap
      | Raise _ => []
      end
  | None => []
  end.

(** The file [name] of the object directory [d], when both are there. *)
Definition file_at (d : string * string) (name : string) (st : fs)
  : option (pydict string) :=
  obj_dirs st !! d ≫= (λ dir, dir !! name).

(** What a file holds after [emit]. *)
Definition emitted (obj : pydict string) : option (pydict string) :=
  match obj with [] => None | _ :: _ => Some obj end.

(** What a run leaves alone: the documents, the source maps of other
    chapters, the object directories of other chapters and languages. *)
Definition split_frame (st st' : fs) : Prop :=
  documents st' = documents st
  ∧ (∀ chapter, chapter ∉ CHAPTERS →
                sourcemaps st' !! chapter = sourcemaps st !! chapter)
  ∧ ∀ d, d.1 ∉ CHAPTERS ∨ d.2 ∉ LANGS → obj_dirs st' !! d = obj_dirs st !! d.

(** A dump of chapter 1 alone, and a store with an object file of an
    earlier run. *)
Definition split_raw_sourcemap : pydict (pydict string) := [("1", c9_sourcemap)].
Definition split_raw_lang : pydict (pydict (pydict string)) :=
  [("1", [("en", c1_strings); ("ja", c1_strings)])].
Definition split_fs : fs :=
  mk_fs {[ ("1", "en") := {[ "old.json" := [("k0", "zero")] ]} ]} ∅ ∅.

(** ** Updater: [fetch_dump]

    The working directory holds the dump files by name, each as its text.
    [urlopen] stands for the network: the text behind a URL, or nothing when
    the request, the read or the decoding raises. *)
Definition BASEURL : string :=
  "https://raw.githubusercontent.com/HushBugger/hushbugger.github.io/refs/heads/master/deltarune/text".

Definition dump_url (filename : string) : string :=
  BASEURL +:+ "/" +:+ filename.

(** Lines 179-183. [open(filename, "w")] empties the file before the
    request is made; when the request raises, the file is closed as it is
    and the exception leaves the loop. The result is [None] when the run
    raises. *)
Fixpoint fetch_dump (urlopen : string → option string) (files : list string)
    (wd : gmap string string) : option unit * gmap string string :=
  match files with
  | [] => (Some (), wd)
  | filename :: files' =>
      let wd := <[filename := ""]> wd in
      match urlopen (dump_url filename) with
      | None => (None, wd)
      | Some text => fetch_dump urlopen files' (<[filename := text]> wd)
      end
  end.

(** A network on which [sourcemap.json] cannot be had. *)
Definition net_without_sourcemap (url : string) : option string :=
  if decide (url = dump_url "lang.json") then Some "{}" else None.

(** A dump with the same raw maps in each of the four chapters. *)
Definition full_raw_sourcemap : pydict (pydict string) :=
  (λ chapter, (chapter, c9_sourcemap)) <$> CHAPTERS.
Definition full_raw_lang : pydict (pydict (pydict string)) :=
  (λ chapter, (chapter, [("en", c1_strings); ("ja", c1_strings)])) <$> CHAPTERS.

(** A dump in which two files of a chapter, [a.gml] and [a], share the
    object file name [a.json]. *)
Definition c1_shared_sourcemap : pydict string :=
  [("k1", "a.gml:1"); ("k2", "a:1")].
Definition c1_shared_strings : pydict string := [("k1", "one"); ("k2", "two")].
Definition c1_shared_raw_sourcemap : pydict (pydict string) :=
  (λ chapter, (chapter, c1_shared_sourcemap)) <$> CHAPTERS.
Definition c1_shared_raw_lang : pydict (pydict (pydict string)) :=
  (λ chapter, (chapter, [("en", c1_shared_strings); ("ja", c1_shared_strings)]))
    <$> CHAPTERS.

(** * Properties *)

(** ** Strings and the natural sort key *)

Lemma smartsort_loop_from (pre pieces : list string) :
  foldl (λ pieces ip,
           if isdigit ip.2 then <[ip.1 := rjust 16 "0" ip.2]> pieces
           else pieces)
        (pre ++ pieces) (imap (λ i x, (length pre + i, x)) pieces)
  = pre ++ (pad_segment <$> pieces).
Proof.
  revert pre. induction pieces as [|x pieces IH]; intros pre; [done|].
  rewrite imap_cons. cbn [foldl fst snd fmap list_fmap].
  assert (Hstep :
    (if isdigit x then <[length pre + 0 := rjust 16 "0" x]> (pre ++ x :: pieces)
     else pre ++ x :: pieces) = (pre ++ [pad_segment x]) ++ pieces).
  { unfold pad_segment. rewrite <- app_assoc. cbn [app].
    destruct (isdigit x); [|done]. by rewrite insert_app_r. }
  rewrite Hstep.
  rewrite (imap_ext _ (λ i x0, (length (pre ++ [pad_segment x]) + i, x0))).
  - rewrite IH. by rewrite <- app_assoc.
  - intros i y _. cbn. rewrite length_app. cbn. f_equal. lia.
Qed.

Lemma smartsort_loop_map (pieces : list string) :
  smartsort_loop pieces = pad_segment <$> pieces.
Proof. exact (smartsort_loop_from [] pieces). Qed.

Lemma string_app_cons c (s1 s2 : string) :
  String c s1 +:+ s2 = String c (s1 +:+ s2).
Proof. reflexivity. Qed.

Lemma string_app_nil (s : string) : "" +:+ s = s.
Proof. reflexivity. Qed.

Lemma length_fill_chars n c : String.length (fill_chars n c) = n.
Proof. induction n; simpl; by f_equal. Qed.

Lemma length_string_app (s1 s2 : string) :
  String.length (s1 +:+ s2) = String.length s1 + String.length s2.
Proof.
  induction s1 as [|c s1 IH]; [done|].
  rewrite string_app_cons. simpl. by f_equal.
Qed.

Lemma all_chars_app p (s1 s2 : string) :
  all_chars p (s1 +:+ s2) = all_chars p s1 && all_chars p s2.
Proof.
  induction s1 as [|c s1 IH]; [done|].
  rewrite string_app_cons. simpl. by rewrite IH, andb_assoc.
Qed.

Lemma all_chars_fill p n c : p c = true → all_chars p (fill_chars n c) = true.
Proof. intros Hc. induction n; cbn; [done|]. by rewrite Hc. Qed.

Lemma isdecimal_all s : isdecimal s = true → all_chars isdecimal_char s = true.
Proof. by destruct s. Qed.

Lemma isdecimal_char_isdigit c : isdecimal_char c = true → isdigit_char c = true.
Proof. unfold isdecimal_char, isdigit_char. cbn. by intros ->. Qed.

Lemma isdecimal_isdigit s : isdecimal s = true → isdigit s = true.
Proof.
  destruct s as [|c s]; [done|]. unfold isdecimal, isdigit.
  generalize (String c s). clear. intros s. induction s as [|c s IH]; cbn; [done|].
  intros [Hc Hs]%andb_prop. by rewrite (isdecimal_char_isdigit _ Hc), IH.
Qed.

Lemma int_of_digits_from_spec acc s :
  int_of_digits_from acc s
  = (acc * 10 ^ Z.of_nat (String.length s) + int_of_digits s)%Z.
Proof.
  unfold int_of_digits. revert acc.
  induction s as [|c s IH]; intros acc; cbn [int_of_digits_from String.length].
  - cbn. lia.
  - rewrite IH, (IH (10 * 0 + _)%Z). rewrite Nat2Z.inj_succ, Z.pow_succ_r by lia.
    ring.
Qed.

Lemma int_of_digits_cons c s :
  int_of_digits (String c s)
  = (digit_value c * 10 ^ Z.of_nat (String.length s) + int_of_digits s)%Z.
Proof.
  unfold int_of_digits at 1. cbn [int_of_digits_from].
  rewrite int_of_digits_from_spec. lia.
Qed.

Lemma digit_value_range c :
  isdecimal_char c = true → (0 ≤ digit_value c ≤ 9)%Z.
Proof.
  unfold isdecimal_char, digit_value. cbn zeta.
  intros [H1 H2]%andb_prop. apply Nat.leb_le in H1, H2. lia.
Qed.

Lemma int_of_digits_range s :
  all_chars isdecimal_char s = true →
  (0 ≤ int_of_digits s < 10 ^ Z.of_nat (String.length s))%Z.
Proof.
  induction s as [|c s IH]; [cbn; lia|].
  cbn [all_chars]. intros [Hc Hs]%andb_prop.
  rewrite int_of_digits_cons. cbn [String.length].
  rewrite Nat2Z.inj_succ, Z.pow_succ_r by lia.
  pose proof (digit_value_range _ Hc). specialize (IH Hs). nia.
Qed.

Lemma compare_digits (a b : string) :
  String.length a = String.length b →
  all_chars isdecimal_char a = true → all_chars isdecimal_char b = true →
  String.compare a b = (int_of_digits a ?= int_of_digits b)%Z.
Proof.
  revert b. induction a as [|c a IH]; intros [|d b] Hlen Ha Hb; try done.
  simpl in Hlen, Ha, Hb. apply andb_prop in Ha as [Hc Ha], Hb as [Hd Hb].
  injection Hlen as Hlen.
  rewrite !int_of_digits_cons, <- Hlen. cbn [String.compare].
  pose proof (int_of_digits_range _ Ha) as Ra.
  pose proof (int_of_digits_range _ Hb) as Rb. rewrite <- Hlen in Rb.
  assert (Hcmp : Ascii.compare c d = (digit_value c ?= digit_value d)%Z).
  { unfold Ascii.compare, digit_value, nat_of_ascii.
    rewrite !N_nat_Z, <- N2Z.inj_compare.
    destruct (Z.compare_spec (Z.of_N (N_of_ascii c)) (Z.of_N (N_of_ascii d)));
      symmetry; [apply Z.compare_eq_iff|apply Z.compare_lt_iff|apply Z.compare_gt_iff];
      lia. }
  rewrite Hcmp, (IH b Hlen Ha Hb).
  set (p := (10 ^ Z.of_nat (String.length a))%Z) in *.
  destruct (Z.compare_spec (digit_value c) (digit_value d)) as [->|?|?].
  - destruct (Z.compare_spec (int_of_digits a) (int_of_digits b));
      symmetry; [apply Z.compare_eq_iff|apply Z.compare_lt_iff|apply Z.compare_gt_iff]; lia.
  - symmetry. apply Z.compare_lt_iff. nia.
  - symmetry. apply Z.compare_gt_iff. nia.
Qed.

Lemma int_of_digits_fill n (s : string) :
  int_of_digits (fill_chars n "0" +:+ s) = int_of_digits s.
Proof.
  induction n as [|n IH]; [done|].
  simpl fill_chars. rewrite string_app_cons, int_of_digits_cons, IH.
  by vm_compute (digit_value "0").
Qed.

Lemma rjust_decimal (s : string) :
  isdecimal s = true → String.length s ≤ 16 →
  String.length (rjust 16 "0" s) = 16
  ∧ all_chars isdecimal_char (rjust 16 "0" s) = true
  ∧ int_of_digits (rjust 16 "0" s) = int_of_digits s.
Proof.
  intros Hs Hlen. unfold rjust. split_and!.
  - rewrite length_string_app, length_fill_chars. lia.
  - rewrite all_chars_app, all_chars_fill by done. by apply isdecimal_all.
  - apply int_of_digits_fill.
Qed.

Lemma pad_segment_decimal (s : string) :
  isdecimal s = true → pad_segment s = rjust 16 "0" s.
Proof. intros Hs. unfold pad_segment. by rewrite isdecimal_isdigit. Qed.

Lemma compare_padded (a b : string) :
  isdecimal a = true → isdecimal b = true →
  String.length a ≤ 16 → String.length b ≤ 16 →
  String.compare (pad_segment a) (pad_segment b)
  = (int_of_digits a ?= int_of_digits b)%Z.
Proof.
  intros Ha Hb La Lb. rewrite !pad_segment_decimal by done.
  destruct (rjust_decimal a Ha La) as (La' & Da & <-).
  destruct (rjust_decimal b Hb Lb) as (Lb' & Db & <-).
  apply compare_digits; [congruence|done..].
Qed.

Lemma string_compare_refl (s : string) : String.compare s s = Eq.
Proof.
  induction s as [|c s IH]; [done|]. simpl.
  unfold Ascii.compare. by rewrite N.compare_refl.
Qed.

Lemma string_eqb_compare (a b : string) :
  String.eqb a b = match String.compare a b with Eq => true | _ => false end.
Proof.
  destruct (String.eqb_spec a b) as [->|Hne].
  - by rewrite string_compare_refl.
  - destruct (String.compare a b) eqn:Hc; [|done..].
    by apply String.compare_eq_iff in Hc.
Qed.

Lemma list_ltb_padded (p1 p2 : list string) :
  Forall (λ s, isdecimal s = true ∧ String.length s ≤ 16) p1 →
  Forall (λ s, isdecimal s = true ∧ String.length s ≤ 16) p2 →
  list_ltb (pad_segment <$> p1) (pad_segment <$> p2)
  = int_list_ltb (int_of_digits <$> p1) (int_of_digits <$> p2).
Proof.
  intros H1. revert p2. induction H1 as [|a p1 [Ha La] _ IH];
    intros p2 H2; destruct H2 as [|b p2 [Hb Lb] H2]; try done.
  cbn [fmap list_fmap list_ltb int_list_ltb].
  rewrite string_eqb_compare. unfold String.ltb.
  rewrite (compare_padded a b) by done. rewrite (IH p2 H2).
  rewrite Z.eqb_compare, Z.ltb_compare.
  by destruct (int_of_digits a ?= int_of_digits b)%Z.
Qed.

(** C5. The Natural Sort Key splits a position token at underscores, pads
    each segment of digits on the left with zeros to 16 characters and keeps
    any other segment; on segments of at most 16 decimal digits the padded
    strings compare as the integers do, so the keys of tokens made of such
    segments compare as the sequences of integers do; the key of [9] is less
    than the key of [10]. *)
Theorem smartsort_natural_order :
  (∀ (V : Type) (k_and_v : string * V),
      smartsort k_and_v
      = (λ piece, if isdigit piece then rjust 16 "0" piece else piece)
          <$> split "_" k_and_v.1)
  ∧ (∀ piece, String.length piece ≤ 16 →
        rjust 16 "0" piece
        = fill_chars (16 - String.length piece) "0" +:+ piece
        ∧ String.length (rjust 16 "0" piece) = 16)
  ∧ (∀ a b, isdecimal a = true → isdecimal b = true →
        String.length a ≤ 16 → String.length b ≤ 16 →
        String.compare (rjust 16 "0" a) (rjust 16 "0" b)
        = (int_of_digits a ?= int_of_digits b)%Z)
  ∧ (∀ (V : Type) (t1 t2 : string * V),
        Forall (λ s, isdecimal s = true ∧ String.length s ≤ 16) (split "_" t1.1) →
        Forall (λ s, isdecimal s = true ∧ String.length s ≤ 16) (split "_" t2.1) →
        list_ltb (smartsort t1) (smartsort t2)
        = int_list_ltb (int_of_digits <$> split "_" t1.1)
                       (int_of_digits <$> split "_" t2.1))
  ∧ list_ltb (smartsort ("9", "k1")) (smartsort ("10", "k2")) = true
  ∧ list_ltb (smartsort ("10", "k2")) (smartsort ("9", "k1")) = false.
Proof.
  split_and!.
  - intros V kv. unfold smartsort. apply smartsort_loop_map.
  - intros piece Hlen. split; [done|].
    unfold rjust. rewrite length_string_app, length_fill_chars. lia.
  - intros a b Ha Hb La Lb. rewrite <- !pad_segment_decimal by done.
    by apply compare_padded.
  - intros V t1 t2 H1 H2. unfold smartsort. rewrite !smartsort_loop_map.
    by apply list_ltb_padded.
  - reflexivity.
  - reflexivity.
Qed.

Lemma smartsort_natural_order_witness :
  list_ltb (smartsort ("9_5", "k1")) (smartsort ("10_1", "k2"))
  = int_list_ltb (int_of_digits <$> split "_" "9_5")
                 (int_of_digits <$> split "_" "10_1").
Proof.
  apply (proj1 (proj2 (proj2 (proj2 smartsort_natural_order)))
           string ("9_5", "k1") ("10_1", "k2"));
    repeat constructor.
Defined.

(** ** Dictionaries *)

Section dict.
Context {V : Type}.
Implicit Types (d : pydict V) (k : string) (v : V).

Lemma dict_get_None d k : dict_get d k = None ↔ k ∉ d.*1.
Proof.
induction d as [|[k' v'] d IH]; simpl.
- split; [intros _; apply not_elem_of_nil|done].
- rewrite not_elem_of_cons. case_decide; [|rewrite IH]; intuition congruence.
Qed.

Lemma dict_get_is_Some d k : is_Some (dict_get d k) ↔ k ∈ d.*1.
Proof.
rewrite <- not_eq_None_Some, dict_get_None.
destruct (decide (k ∈ d.*1)); tauto.
Qed.

Lemma dict_mem_spec d k : dict_mem k d = true ↔ k ∈ d.*1.
Proof. unfold dict_mem. by rewrite bool_decide_eq_true, dict_get_is_Some. Qed.

Lemma dict_mem_false d k : dict_mem k d = false ↔ k ∉ d.*1.
Proof. unfold dict_mem. by rewrite bool_decide_eq_false, dict_get_is_Some. Qed.

Lemma dict_get_set d k v k' :
dict_get (dict_set d k v) k' = if decide (k = k') then Some v else dict_get d k'.
Proof.
induction d as [|[k0 v0] d IH]; simpl.
- done.
- repeat (case_decide; simpl; subst); try done; by rewrite IH, ?decide_True, ?decide_False.
Qed.

Lemma dict_set_fresh d k v : k ∉ d.*1 → dict_set d k v = d ++ [(k, v)].
Proof.
induction d as [|[k0 v0] d IH]; simpl; [done|].
intros [? ?]%not_elem_of_cons. rewrite decide_False by done. by rewrite IH.
Qed.

Lemma dict_set_keys_old d k v : k ∈ d.*1 → (dict_set d k v).*1 = d.*1.
Proof.
induction d as [|[k0 v0] d IH]; simpl; [by intros ?%elem_of_nil|].
intros Hin. case_decide; simpl; [by subst|].
f_equal. apply IH. apply elem_of_cons in Hin as [->|]; done.
Qed.

Lemma dict_set_keys d k v :
(dict_set d k v).*1 = if decide (k ∈ d.*1) then d.*1 else d.*1 ++ [k].
Proof.
case_decide.
- by apply dict_set_keys_old.
- rewrite dict_set_fresh by done. by rewrite fmap_app.
Qed.

Lemma elem_of_dict_set_keys d k v k' :
k' ∈ (dict_set d k v).*1 ↔ k' = k ∨ k' ∈ d.*1.
Proof.
rewrite dict_set_keys.
case_decide; [|rewrite elem_of_app, list_elem_of_singleton];
  intuition congruence.
Qed.

Lemma dict_set_NoDup d k v : NoDup d.*1 → NoDup (dict_set d k v).*1.
Proof.
intros Hd. rewrite dict_set_keys. case_decide; [done|].
apply NoDup_app. split_and!; [done| |apply NoDup_singleton].
intros x Hx ->%list_elem_of_singleton. done.
Qed.

Lemma dict_set_values d k v : (dict_set d k v).*2 ⊆+ v :: d.*2.
Proof.
induction d as [|[k0 v0] d IH]; simpl; [done|].
case_decide; simpl.
- by apply submseteq_skip, submseteq_cons.
- etrans; [apply submseteq_skip, IH|]. by rewrite Permutation_swap.
Qed.

Lemma dict_set_not_nil d k v : dict_set d k v ≠ [].
Proof. destruct d as [|[??] ?]; simpl; [done|]. by case_decide. Qed.

Lemma elem_of_dict_update_keys d other k :
k ∈ (dict_update d other).*1 ↔ k ∈ d.*1 ∨ k ∈ other.*1.
Proof.
unfold dict_update. revert d.
induction other as [|[k0 v0] other IH]; intros d; simpl.
- rewrite elem_of_nil. tauto.
- rewrite IH, elem_of_dict_set_keys, elem_of_cons. tauto.
Qed.

Lemma dict_update_NoDup d other : NoDup d.*1 → NoDup (dict_update d other).*1.
Proof.
unfold dict_update. revert d.
induction other as [|[k0 v0] other IH]; intros d Hd; simpl; [done|].
by apply IH, dict_set_NoDup.
Qed.

Lemma dict_get_update d other k :
NoDup other.*1 →
dict_get (dict_update d other) k
= match dict_get other k with Some v => Some v | None => dict_get d k end.
Proof.
unfold dict_update. revert d.
induction other as [|[k0 v0] other IH]; intros d Hnd; simpl in *; [done|].
apply NoDup_cons in Hnd as [Hk0 Hnd]. rewrite IH by done.
rewrite dict_get_set. case_decide; subst; [|done].
by apply dict_get_None in Hk0 as ->.
Qed.

Lemma dict_update_nil d : dict_update d [] = d.
Proof. done. Qed.

Lemma dict_of_items_NoDup (l : pydict V) : NoDup (dict_of_items l).*1.
Proof. apply dict_update_NoDup. simpl. constructor. Qed.

End dict.

(** ** Loops that may raise *)

Ltac result_simpl :=
  unfold mbind, result_bind in *; cbn beta iota zeta delta [fst snd] in *.

Lemma foldlM_app {A S : Type} (f : S → A → result S) (s : S) (l1 l2 : list A) :
  foldlM f s (l1 ++ l2) = s' ← foldlM f s l1; foldlM f s' l2.
Proof.
  revert s. induction l1 as [|a l1 IH]; intros s; cbn [app foldlM]; result_simpl;
    [done|].
  destruct (f s a) as [s'|e]; result_simpl; [apply IH|done].
Qed.

Lemma foldlM_snoc {A S : Type} (f : S → A → result S) (s : S) (l : list A) a :
  foldlM f s (l ++ [a]) = s' ← foldlM f s l; f s' a.
Proof.
  rewrite foldlM_app. destruct (foldlM f s l) as [s'|e]; cbn [foldlM];
    result_simpl; [|done].
  by destruct (f s' a).
Qed.

(** ** Counting locations *)

Lemma occurrences_app v l1 l2 :
  occurrences v (l1 ++ l2) = occurrences v l1 + occurrences v l2.
Proof. unfold occurrences. by rewrite filter_app, length_app. Qed.

Lemma occurrences_cons v x l :
  occurrences v (x :: l) = (if decide (x = v) then 1 else 0) + occurrences v l.
Proof. unfold occurrences. rewrite filter_cons. by case_decide. Qed.

Lemma occurrences_0 v l : occurrences v l = 0 ↔ v ∉ l.
Proof.
  induction l as [|x l IH]; [split; [intros _; apply not_elem_of_nil|done]|].
  rewrite occurrences_cons, not_elem_of_cons.
  case_decide; [split; [lia|intros [? _]; congruence]|].
  rewrite IH. intuition congruence.
Qed.

Lemma occurrences_NoDup v l : NoDup l → v ∈ l → occurrences v l = 1.
Proof.
  induction l as [|x l IH]; [by intros _ ?%elem_of_nil|].
  intros [Hx Hl]%NoDup_cons Hin. rewrite occurrences_cons.
  case_decide as Hxv.
  - subst. apply occurrences_0 in Hx. lia.
  - apply elem_of_cons in Hin as [->|Hin]; [done|]. by rewrite IH.
Qed.

Lemma count_dups_snoc (filenos : list string) x :
  count_dups (filenos ++ [x])
  = dict_set (count_dups filenos) x
      (match dict_get (count_dups filenos) x with
       | None => 1
       | Some count => count + 1
       end).
Proof. unfold count_dups. rewrite foldl_snoc. by destruct (dict_get _ x). Qed.

Lemma count_dups_get (filenos : list string) v :
  dict_get (count_dups filenos) v
  = if decide (v ∈ filenos) then Some (occurrences v filenos) else None.
Proof.
  induction filenos as [|x l IH] using rev_ind.
  - by rewrite decide_False by apply not_elem_of_nil.
  - rewrite count_dups_snoc, dict_get_set, occurrences_app, occurrences_cons.
    unfold occurrences at 2. simpl.
    destruct (decide (x = v)) as [->|Hne].
    + rewrite IH.
      rewrite (decide_True (P := v ∈ l ++ [v])) by (apply elem_of_app; right; left).
      case_decide as Hin; [f_equal; lia|].
      apply occurrences_0 in Hin. by rewrite Hin.
    + rewrite IH. rewrite Nat.add_0_r.
      destruct (decide (v ∈ l)) as [Hin|Hin].
      * rewrite decide_True; [done|]. apply elem_of_app. by left.
      * rewrite decide_False; [done|].
        rewrite elem_of_app, list_elem_of_singleton. intuition congruence.
Qed.

(** ** The disambiguation counter *)

Lemma split_location_Ok v filename lineno :
  split_location v = Ok (filename, lineno) ↔ split ":" v = [filename; lineno].
Proof.
  unfold split_location.
  destruct (split ":" v) as [|f [|l [|x r]]]; split; intros [=]; by subst.
Qed.

Lemma split_location_well_formed v :
  well_formed_location v ↔ ∃ loc, split_location v = Ok loc.
Proof.
  split.
  - intros (f & l & H). exists (f, l). by apply split_location_Ok.
  - intros ([f l] & H). exists f, l. by apply split_location_Ok.
Qed.

Lemma sourcemap_step_unfold linedups dupecount ch_sourcemap k v :
  sourcemap_step linedups (dupecount, ch_sourcemap) (k, v)
  = match split_location v with
    | Ok loc =>
        match disambiguate linedups dupecount v loc.2 with
        | Ok dl =>
            Ok (dl.1, record_position (ensure_file ch_sourcemap loc.1) loc.1 dl.2 k)
        | Raise e => Raise e
        end
    | Raise e => Raise e
    end.
Proof. reflexivity. Qed.

Lemma position_tokens_cons linedups dupecount k v entries :
  position_tokens linedups dupecount ((k, v) :: entries)
  = match split_location v with
    | Ok loc =>
        match disambiguate linedups dupecount v loc.2 with
        | Ok dl =>
            match position_tokens linedups dl.1 entries with
            | Ok rest => Ok (rest.1, (k, loc.1, dl.2) :: rest.2)
            | Raise e => Raise e
            end
        | Raise e => Raise e
        end
    | Raise e => Raise e
    end.
Proof. reflexivity. Qed.

Lemma sourcemap_loop_tokens linedups dupecount ch_sourcemap entries :
  foldlM (sourcemap_step linedups) (dupecount, ch_sourcemap) entries
  = r ← position_tokens linedups dupecount entries;
    Ok (r.1, record_tokens ch_sourcemap r.2).
Proof.
  revert dupecount ch_sourcemap.
  induction entries as [|[k v] entries IH]; intros c sm; [done|].
  cbn [foldlM position_tokens]. result_simpl. rewrite sourcemap_step_unfold.
  destruct (split_location v) as [[f l]|e]; result_simpl; [|done].
  destruct (disambiguate linedups c v l) as [[c' tok]|e]; result_simpl; [|done].
  rewrite IH. by destruct (position_tokens linedups c' entries) as [[c'' toks]|e].
Qed.

Lemma position_tokens_app linedups dupecount l1 l2 :
  position_tokens linedups dupecount (l1 ++ l2)
  = r1 ← position_tokens linedups dupecount l1;
    r2 ← position_tokens linedups r1.1 l2;
    Ok (r2.1, r1.2 ++ r2.2).
Proof.
  revert dupecount.
  induction l1 as [|[k v] l1 IH]; intros c; cbn [app position_tokens]; result_simpl.
  - by destruct (position_tokens linedups c l2) as [[c2 t2]|e].
  - destruct (split_location v) as [[f l]|e]; result_simpl; [|done].
    destruct (disambiguate linedups c v l) as [[c' tok]|e]; result_simpl; [|done].
    rewrite IH.
    destruct (position_tokens linedups c' l1) as [[c1 t1]|e]; result_simpl; [|done].
    by destruct (position_tokens linedups c1 l2) as [[c2 t2]|e].
Qed.

Lemma disambiguate_count (entries : pydict string) dupecount v lineno :
  v ∈ entries.*2 →
  disambiguate (count_dups entries.*2) dupecount v lineno
  = if decide (occurrences v entries.*2 = 1) then Ok (0, lineno)
    else Ok (S dupecount, lineno +:+ "_" +:+ pretty (S dupecount)).
Proof.
  intros Hin. unfold disambiguate. rewrite count_dups_get, decide_True by done.
  assert (occurrences v entries.*2 ≠ 0) by by intros ?%occurrences_0.
  case_decide as H1.
  - by rewrite H1.
  - destruct (Nat.ltb_spec 1 (occurrences v entries.*2)); [done|lia].
Qed.

(** Entries whose locations occur once leave the counter at zero. *)
Lemma position_tokens_singles linedups dupecount (l : pydict string) :
  Forall (λ kv, well_formed_location kv.2 ∧ dict_get linedups kv.2 = Some 1) l →
  ∃ toks,
    position_tokens linedups dupecount l
    = Ok (match l with [] => dupecount | _ :: _ => 0 end, toks)
    ∧ length toks = length l.
Proof.
  intros Hl. revert dupecount.
  induction Hl as [|[k v] l [Hwf Hc] _ IH]; intros c; [by exists []|].
  cbn [position_tokens]. simpl in Hwf, Hc.
  apply split_location_well_formed in Hwf as [[f ln] Hwf].
  unfold disambiguate. result_simpl. rewrite Hwf, Hc.
  change (1 <? 1) with false. result_simpl.
  destruct (IH 0) as (toks & -> & Hlen). result_simpl.
  exists ((k, f, ln) :: toks). split; [by destruct l|simpl; lia].
Qed.

(** C3. While the loop over a chapter's raw source map runs, an entry whose
    location occurs once in the chapter sets the counter to 0 and is recorded
    under its bare line number; an entry whose location occurs more than once
    increments the counter by one and is recorded under the line number
    followed by [_N], N being the counter after the increment. *)
Theorem dupecount_reset_and_increment
    (raw_sourcemap_ch pre post : pydict string) (k v filename lineno : string)
    (dupecount : nat) (ch_sourcemap : pydict (pydict string)) :
  raw_sourcemap_ch = pre ++ (k, v) :: post →
  sourcemap_loop (count_dups raw_sourcemap_ch.*2) pre = Ok (dupecount, ch_sourcemap) →
  split_location v = Ok (filename, lineno) →
  1 ≤ occurrences v raw_sourcemap_ch.*2
  ∧ (occurrences v raw_sourcemap_ch.*2 = 1 →
     sourcemap_loop (count_dups raw_sourcemap_ch.*2) (pre ++ [(k, v)])
     = Ok (0, record_position (ensure_file ch_sourcemap filename)
                filename lineno k))
  ∧ (1 < occurrences v raw_sourcemap_ch.*2 →
     sourcemap_loop (count_dups raw_sourcemap_ch.*2) (pre ++ [(k, v)])
     = Ok (S dupecount,
           record_position (ensure_file ch_sourcemap filename) filename
             (lineno +:+ "_" +:+ pretty (S dupecount)) k)).
Proof.
  intros Hraw Hpre Hloc.
  assert (Hin : v ∈ raw_sourcemap_ch.*2).
  { rewrite Hraw, fmap_app, fmap_cons. apply elem_of_app. right. left. }
  assert (Hstep : sourcemap_loop (count_dups raw_sourcemap_ch.*2) (pre ++ [(k, v)])
    = dl ← disambiguate (count_dups raw_sourcemap_ch.*2) dupecount v lineno;
      Ok (dl.1, record_position (ensure_file ch_sourcemap filename)
                  filename dl.2 k)).
  { unfold sourcemap_loop in *. rewrite foldlM_snoc, Hpre. result_simpl.
    rewrite sourcemap_step_unfold, Hloc. by result_simpl. }
  rewrite Hstep, (disambiguate_count _ _ _ _ Hin).
  split_and!.
  - destruct (occurrences v raw_sourcemap_ch.*2) eqn:H0; [|lia].
    by apply occurrences_0 in H0.
  - intros H1. by rewrite decide_True.
  - intros H1. by rewrite decide_False by lia.
Qed.

Lemma dupecount_reset_and_increment_witness :
  1 ≤ occurrences "a.gml:7" c3_example.*2
  ∧ (occurrences "a.gml:7" c3_example.*2 = 1 →
     sourcemap_loop (count_dups c3_example.*2)
       ([("k1", "a.gml:7")] ++ [("k2", "a.gml:7")])
     = Ok (0, record_position (ensure_file [("a.gml", [("7_1", "k1")])] "a.gml")
                "a.gml" "7" "k2"))
  ∧ (1 < occurrences "a.gml:7" c3_example.*2 →
     sourcemap_loop (count_dups c3_example.*2)
       ([("k1", "a.gml:7")] ++ [("k2", "a.gml:7")])
     = Ok (2, record_position (ensure_file [("a.gml", [("7_1", "k1")])] "a.gml")
                "a.gml" ("7" +:+ "_" +:+ pretty 2) "k2")).
Proof.
  apply (dupecount_reset_and_increment c3_example
           [("k1", "a.gml:7")] [("k3", "a.gml:9")] "k2" "a.gml:7" "a.gml" "7"
           1 [("a.gml", [("7_1", "k1")])]); reflexivity.
Defined.

(** C2, as stated, fails: two keys on the line [file.gml:42] receive the
    tokens [42_1] and [42_2], which the claim excludes, and not [42] and
    [42_1]. *)
Lemma same_line_pair_counterexample :
  position_tokens (count_dups same_line_pair.*2) 0 same_line_pair
  = Ok (2, [("k1", "file.gml", "42_1"); ("k2", "file.gml", "42_2")])
  ∧ new_sourcemap same_line_pair
    = Ok [("file.gml", [("42_1", "k1"); ("42_2", "k2")])]
  ∧ ¬ (∃ c, position_tokens (count_dups same_line_pair.*2) 0 same_line_pair
            = Ok (c, [("k1", "file.gml", "42"); ("k2", "file.gml", "42_1")])).
Proof.
  split_and!; [reflexivity..|].
  intros [c Hc]. vm_compute in Hc. discriminate Hc.
Qed.

Lemma pair_occurrences (l1 l2 l3 : list string) (v x : string) :
  occurrences x (l1 ++ v :: l2 ++ v :: l3)
  = occurrences x (l1 ++ l2 ++ l3) + (if decide (v = x) then 2 else 0).
Proof.
  rewrite !occurrences_app, !occurrences_cons, !occurrences_app, !occurrences_cons.
  case_decide; lia.
Qed.

(** C2, amended. When exactly two keys share the location [file.gml:42] and
    no other location is repeated, the first of the two receives the token
    [42_1]; the second receives [42_2] when it follows the first directly,
    and [42_1] again when other entries lie between them. *)
Theorem same_line_pair_tokens (l1 l2 l3 : pydict string) (k1 k2 : string) :
  "file.gml:42" ∉ (l1 ++ l2 ++ l3).*2 →
  NoDup (l1 ++ l2 ++ l3).*2 →
  Forall (λ kv, well_formed_location kv.2) (l1 ++ l2 ++ l3) →
  ∃ c toks,
    position_tokens
      (count_dups (l1 ++ (k1, "file.gml:42") :: l2 ++ (k2, "file.gml:42") :: l3).*2)
      0 (l1 ++ (k1, "file.gml:42") :: l2 ++ (k2, "file.gml:42") :: l3)
    = Ok (c, toks)
    ∧ toks !! length l1 = Some (k1, "file.gml", "42_1")
    ∧ toks !! (length l1 + S (length l2))
      = Some (k2, "file.gml", match l2 with [] => "42_2" | _ :: _ => "42_1" end).
Proof.
  intros Hnotin Hnd Hwf.
  set (entries := l1 ++ (k1, "file.gml:42") :: l2 ++ (k2, "file.gml:42") :: l3).
  set (linedups := count_dups entries.*2).
  assert (Hvals : entries.*2
                  = l1.*2 ++ "file.gml:42" :: l2.*2 ++ "file.gml:42" :: l3.*2).
  { unfold entries. by rewrite fmap_app, fmap_cons, fmap_app, fmap_cons. }
  assert (Hpair : dict_get linedups "file.gml:42" = Some 2).
  { unfold linedups. rewrite count_dups_get, Hvals, pair_occurrences.
    rewrite decide_True by (apply elem_of_app; right; left).
    rewrite decide_True by done. f_equal.
    rewrite !fmap_app in Hnotin. apply occurrences_0 in Hnotin. lia. }
  assert (Hsingle : ∀ l, l ⊆ l1 ++ l2 ++ l3 →
    Forall (λ kv, well_formed_location kv.2 ∧ dict_get linedups kv.2 = Some 1) l).
  { intros l Hl. apply Forall_forall. intros [k v] Hkv. apply Hl in Hkv.
    split; [by apply (proj1 (Forall_forall _ _) Hwf (k, v))|]. simpl.
    assert (Hv : v ∈ (l1 ++ l2 ++ l3).*2)
      by (apply list_elem_of_fmap; by exists (k, v)).
    unfold linedups. rewrite count_dups_get, Hvals, pair_occurrences.
    rewrite (decide_False (P := "file.gml:42" = v)) by (by intros <-).
    rewrite <- !fmap_app, (occurrences_NoDup _ _ Hnd Hv).
    rewrite decide_True; [done|].
    rewrite !fmap_app, !elem_of_app in Hv.
    rewrite !elem_of_app, !elem_of_cons, !elem_of_app, !elem_of_cons. tauto. }
  destruct (position_tokens_singles linedups 0 l1) as (t1 & H1 & Hlen1).
  { apply Hsingle. set_solver. }
  destruct (position_tokens_singles linedups 1 l2) as (t2 & H2 & Hlen2).
  { apply Hsingle. set_solver. }
  set (c2 := match l2 with [] => 1 | _ :: _ => 0 end) in *.
  destruct (position_tokens_singles linedups (S c2) l3) as (t3 & H3 & Hlen3).
  { apply Hsingle. set_solver. }
  eexists _, (t1 ++ (k1, "file.gml", "42_1") :: t2 ++ _ :: t3).
  assert (Hc1 : match l1 with [] => 0 | _ :: _ => 0 end = 0) by by destruct l1.
  rewrite Hc1 in H1. clear Hc1.
  fold entries linedups. unfold entries.
  rewrite position_tokens_app, H1. result_simpl.
  rewrite position_tokens_cons.
  change (split_location "file.gml:42") with (Ok ("file.gml", "42") : result _).
  unfold disambiguate at 1. rewrite Hpair. change (1 <? 2) with true.
  result_simpl.
  rewrite position_tokens_app, H2. result_simpl.
  rewrite position_tokens_cons.
  change (split_location "file.gml:42") with (Ok ("file.gml", "42") : result _).
  unfold disambiguate at 1. rewrite Hpair. change (1 <? 2) with true.
  result_simpl. rewrite H3. result_simpl.
  split_and!.
  - reflexivity.
  - rewrite lookup_app_r, Hlen1, Nat.sub_diag by lia. done.
  - rewrite lookup_app_r by lia. rewrite Hlen1.
    replace (length l1 + S (length l2) - length l1) with (S (length l2)) by lia.
    simpl. rewrite lookup_app_r by lia. rewrite Hlen2, Nat.sub_diag. simpl.
    by destruct l2.
Qed.

Lemma same_line_pair_tokens_witness :
  ∃ c toks,
    position_tokens
      (count_dups (c2_before ++ ("k1", "file.gml:42")
                     :: c2_between ++ ("k2", "file.gml:42") :: c2_after).*2)
      0 (c2_before ++ ("k1", "file.gml:42")
           :: c2_between ++ ("k2", "file.gml:42") :: c2_after)
    = Ok (c, toks)
    ∧ toks !! length c2_before = Some ("k1", "file.gml", "42_1")
    ∧ toks !! (length c2_before + S (length c2_between))
      = Some ("k2", "file.gml",
              match c2_between with [] => "42_2" | _ :: _ => "42_1" end).
Proof.
  apply (same_line_pair_tokens c2_before c2_between c2_after "k1" "k2").
  - apply (bool_decide_unpack _). vm_compute. exact I.
  - apply (bool_decide_unpack _). vm_compute. exact I.
  - repeat constructor; eexists _, _; reflexivity.
Defined.

(** ** Keys recorded in the Chapter Source Map *)

Lemma all_values_cons f m (sm : pydict (pydict string)) :
  all_values ((f, m) :: sm) = m.*2 ++ all_values sm.
Proof. reflexivity. Qed.

Lemma all_values_app (sm1 sm2 : pydict (pydict string)) :
  all_values (sm1 ++ sm2) = all_values sm1 ++ all_values sm2.
Proof. unfold all_values. by rewrite fmap_app, join_app. Qed.

(** Replacing the map of one file by one that holds no keys beyond [extra]
    and the old ones adds no keys beyond [extra]. *)
Lemma all_values_dict_set (sm : pydict (pydict string)) f inner' extra :
  inner'.*2 ⊆+ extra ++ (default [] (dict_get sm f)).*2 →
  all_values (dict_set sm f inner') ⊆+ extra ++ all_values sm.
Proof.
  induction sm as [|[f0 m0] sm IH]; simpl; intros Hsub.
  - rewrite all_values_cons. simpl in *. by rewrite !app_nil_r in *.
  - case_decide; simpl in *.
    + rewrite !all_values_cons, app_assoc. by apply submseteq_app.
    + rewrite !all_values_cons.
      etrans; [apply submseteq_app; [reflexivity|apply (IH Hsub)]|].
      apply Permutation_submseteq, Permutation_app_swap_app.
Qed.

Lemma ensure_file_values (sm : pydict (pydict string)) f :
  all_values (ensure_file sm f) = all_values sm.
Proof.
  unfold ensure_file. destruct (dict_get sm f) eqn:Hf; [done|].
  rewrite dict_set_fresh by by apply dict_get_None.
  rewrite all_values_app. unfold all_values at 2. simpl. by rewrite app_nil_r.
Qed.

Lemma record_position_values (sm : pydict (pydict string)) f tok k :
  all_values (record_position (ensure_file sm f) f tok k) ⊆+ k :: all_values sm.
Proof.
  unfold record_position. rewrite <- (ensure_file_values sm f).
  apply (all_values_dict_set _ _ _ [k]). apply dict_set_values.
Qed.

Lemma record_tokens_values (sm : pydict (pydict string)) toks :
  all_values (record_tokens sm toks) ⊆+ toks.*1.*1 ++ all_values sm.
Proof.
  unfold record_tokens. revert sm.
  induction toks as [|[[k f] tok] toks IH]; intros sm; simpl; [done|].
  etrans; [apply IH|].
  etrans; [apply submseteq_app; [reflexivity|apply record_position_values]|].
  apply Permutation_submseteq. by rewrite Permutation_middle.
Qed.

Lemma position_tokens_keys linedups dupecount entries c toks :
  position_tokens linedups dupecount entries = Ok (c, toks) →
  toks.*1.*1 = entries.*1.
Proof.
  revert dupecount c toks.
  induction entries as [|[k v] entries IH]; intros c0 c toks.
  - by intros [= <- <-].
  - rewrite position_tokens_cons.
    destruct (split_location v) as [[f l]|e]; [|done].
    destruct (disambiguate linedups c0 v (f, l).2) as [[c' tok]|e]; [|done].
    destruct (position_tokens linedups (c', tok).1 entries) as [[c'' toks']|e] eqn:Hrest;
      [|done].
    intros [= <- <-]. simpl. f_equal. by eapply IH.
Qed.

Lemma sorted_insert_perm {A} (key : A → list string) x (l : list A) :
  sorted_insert key x l ≡ₚ x :: l.
Proof.
  induction l as [|y l IH]; simpl; [done|].
  destruct (list_ltb (key x) (key y)); [done|].
  by rewrite IH, Permutation_swap.
Qed.

Lemma sorted_perm {A} (key : A → list string) (l : list A) : sorted key l ≡ₚ l.
Proof.
  unfold sorted. rewrite <- (app_nil_r l) at 2. generalize (@nil A) as acc.
  induction l as [|x l IH]; intros acc; simpl; [done|].
  by rewrite IH, sorted_insert_perm, Permutation_middle.
Qed.

Lemma dict_update_values {V} (d other : pydict V) :
  (dict_update d other).*2 ⊆+ other.*2 ++ d.*2.
Proof.
  unfold dict_update. revert d.
  induction other as [|[k v] other IH]; intros d; simpl; [done|].
  etrans; [apply IH|].
  etrans; [apply submseteq_app; [reflexivity|apply dict_set_values]|].
  apply Permutation_submseteq. by rewrite Permutation_middle.
Qed.

Lemma sort_sourcemap_values (sm : pydict (pydict string)) :
  all_values (sort_sourcemap sm) ⊆+ all_values sm.
Proof.
  unfold sort_sourcemap. generalize (dict_keys sm) as keys. intros keys. revert sm.
  induction keys as [|f keys IH]; intros sm; simpl; [done|].
  etrans; [apply IH|]. apply (all_values_dict_set _ _ _ []). simpl.
  unfold dict_of_items. etrans; [apply dict_update_values|].
  simpl. rewrite app_nil_r. apply Permutation_submseteq.
  by rewrite sorted_perm.
Qed.

(** No key is recorded twice in the Chapter Source Map. *)
Lemma new_sourcemap_NoDup (raw_sourcemap_ch : pydict string) ch_sourcemap :
  NoDup (dict_keys raw_sourcemap_ch) →
  new_sourcemap raw_sourcemap_ch = Ok ch_sourcemap →
  NoDup (all_values ch_sourcemap) ∧ all_values ch_sourcemap ⊆ dict_keys raw_sourcemap_ch.
Proof.
  intros Hnd. unfold new_sourcemap, sourcemap_loop.
  rewrite sourcemap_loop_tokens. result_simpl.
  destruct (position_tokens _ 0 raw_sourcemap_ch) as [[c toks]|e] eqn:Htoks; [|done].
  result_simpl. intros [= <-].
  assert (Hsub : all_values (sort_sourcemap (record_tokens [] toks))
                 ⊆+ dict_keys raw_sourcemap_ch).
  { etrans; [apply sort_sourcemap_values|].
    etrans; [apply record_tokens_values|].
    rewrite (position_tokens_keys _ _ _ _ _ Htoks). unfold all_values. simpl.
    by rewrite app_nil_r. }
  split.
  - apply submseteq_Permutation in Hsub as [rest Hperm].
    rewrite Hperm in Hnd. by apply NoDup_app in Hnd as [? _].
  - intros k Hk. by eapply elem_of_submseteq.
Qed.

(** The Chapter Source Map is produced whenever every location has the form
    [file:line]. *)
Lemma position_tokens_total linedups dupecount (entries : pydict string) :
  Forall (λ kv, well_formed_location kv.2 ∧ is_Some (dict_get linedups kv.2))
         entries →
  ∃ r, position_tokens linedups dupecount entries = Ok r.
Proof.
  intros Hall. revert dupecount.
  induction Hall as [|[k v] entries [Hwf [count Hcount]] _ IH]; intros c;
    [by eexists|].
  rewrite position_tokens_cons. simpl in Hwf, Hcount.
  apply split_location_well_formed in Hwf as [[f ln] ->].
  unfold disambiguate. rewrite Hcount. cbn [snd fst].
  destruct (1 <? count); cbn [fst snd].
  - destruct (IH (S c)) as [r ->]. by eexists.
  - destruct (IH 0) as [r ->]. by eexists.
Qed.

Lemma new_sourcemap_total (raw_sourcemap_ch : pydict string) :
  Forall (λ kv, well_formed_location kv.2) raw_sourcemap_ch →
  ∃ ch_sourcemap, new_sourcemap raw_sourcemap_ch = Ok ch_sourcemap.
Proof.
  intros Hwf. unfold new_sourcemap, sourcemap_loop.
  rewrite sourcemap_loop_tokens.
  destruct (position_tokens_total (count_dups raw_sourcemap_ch.*2) 0
              raw_sourcemap_ch) as [r ->]; [|by eexists].
  apply Forall_forall. intros [k v] Hkv. split.
  - by apply (proj1 (Forall_forall _ _) Hwf (k, v)).
  - simpl. rewrite count_dups_get, decide_True; [by eexists|].
    apply list_elem_of_fmap. by exists (k, v).
Qed.

(** ** Per-file objects and orphans *)

Lemma dict_set_keys_submseteq {V} (d : pydict V) k v :
  (dict_set d k v).*1 ⊆+ k :: d.*1.
Proof.
  rewrite dict_set_keys. case_decide; [by apply submseteq_cons|].
  apply Permutation_submseteq. by rewrite Permutation_app_comm.
Qed.

Lemma strings_lookup_Some (strings : option (pydict string)) k :
  is_Some (strings ≫= (λ s, dict_get s k)) ↔ k ∈ known_keys strings.
Proof.
  destruct strings as [s|]; simpl.
  - apply dict_get_is_Some.
  - rewrite elem_of_nil. split; [by intros [? ?]|done].
Qed.

Lemma split_obj_fold strings positions st :
  let r := foldl (split_obj_step strings) st positions in
  r.2.*1 ⊆+ positions.*2 ++ st.2.*1
  ∧ (∀ k, k ∈ r.1.*1 ↔
          k ∈ st.1.*1 ∨ (k ∈ positions.*2 ∧ k ∈ known_keys strings))
  ∧ (∀ k, k ∈ r.2.*1 ↔
          k ∈ st.2.*1 ∨ (k ∈ positions.*2 ∧ k ∈ known_keys strings)).
Proof.
  revert st. induction positions as [|[tok v] positions IH]; intros st.
  - simpl. split_and!; [done|intros k; rewrite elem_of_nil; tauto..].
  - cbn [foldl]. destruct (IH (split_obj_step strings st (tok, v)))
      as (Hsub & Hls & Hobj).
    pose proof (strings_lookup_Some strings v) as Hv.
    assert (Hstep : split_obj_step strings st (tok, v)
                    = match strings ≫= (λ s, dict_get s v) with
                      | None => st
                      | Some txt => (dict_set st.1 v txt, dict_set st.2 v txt)
                      end) by done.
    destruct (strings ≫= (λ s, dict_get s v)) as [txt|] eqn:Hget;
      rewrite Hstep in *; cbn [fst snd fmap list_fmap] in *.
    + assert (Hin : v ∈ known_keys strings) by (apply Hv; eauto).
      split_and!.
      * etrans; [apply Hsub|].
        etrans; [apply submseteq_app; [reflexivity|apply dict_set_keys_submseteq]|].
        apply Permutation_submseteq. simpl. by rewrite Permutation_middle.
      * intros k. rewrite Hls, elem_of_dict_set_keys, elem_of_cons.
        split; [intros [[->|?]|[? ?]]|intros [?|[[->|?] ?]]]; tauto.
      * intros k. rewrite Hobj, elem_of_dict_set_keys, elem_of_cons.
        split; [intros [[->|?]|[? ?]]|intros [?|[[->|?] ?]]]; tauto.
    + assert (Hin : v ∉ known_keys strings).
      { intros Hin%Hv. by destruct Hin. }
      split_and!.
      * by apply submseteq_cons.
      * intros k. rewrite Hls, elem_of_cons.
        split; [tauto|intros [?|[[->|?] ?]]; tauto].
      * intros k. rewrite Hobj, elem_of_cons.
        split; [tauto|intros [?|[[->|?] ?]]; tauto].
Qed.

Lemma split_obj_keys strings positions lang_strings :
  let r := split_obj strings positions lang_strings in
  r.2.*1 ⊆+ positions.*2
  ∧ (∀ k, k ∈ r.1.*1 ↔
          k ∈ lang_strings.*1 ∨ (k ∈ positions.*2 ∧ k ∈ known_keys strings))
  ∧ (∀ k, k ∈ r.2.*1 ↔ k ∈ positions.*2 ∧ k ∈ known_keys strings).
Proof.
  destruct (split_obj_fold strings positions (lang_strings, []))
    as (Hsub & Hls & Hobj).
  fold (split_obj strings positions lang_strings) in *. cbn [fst snd] in *.
  split_and!.
  - by rewrite app_nil_r in Hsub.
  - done.
  - intros k. rewrite (Hobj k). simpl. rewrite elem_of_nil. tauto.
Qed.

Lemma object_keys_app objs1 objs2 :
  object_keys (objs1 ++ objs2) = object_keys objs1 ++ object_keys objs2.
Proof. unfold object_keys. by rewrite fmap_app, join_app. Qed.

Lemma object_keys_cons name obj objs :
  object_keys ((name, obj) :: objs) = dict_keys obj ++ object_keys objs.
Proof. reflexivity. Qed.

Lemma object_keys_filter objs :
  object_keys (filter (λ o, o.2 ≠ []) objs) = object_keys objs.
Proof.
  induction objs as [|[name obj] objs IH]; [done|].
  rewrite filter_cons. simpl. case_decide as Hobj.
  - by rewrite !object_keys_cons, IH.
  - subst. by rewrite object_keys_cons, IH.
Qed.

Lemma split_objects_fold strings (sm : pydict (pydict string)) st :
  let r := foldl (split_objects_step strings) st sm in
  object_keys r.2 ⊆+ all_values sm ++ object_keys st.2
  ∧ (∀ k, k ∈ r.1.*1 ↔
          k ∈ st.1.*1 ∨ (k ∈ all_values sm ∧ k ∈ known_keys strings))
  ∧ (∀ k, k ∈ object_keys r.2 ↔
          k ∈ object_keys st.2 ∨ (k ∈ all_values sm ∧ k ∈ known_keys strings)).
Proof.
  revert st. induction sm as [|[f m] sm IH]; intros st.
  - simpl. split_and!; [done|intros k; unfold all_values; simpl;
                             rewrite elem_of_nil; tauto..].
  - cbn [foldl]. unfold split_objects_step at 2 4 6. cbn [fst snd].
    destruct (IH ((split_obj strings m st.1).1,
                  st.2 ++ [(obj_file_name f, (split_obj strings m st.1).2)]))
      as (Hsub & Hls & Hobj).
    destruct (split_obj_keys strings m st.1) as (Hsub1 & Hls1 & Hobj1).
    cbn [fst snd] in *.
    assert (Hone : object_keys [(obj_file_name f, (split_obj strings m st.1).2)]
                   = (split_obj strings m st.1).2.*1).
    { unfold object_keys, dict_keys. simpl. by rewrite app_nil_r. }
    rewrite object_keys_app, Hone in Hsub, Hobj. rewrite all_values_cons.
    split_and!.
    + etrans; [apply Hsub|].
      etrans; [apply submseteq_app; [reflexivity|];
               apply submseteq_app; [reflexivity|apply Hsub1]|].
      apply Permutation_submseteq.
      rewrite (Permutation_app_comm (object_keys st.2)), !app_assoc.
      by rewrite (Permutation_app_comm (all_values sm)).
    + intros k. rewrite Hls, Hls1, elem_of_app. tauto.
    + intros k. rewrite Hobj, elem_of_app, Hobj1, elem_of_app. tauto.
Qed.

Lemma split_objects_keys strings (sm : pydict (pydict string)) :
  let r := split_objects sm strings in
  object_keys r.2 ⊆+ all_values sm
  ∧ (∀ k, k ∈ r.1.*1 ↔ k ∈ all_values sm ∧ k ∈ known_keys strings)
  ∧ (∀ k, k ∈ object_keys r.2 ↔ k ∈ r.1.*1).
Proof.
  destruct (split_objects_fold strings sm ([], [])) as (Hsub & Hls & Hobj).
  fold (split_objects sm strings) in *. cbn [fst snd] in *.
  unfold object_keys at 2 in Hsub. simpl in Hsub. rewrite app_nil_r in Hsub.
  split_and!; [done| |].
  - intros k. rewrite (Hls k), elem_of_nil. tauto.
  - intros k. rewrite (Hobj k), (Hls k). unfold object_keys. simpl.
    rewrite !elem_of_nil. tauto.
Qed.

Lemma orphans_keys (strings lang_strings : pydict string) k :
  k ∈ dict_keys (orphans strings lang_strings)
  ↔ k ∈ dict_keys strings ∧ (k ∉ dict_keys lang_strings) ∧ k ≠ "date".
Proof.
  unfold orphans, dict_keys.
  assert (Hgen : ∀ acc : pydict string,
    k ∈ (foldl (orphan_step lang_strings) acc strings).*1
    ↔ k ∈ acc.*1 ∨ (k ∈ strings.*1 ∧ (k ∉ lang_strings.*1) ∧ k ≠ "date")).
  { induction strings as [|[k0 v0] strings IH]; intros acc; simpl.
    - rewrite elem_of_nil. tauto.
    - rewrite IH, elem_of_cons. clear IH. unfold orphan_step. simpl.
      destruct (dict_mem k0 lang_strings) eqn:Hmem.
      + apply dict_mem_spec in Hmem.
        split; [tauto|intros [?|[[->|?] ?]]; tauto].
      + apply dict_mem_false in Hmem. case_decide as Hdate.
        * split; [tauto|intros [?|[[->|?] ?]]; tauto].
        * rewrite elem_of_dict_set_keys.
          split; [intros [[->|?]|?]; tauto|tauto]. }
  rewrite Hgen, elem_of_nil. tauto.
Qed.

(** The keys of the objects handed to [emit] for the files, together with
    the keys of the orphan object, are, apart from ["date"], exactly the
    keys of the Raw String Map; and no key lies in two of the objects for
    the files. *)
Lemma split_objects_partition (raw_sourcemap_ch strings : pydict string)
    (ch_sourcemap : pydict (pydict string)) :
  NoDup (dict_keys raw_sourcemap_ch) →
  new_sourcemap raw_sourcemap_ch = Ok ch_sourcemap →
  let per_file := per_file_objects ch_sourcemap strings in
  let lang_orphan :=
    orphans strings (split_objects ch_sourcemap (Some strings)).1 in
  NoDup (object_keys per_file)
  ∧ (list_to_set (object_keys per_file ++ dict_keys lang_orphan) ∖ {["date"]}
     : gset string)
    = list_to_set (dict_keys strings) ∖ {["date"]}.
Proof.
  intros Hnd Hsm per_file lang_orphan.
  destruct (new_sourcemap_NoDup _ _ Hnd Hsm) as [Hvals _].
  destruct (split_objects_keys (Some strings) ch_sourcemap) as (Hsub & Hls & Hobj).
  unfold per_file, per_file_objects. rewrite object_keys_filter.
  split.
  - apply submseteq_Permutation in Hsub as [rest Hperm].
    rewrite Hperm in Hvals. by apply NoDup_app in Hvals as [? _].
  - apply set_eq. intros k.
    rewrite !elem_of_difference, !elem_of_list_to_set, elem_of_app.
    rewrite !elem_of_singleton.
    unfold lang_orphan. rewrite orphans_keys, (Hobj k).
    pose proof (Hls k) as Hk. simpl in Hk. unfold dict_keys in *.
    destruct (decide (k ∈ (split_objects ch_sourcemap (Some strings)).1.*1));
      tauto.
Qed.

(** C9. On the entries [k1 -> f:10], [k2 -> f:20], [k3 -> f:10], in that
    order, [k1] and [k3] both receive the token [10_1]; [k3] takes the place
    of [k1] in the map of file [f], and [k1] is written to the orphan object
    only. *)
Theorem duplicate_token_orphans_first_key :
  position_tokens (count_dups c9_sourcemap.*2) 0 c9_sourcemap
  = Ok (1, [("k1", "f", "10_1"); ("k2", "f", "20"); ("k3", "f", "10_1")])
  ∧ new_sourcemap c9_sourcemap = Ok c9_chapter_sourcemap
  ∧ per_file_objects c9_chapter_sourcemap c9_strings
    = [("f.json", [("k3", "three"); ("k2", "two")])]
  ∧ ("k1" ∉ object_keys (per_file_objects c9_chapter_sourcemap c9_strings))
  ∧ split_lang c9_chapter_sourcemap (Some c9_strings) ∅
    = (Ok (3, 2, 1),
       {[ "f.json" := [("k3", "three"); ("k2", "two")];
          "orphan.json" := [("k1", "one")] ]}).
Proof.
  split_and!; [reflexivity..| |].
  - apply (bool_decide_unpack _). vm_compute. exact I.
  - vm_compute. reflexivity.
Qed.

(** ** The Splitter as a run that only writes *)

Lemma emit_all_snoc objects o dir :
  emit_all (objects ++ [o]) dir = emit o.2 o.1 (emit_all objects dir).
Proof. unfold emit_all. by rewrite foldl_snoc. Qed.

Lemma emit_lookup obj file (dir : directory) name :
  emit obj file dir !! name
  = if decide (file = name)
    then match obj with [] => None | _ :: _ => Some obj end
    else dir !! name.
Proof.
  unfold emit, rmfile, dict2file. destruct obj; case_decide; subst;
    by rewrite ?lookup_delete_eq, ?lookup_delete_ne, ?lookup_insert_eq,
               ?lookup_insert_ne by done.
Qed.

(** Each file of the directory is left alone by [emit_all], or set to a
    content that does not depend on the directory. *)
Lemma emit_all_lookup objects name :
  (∀ dir : directory, emit_all objects dir !! name = dir !! name)
  ∨ (∃ c, ∀ dir : directory, emit_all objects dir !! name = c).
Proof.
  induction objects as [|o objects IH] using rev_ind; [by left|].
  destruct (decide (o.1 = name)) as [Heq|Hne].
  - right. eexists. intros dir.
    rewrite emit_all_snoc, emit_lookup, decide_True by done. reflexivity.
  - destruct IH as [IH|[c IH]]; [left|right; exists c]; intros dir;
      by rewrite emit_all_snoc, emit_lookup, decide_False.
Qed.

Lemma split_files_objects ch_sourcemap strings dir :
  split_files ch_sourcemap strings dir
  = ((split_objects ch_sourcemap strings).1,
     emit_all (split_objects ch_sourcemap strings).2 dir).
Proof.
  unfold split_files, split_objects.
  change dir with (emit_all [] dir) at 1. generalize (@nil (string * pydict string)).
  generalize (@nil (string * string)) as lang_strings.
  induction ch_sourcemap as [|fm sm IH]; intros ls objs; [done|].
  cbn [foldl]. unfold split_files_step at 2, split_objects_step at 2 4.
  cbn [fst snd]. rewrite <- IH. by rewrite emit_all_snoc.
Qed.

Lemma split_lang_writes ch_sourcemap strings dir :
  (split_lang ch_sourcemap strings dir).2
  = emit_all (split_lang_objects ch_sourcemap strings) dir.
Proof.
  unfold split_lang, split_lang_objects. rewrite split_files_objects.
  destruct strings; cbn [fst snd]; [|done]. by rewrite emit_all_snoc.
Qed.

Lemma split_lang_result ch_sourcemap strings dir dir' :
  (split_lang ch_sourcemap strings dir).1
  = (split_lang ch_sourcemap strings dir').1.
Proof.
  unfold split_lang. rewrite !split_files_objects. by destruct strings.
Qed.

(** Stores with the same observations are the same store. *)
Lemma fs_ext (st st' : fs) : (∀ l, observe l st = observe l st') → st = st'.
Proof.
  intros Hobs. destruct st as [dirs sms docs], st' as [dirs' sms' docs'].
  f_equal.
  - apply map_eq. intros d.
    pose proof (Hobs (LDir d)) as Hd. simpl in Hd. injection Hd as Hd.
    destruct (dirs !! d) as [dir|] eqn:H1, (dirs' !! d) as [dir'|] eqn:H2.
    + f_equal. apply map_eq. intros name.
      pose proof (Hobs (LFile d name)) as Hf. simpl in Hf.
      rewrite H1, H2 in Hf. by injection Hf.
    + exfalso. revert Hd. rewrite bool_decide_eq_true_2 by eauto.
      rewrite bool_decide_eq_false_2; [done|]. by intros [? ?].
    + exfalso. revert Hd. rewrite (bool_decide_eq_true_2 (is_Some (Some _))) by eauto.
      rewrite bool_decide_eq_false_2; [done|]. by intros [? ?].
    + done.
  - apply map_eq. intros ch. pose proof (Hobs (LSourcemap ch)) as H.
    simpl in H. by injection H.
  - apply map_eq. intros p. pose proof (Hobs (LDocument p)) as H.
    simpl in H. by injection H.
Qed.

Lemma write_only_and_then {A B} (run1 : fs → result A * fs)
    (run2 : fs → result B * fs) :
  write_only run1 → write_only run2 → write_only (and_then run1 run2).
Proof.
  intros [[res1 Hres1] Hobs1] [[res2 Hres2] Hobs2]. unfold and_then.
  destruct res1 as [a|e].
  - split.
    + exists res2. intros st. specialize (Hres1 st).
      destruct (run1 st) as [[a1|e1] st']; simpl in *; [apply Hres2|done].
    + intros l. destruct (Hobs2 l) as [H2|[c H2]].
      * destruct (Hobs1 l) as [H1|[c H1]]; [left|right; exists c]; intros st;
          specialize (Hres1 st); specialize (H1 st);
          destruct (run1 st) as [[a1|e1] st']; simpl in *; try done;
          by rewrite H2.
      * right. exists c. intros st. specialize (Hres1 st).
        destruct (run1 st) as [[a1|e1] st']; simpl in *; [apply H2|done].
  - split.
    + exists (Raise e). intros st. specialize (Hres1 st).
      destruct (run1 st) as [[a1|e1] st']; simpl in *; congruence.
    + intros l. destruct (Hobs1 l) as [H1|[c H1]]; [left|right; exists c];
        intros st; specialize (Hres1 st); specialize (H1 st);
        by destruct (run1 st) as [[a1|e1] st']; simpl in *.
Qed.

Lemma write_only_for_each {A} (body : A → fs → result unit * fs) (l : list A) :
  (∀ a, write_only (body a)) → write_only (for_each body l).
Proof.
  intros Hbody. induction l as [|a l IH].
  - split; [by exists (Ok ())|]. intros loc. by left.
  - apply (write_only_and_then (body a) (for_each body l)); auto.
Qed.

(** A run that only writes leaves, when repeated, the store of its first
    run, with the same result. *)
Lemma write_only_idempotent {A} (run : fs → result A * fs) st :
  write_only run → run (run st).2 = run st.
Proof.
  intros [[res Hres] Hobs].
  apply injective_projections; [by rewrite !Hres|].
  apply fs_ext. intros l. destruct (Hobs l) as [H|[c H]]; by rewrite !H.
Qed.

(** *** The runs of the Splitter *)

Lemma write_only_raise {A} (e : exn) :
  write_only (λ st : fs, (Raise e : result A, st)).
Proof. split; [by exists (Raise e)|]. intros l. by left. Qed.

Lemma write_only_write_sourcemap chapter m :
  write_only (λ st, (Ok (), write_sourcemap chapter m st)).
Proof.
  split; [by exists (Ok ())|]. intros [d|d name|ch|p]; try by left.
  destruct (decide (chapter = ch)) as [->|Hne].
  - right. eexists. intros st. simpl. by rewrite lookup_insert_eq.
  - left. intros st. simpl. by rewrite lookup_insert_ne.
Qed.

Lemma write_only_split_lang_fs raw_lang ch_sourcemap chapter lang :
  write_only (split_lang_fs raw_lang ch_sourcemap chapter lang).
Proof.
  unfold split_lang_fs. split.
  - eexists. intros st. cbn [fst].
    by rewrite (split_lang_result _ _ _ ∅).
  - intros [d|d name|ch|p]; try by left.
    + destruct (decide ((chapter, lang) = d)) as [<-|Hne].
      * right. eexists. intros st. simpl. rewrite lookup_insert_eq.
        by rewrite bool_decide_eq_true_2 by eauto.
      * left. intros st. simpl. by rewrite lookup_insert_ne.
    + destruct (decide ((chapter, lang) = d)) as [<-|Hne].
      * cbn [snd observe obj_dirs set_obj_dir]. 
        destruct (emit_all_lookup
                    (split_lang_objects ch_sourcemap
                       (raw_strings raw_lang chapter lang)) name) as [H|[c H]].
        -- left. intros st. rewrite lookup_insert_eq. simpl.
           rewrite split_lang_writes, H. unfold dir_contents.
           by destruct (obj_dirs st !! (chapter, lang)).
        -- right. eexists. intros st. rewrite lookup_insert_eq. simpl.
           by rewrite split_lang_writes, H.
      * left. intros st. simpl. by rewrite lookup_insert_ne.
Qed.

Lemma write_only_split_chapter raw_lang raw_sourcemap chapter :
  write_only (split_chapter raw_lang raw_sourcemap chapter).
Proof.
  unfold split_chapter.
  destruct (dict_get raw_sourcemap chapter) as [raw_sourcemap_ch|];
    [|apply write_only_raise].
  destruct (new_sourcemap raw_sourcemap_ch) as [ch_sourcemap|e];
    [|apply write_only_raise].
  apply (write_only_and_then
           (λ st, (Ok (), write_sourcemap chapter ch_sourcemap st))
           (for_each (split_lang_fs raw_lang ch_sourcemap chapter) LANGS)).
  - apply write_only_write_sourcemap.
  - apply write_only_for_each. intros lang. apply write_only_split_lang_fs.
Qed.

Lemma write_only_split_dump raw_lang raw_sourcemap :
  write_only (split_dump raw_lang raw_sourcemap).
Proof.
  apply write_only_for_each. intros chapter. apply write_only_split_chapter.
Qed.

(** C7. A second run of the Splitter on the same [lang.json] and
    [sourcemap.json] ends as the first did and leaves every file as the
    first run left it; and what the files it writes hold does not depend on
    the store the run starts from. *)
Theorem split_dump_idempotent (raw_lang : pydict (pydict (pydict string)))
    (raw_sourcemap : pydict (pydict string)) (st : fs) :
  split_dump raw_lang raw_sourcemap (split_dump raw_lang raw_sourcemap st).2
  = split_dump raw_lang raw_sourcemap st
  ∧ ∀ st' l,
      (split_dump raw_lang raw_sourcemap st').1
      = (split_dump raw_lang raw_sourcemap st).1
      ∧ (observe l (split_dump raw_lang raw_sourcemap st').2
         = observe l (split_dump raw_lang raw_sourcemap st).2
         ∨ (observe l (split_dump raw_lang raw_sourcemap st).2 = observe l st
            ∧ observe l (split_dump raw_lang raw_sourcemap st').2
              = observe l st')).
Proof.
  pose proof (write_only_split_dump raw_lang raw_sourcemap) as Hwo.
  split; [by apply write_only_idempotent|].
  destruct Hwo as [[res Hres] Hobs]. intros st' l.
  split; [by rewrite !Hres|].
  destruct (Hobs l) as [H|[c H]]; [right|left]; by rewrite !H.
Qed.

(** ** Compiler *)

Lemma compile_key_unfold newlang_obj st k :
  compile_key newlang_obj st k
  = match dict_get newlang_obj k with
    | None => st
    | Some translated => (dict_set st.1 k translated, S st.2)
    end.
Proof. reflexivity. Qed.

Lemma compile_keys_fold newlang_obj (ks : list string) st :
  (∀ k, k ∈ ks → k ∈ st.1.*1) →
  let r := foldl (compile_key newlang_obj) st ks in
  r.1.*1 = st.1.*1
  ∧ r.2 = st.2 + translated_among newlang_obj ks
  ∧ ∀ k, dict_get r.1 k
         = match dict_get newlang_obj k with
           | Some translated =>
               if decide (k ∈ ks) then Some translated else dict_get st.1 k
           | None => dict_get st.1 k
           end.
Proof.
  revert st. induction ks as [|k0 ks IH]; intros st Hks.
  - cbn [foldl]. split_and!; [done|unfold translated_among; simpl; lia|].
    intros k. destruct (dict_get newlang_obj k); [|done].
    by rewrite decide_False by apply not_elem_of_nil.
  - cbn [foldl]. rewrite compile_key_unfold.
    unfold translated_among. rewrite filter_cons. fold (translated_among newlang_obj ks).
    destruct (dict_get newlang_obj k0) as [t0|] eqn:H0.
    + destruct (IH (dict_set st.1 k0 t0, S st.2)) as (Hkeys & Hcount & Hget).
      { intros k Hk. cbn [fst]. apply elem_of_dict_set_keys. right.
        apply Hks. by right. }
      cbn [fst snd] in *. rewrite decide_True by eauto. split_and!.
      * rewrite Hkeys. apply dict_set_keys_old, Hks. by left.
      * rewrite Hcount. unfold translated_among. simpl. lia.
      * intros k. rewrite Hget, dict_get_set.
        destruct (dict_get newlang_obj k) as [t|] eqn:Hk.
        -- destruct (decide (k0 = k)) as [->|Hne].
           ++ rewrite (decide_True (P := k ∈ k :: ks)) by by left.
              case_decide; congruence.
           ++ destruct (decide (k ∈ ks)).
              ** by rewrite decide_True by by right.
              ** rewrite decide_False; [done|].
                 rewrite elem_of_cons. intros [?|?]; congruence.
        -- case_decide; [congruence|done].
    + destruct (IH st) as (Hkeys & Hcount & Hget).
      { intros k Hk. apply Hks. by right. }
      rewrite decide_False by (by intros [? ?]). split_and!; [done..|].
      intros k. rewrite Hget.
      destruct (dict_get newlang_obj k) as [t|] eqn:Hk; [|done].
      destruct (decide (k ∈ ks)).
      * by rewrite decide_True by by right.
      * rewrite decide_False; [done|].
        rewrite elem_of_cons. intros [->|?]; congruence.
Qed.

(** The merge of one base object with its target object: the keys and their
    order are the base object's; a key of the target takes the target's
    value and counts as translated; any other key keeps its value. *)
Lemma compile_obj_spec baselang_obj newlang_obj count_translated :
  let r := compile_obj baselang_obj newlang_obj count_translated in
  dict_keys r.1 = dict_keys baselang_obj
  ∧ r.2 = count_translated + translated_among newlang_obj (dict_keys baselang_obj)
  ∧ ∀ k, k ∈ dict_keys baselang_obj →
         dict_get r.1 k
         = match dict_get newlang_obj k with
           | Some translated => Some translated
           | None => dict_get baselang_obj k
           end.
Proof.
  destruct (compile_keys_fold newlang_obj (dict_keys baselang_obj)
              (baselang_obj, count_translated)) as (Hkeys & Hcount & Hget);
    [done|].
  fold (compile_obj baselang_obj newlang_obj count_translated) in *.
  cbn [fst snd] in *. split_and!; [done..|].
  intros k Hk. rewrite Hget. destruct (dict_get newlang_obj k); [|done].
  by rewrite decide_True.
Qed.

Lemma compile_obj_empty baselang_obj count_translated :
  compile_obj baselang_obj [] count_translated = (baselang_obj, count_translated).
Proof.
  unfold compile_obj. generalize (dict_keys baselang_obj) as ks.
  induction ks as [|k ks IH]; [done|]. cbn [foldl]. by rewrite compile_key_unfold.
Qed.

Lemma compile_objs_snoc DATE listing obj new_lang_objs :
  compile_objs DATE (listing ++ [obj]) new_lang_objs
  = compile_step new_lang_objs (compile_objs DATE listing new_lang_objs) obj.
Proof. unfold compile_objs. by rewrite foldl_snoc. Qed.

(** The keys of the document: ["date"] and the keys of the base objects,
    each once. *)
Lemma compile_objs_keys DATE listing new_lang_objs :
  let r := compile_objs DATE listing new_lang_objs in
  NoDup (dict_keys r.1)
  ∧ ∀ k, k ∈ dict_keys r.1 ↔ k = "date" ∨ k ∈ object_keys listing.
Proof.
  induction listing as [|[name obj] listing IH] using rev_ind.
  - simpl. split; [apply NoDup_singleton|].
    intros k. unfold object_keys. simpl. rewrite list_elem_of_singleton, elem_of_nil.
    tauto.
  - rewrite compile_objs_snoc. destruct IH as [Hnd Hkeys].
    unfold compile_step. cbn [fst snd].
    destruct (compile_obj_spec obj (load_newlang new_lang_objs name)
                (compile_objs DATE listing new_lang_objs).2) as (Hk & _ & _).
    split.
    + by apply dict_update_NoDup.
    + intros k. unfold dict_keys in *.
      rewrite elem_of_dict_update_keys, Hkeys, Hk, object_keys_app, elem_of_app.
      rewrite object_keys_cons. unfold object_keys at 3. simpl.
      rewrite app_nil_r. unfold dict_keys. tauto.
Qed.

Lemma dict_get_update_notin {V} (d other : pydict V) k :
  k ∉ other.*1 → dict_get (dict_update d other) k = dict_get d k.
Proof.
  unfold dict_update. revert d.
  induction other as [|[k0 v0] other IH]; intros d Hk; [done|].
  simpl in *. apply not_elem_of_cons in Hk as [Hne Hk].
  rewrite IH by done. by rewrite dict_get_set, decide_False.
Qed.

Lemma load_newlang_insert (new_lang_objs : directory) name name' :
  new_lang_objs !! name = None →
  load_newlang (<[name := []]> new_lang_objs) name'
  = load_newlang new_lang_objs name'.
Proof.
  intros Hnone. unfold load_newlang. destruct (decide (name = name')) as [<-|Hne].
  - by rewrite lookup_insert_eq, Hnone.
  - by rewrite lookup_insert_ne.
Qed.

Lemma compile_steps_frame new_lang_objs (after : list (string * pydict string))
    st k :
  k ∉ object_keys after →
  dict_get (foldl (compile_step new_lang_objs) st after).1 k = dict_get st.1 k.
Proof.
  revert st. induction after as [|[name obj] after IH]; intros st Hk; [done|].
  rewrite object_keys_cons in Hk. apply not_elem_of_app in Hk as [Hobj Hafter].
  cbn [foldl]. rewrite IH by done. unfold compile_step. cbn [fst snd].
  apply dict_get_update_notin.
  destruct (compile_obj_spec obj (load_newlang new_lang_objs name) st.2)
    as (Hkeys & _ & _).
  unfold dict_keys in *. by rewrite Hkeys.
Qed.

Lemma compile_objs_insert_empty DATE listing (new_lang_objs : directory) name :
  new_lang_objs !! name = None →
  compile_objs DATE listing (<[name := []]> new_lang_objs)
  = compile_objs DATE listing new_lang_objs.
Proof.
  intros Hnone. unfold compile_objs. generalize ([("date", DATE)], 0).
  induction listing as [|obj listing IH]; intros st; [done|].
  cbn [foldl]. rewrite IH. f_equal. unfold compile_step.
  by rewrite load_newlang_insert.
Qed.

Lemma int_of_float_not_zero_division x : int_of_float x ≠ Raise ZeroDivisionError.
Proof. unfold int_of_float. by destruct (Prim2SF x). Qed.

Lemma l10n_progress_zero_division count_translated count_all :
  l10n_progress count_translated count_all = Raise ZeroDivisionError
  ↔ count_all = 0.
Proof.
  destruct count_all as [|n]; [done|]. split; [|done].
  intros H. by apply int_of_float_not_zero_division in H.
Qed.

Lemma int_of_float_not_file_not_found x : int_of_float x ≠ Raise FileNotFoundError.
Proof. unfold int_of_float. by destruct (Prim2SF x). Qed.

Lemma obj_dirs_mkdir d st d' :
  obj_dirs (mkdir d st) !! d'
  = if decide (d = d') then Some (dir_contents d st) else obj_dirs st !! d'.
Proof.
  unfold mkdir, set_obj_dir. simpl. case_decide; subst.
  - by rewrite lookup_insert_eq.
  - by rewrite lookup_insert_ne.
Qed.

Lemma obj_dirs_mkdir_Some d st d' dir :
  obj_dirs st !! d' = Some dir → obj_dirs (mkdir d st) !! d' = Some dir.
Proof.
  intros H. rewrite obj_dirs_mkdir. case_decide; subst; [|done].
  unfold dir_contents. by rewrite H.
Qed.

Lemma dir_contents_mkdir d st d' :
  dir_contents d' (mkdir d st) = dir_contents d' st.
Proof.
  unfold dir_contents at 1. rewrite obj_dirs_mkdir. case_decide; subst; [|done].
  done.
Qed.

(** C8, as stated, fails in its second clause: of two base objects that
    share a key and have no file in the target directory, one does not keep
    its value of the key in the compiled document, whatever the order in
    which the directory is listed. *)
Lemma shared_key_counterexample :
  let run :=
    compile_lang map_to_list (λ _ _, true) "1700000000000" None "vi" "1"
      c8_shared_fs in
  ∃ doc,
    run.1 = Ok (mk_report 0 1 0)
    ∧ documents run.2 !! "chapter1/lang_vi.json" = Some doc
    ∧ ∃ baselang_objs name baselang_obj,
        obj_dirs c8_shared_fs !! ("1", "en") = Some baselang_objs
        ∧ baselang_objs !! name = Some baselang_obj
        ∧ dir_contents ("1", "vi") c8_shared_fs !! name = None
        ∧ is_Some (dict_get baselang_obj "K")
        ∧ dict_get doc "K" ≠ dict_get baselang_obj "K".
Proof.
  eexists. split_and!; [vm_compute; reflexivity..|].
  exists {[ "new.json" := [("K", "new")]; "old.json" := [("K", "old")] ]}.
  destruct (decide (dict_get
                      (compile_objs "1700000000000"
                         (map_to_list
                            ({[ "new.json" := [("K", "new")];
                                "old.json" := [("K", "old")] ]} : directory))
                         ∅).1 "K" = Some "old")) as [Hold|Hnew].
  - exists "new.json", [("K", "new")]. split_and!; [reflexivity..|by eexists|].
    vm_compute in Hold. vm_compute. congruence.
  - exists "old.json", [("K", "old")]. split_and!; [reflexivity..|by eexists|].
    vm_compute in Hnew. vm_compute. congruence.
Qed.

(** C8, amended. A base object whose file has no namesake in the target
    directory is compiled against the empty object: loading the target
    raises nothing, the base object goes into the document as it is, so that
    each of its keys has its base value there, and in the finished document
    too unless an object listed later has the key as well; none of its keys
    is counted, and the whole run is the run on a target directory that
    holds an empty object under that name. With the base directory in place,
    a run ends in [FileNotFoundError] only at the write of the document,
    when the directory under [DELTARUNE_HOME] is missing. *)
Theorem missing_target_is_empty_object (DATE : string)
    (before after : list (string * pydict string)) (name : string)
    (baselang_obj : pydict string) (new_lang_objs : directory) :
  new_lang_objs !! name = None →
  NoDup (dict_keys baselang_obj) →
  let st := compile_objs DATE before new_lang_objs in
  let st' := compile_step new_lang_objs st (name, baselang_obj) in
  let listing := before ++ (name, baselang_obj) :: after in
  load_newlang new_lang_objs name = []
  ∧ st' = (dict_update st.1 baselang_obj, st.2)
  ∧ (∀ k, k ∈ dict_keys baselang_obj →
          dict_get st'.1 k = dict_get baselang_obj k)
  ∧ (∀ k, k ∈ dict_keys baselang_obj → k ∉ object_keys after →
          dict_get (compile_objs DATE listing new_lang_objs).1 k
          = dict_get baselang_obj k)
  ∧ compile_objs DATE listing new_lang_objs
    = compile_objs DATE listing (<[name := []]> new_lang_objs)
  ∧ ∀ iterdir install_dir_missing home lang chapter fs0 baselang_objs,
      compile_names_ok lang chapter = true →
      obj_dirs fs0 !! (chapter, BASE_LANG) = Some baselang_objs →
      ((compile_lang iterdir install_dir_missing DATE home lang chapter fs0).1
       = Raise FileNotFoundError →
       ∃ root, home = Some root ∧ install_dir_missing root chapter = true)
      ∧ (new_lang_dir_missing install_dir_missing home chapter = false →
         (compile_lang iterdir install_dir_missing DATE home lang chapter fs0).1
         ≠ Raise FileNotFoundError).
Proof.
  intros Hnone Hnd st st' listing.
  assert (Hload : load_newlang new_lang_objs name = [])
    by (unfold load_newlang; by rewrite Hnone).
  assert (Hst' : st' = (dict_update st.1 baselang_obj, st.2)).
  { unfold st', compile_step. cbn [fst snd]. by rewrite Hload, compile_obj_empty. }
  assert (Hget : ∀ k, k ∈ dict_keys baselang_obj →
                      dict_get st'.1 k = dict_get baselang_obj k).
  { intros k Hk. rewrite Hst'. cbn [fst]. rewrite dict_get_update by done.
    apply dict_get_is_Some in Hk as [v ->]. done. }
  split_and!; [done..| | |].
  - intros k Hk Hafter. unfold listing, compile_objs.
    rewrite foldl_app. cbn [foldl]. fold (compile_objs DATE before new_lang_objs).
    fold st. fold st'. rewrite compile_steps_frame by done. by apply Hget.
  - by rewrite compile_objs_insert_empty.
  - intros iterdir install_dir_missing home lang chapter fs0 baselang_objs _ Hbase.
    assert (Hrun : (compile_lang iterdir install_dir_missing DATE home lang chapter fs0).1
                   = Raise FileNotFoundError →
                   new_lang_dir_missing install_dir_missing home chapter = true).
    { unfold compile_lang. rewrite (obj_dirs_mkdir_Some _ _ _ _ Hbase).
      destruct (l10n_progress _ _) as [p|e] eqn:Hp.
      - unfold write_document.
        by destruct (new_lang_dir_missing install_dir_missing home chapter).
      - cbn [fst]. intros [= ->]. unfold l10n_progress in Hp.
        destruct (length _ - 1); [done|].
        by apply int_of_float_not_file_not_found in Hp. }
    split.
    + intros Hno%Hrun. unfold new_lang_dir_missing in Hno.
      destruct home as [root|]; [by exists root|done].
    + intros Hdir Hno%Hrun. congruence.
Qed.

Lemma missing_target_is_empty_object_witness :
  compile_objs "1700000000000"
    (c8_listing_before ++ ("b.json", c8_base_obj) :: c8_listing_after) c8_target
  = compile_objs "1700000000000"
      (c8_listing_before ++ ("b.json", c8_base_obj) :: c8_listing_after)
      (<["b.json" := []]> c8_target).
Proof.
  apply (missing_target_is_empty_object "1700000000000" c8_listing_before
           c8_listing_after "b.json" c8_base_obj c8_target).
  - reflexivity.
  - apply (bool_decide_unpack _). vm_compute. exact I.
Defined.

Lemma elem_of_object_keys k (objects : list (string * pydict string)) :
  k ∈ object_keys objects
  ↔ ∃ name obj, (name, obj) ∈ objects ∧ k ∈ dict_keys obj.
Proof.
  induction objects as [|[name obj] objects IH].
  - unfold object_keys. simpl. rewrite elem_of_nil.
    split; [done|]. intros (? & ? & H%elem_of_nil & _). done.
  - rewrite object_keys_cons, elem_of_app, IH. split.
    + intros [Hk|(n & o & Hin & Hk)].
      * exists name, obj. split; [left|done].
      * exists n, o. split; [by right|done].
    + intros (n & o & [[= -> ->]|Hin]%elem_of_cons & Hk); [by left|].
      right. by exists n, o.
Qed.

(** The document has one key, ["date"], exactly when the base objects have
    no other key. *)
Lemma compile_objs_count_all DATE listing new_lang_objs :
  length (compile_objs DATE listing new_lang_objs).1 - 1 = 0
  ↔ ∀ k, k ∈ object_keys listing → k = "date".
Proof.
  destruct (compile_objs_keys DATE listing new_lang_objs) as [Hnd Hkeys].
  cbn zeta in *. unfold dict_keys in *.
  set (doc := (compile_objs DATE listing new_lang_objs).1) in *.
  rewrite <- (length_fmap fst doc). split.
  - intros Hlen k Hk.
    assert (Hd : "date" ∈ doc.*1) by (apply Hkeys; by left).
    assert (Hk' : k ∈ doc.*1) by (apply Hkeys; by right).
    destruct (doc.*1) as [|k1 [|k2 rest]]; simpl in Hlen; [|
      apply list_elem_of_singleton in Hd, Hk'; congruence|lia].
    by apply elem_of_nil in Hd.
  - intros Hall.
    assert (Hsub : ∀ k, k ∈ doc.*1 → k = "date").
    { intros k [->|Hk]%Hkeys; [done|by apply Hall]. }
    destruct (doc.*1) as [|k1 [|k2 rest]]; simpl; [done..|].
    exfalso. apply NoDup_cons in Hnd as [Hk1 _]. apply Hk1.
    rewrite (Hsub k1) by left. rewrite <- (Hsub k2) by (right; left). left.
Qed.

(** C10, as stated, fails in its last clause: a base directory whose one
    object has the key ["date"] and no other holds an object with a key, and
    the progress computation still divides by zero. *)
Lemma compile_only_date_key_counterexample :
  (∃ baselang_objs name obj,
      obj_dirs c10_fs !! ("1", "en") = Some baselang_objs
      ∧ baselang_objs !! name = Some obj ∧ obj ≠ [])
  ∧ (compile_lang map_to_list (λ _ _, true) "1700000000000" None "vi" "1"
       c10_fs).1
    = Raise ZeroDivisionError.
Proof.
  split; [|reflexivity].
  exists {[ "a.json" := [("date", "0")] ]}, "a.json", [("date", "0")].
  split_and!; [reflexivity..|done].
Qed.

Section zero_division.
Variable iterdir : directory → list (string * pydict string).
Hypothesis iterdir_lists : ∀ dir, iterdir dir ≡ₚ map_to_list dir.
Variable install_dir_missing : string → string → bool.

Lemma elem_of_iterdir (dir : directory) name obj :
  (name, obj) ∈ iterdir dir ↔ dir !! name = Some obj.
Proof. by rewrite iterdir_lists, elem_of_map_to_list. Qed.

(** C10, amended. With the base directory in place, the run ends in
    [ZeroDivisionError] exactly when no base object has a key other than
    ["date"]: when the directory holds no object files, or only empty
    objects, or objects whose only key is ["date"]. The run then stops
    before the document is written: the compiled documents are as they
    were. *)
Theorem compile_zero_division (DATE : string) (home : option string)
    (lang chapter : string) (st : fs) (baselang_objs : directory) :
  obj_dirs st !! (chapter, BASE_LANG) = Some baselang_objs →
  let run := compile_lang iterdir install_dir_missing DATE home lang chapter st in
  (run.1 = Raise ZeroDivisionError
   ↔ ∀ name obj k, baselang_objs !! name = Some obj →
                   k ∈ dict_keys obj → k = "date")
  ∧ ((∀ name obj, baselang_objs !! name = Some obj → obj = []) →
     run.1 = Raise ZeroDivisionError)
  ∧ (run.1 = Raise ZeroDivisionError →
     documents run.2 = documents st ∧ run.2 = mkdir (chapter, lang) st).
Proof.
  intros Hbase run.
  assert (Hrun : run.1 = Raise ZeroDivisionError
    ↔ ∀ k, k ∈ object_keys (iterdir baselang_objs) → k = "date").
  { unfold run, compile_lang. rewrite (obj_dirs_mkdir_Some _ _ _ _ Hbase).
    rewrite <- (compile_objs_count_all DATE (iterdir baselang_objs)
                  (dir_contents (chapter, lang) (mkdir (chapter, lang) st))).
    cbn zeta.
    set (r := compile_objs DATE (iterdir baselang_objs)
                (dir_contents (chapter, lang) (mkdir (chapter, lang) st))).
    pose proof (l10n_progress_zero_division r.2 (length r.1 - 1)) as Hz.
    destruct (l10n_progress r.2 (length r.1 - 1)) as [p|e]; cbn [fst].
    - rewrite <- Hz. unfold write_document.
      destruct (new_lang_dir_missing install_dir_missing home chapter); split; intros [=].
    - rewrite <- Hz. split; by intros [= ->]. }
  assert (Hiff : run.1 = Raise ZeroDivisionError
    ↔ ∀ name obj k, baselang_objs !! name = Some obj →
                    k ∈ dict_keys obj → k = "date").
  { rewrite Hrun. split.
    - intros H name obj k Hobj Hk. apply H, elem_of_object_keys.
      exists name, obj. by rewrite elem_of_iterdir.
    - intros H k (name & obj & Hin & Hk)%elem_of_object_keys.
      apply elem_of_iterdir in Hin. by eapply H. }
  split_and!; [done| |].
  - intros Hempty. apply Hiff. intros name obj k Hobj Hk.
    rewrite (Hempty _ _ Hobj) in Hk. by apply elem_of_nil in Hk.
  - unfold run, compile_lang. rewrite (obj_dirs_mkdir_Some _ _ _ _ Hbase).
    destruct (l10n_progress _ _) as [p|e]; cbn [fst snd]; [|done].
    unfold write_document. by destruct (new_lang_dir_missing install_dir_missing home chapter).
Qed.
End zero_division.

Lemma compile_zero_division_witness :
  (compile_lang map_to_list (λ _ _, true) "1700000000000" None "vi" "1"
     c10_empty_fs).1
  = Raise ZeroDivisionError.
Proof.
  refine (proj1 (proj2 (compile_zero_division map_to_list _ (λ _ _, true)
            "1700000000000" None "vi" "1" c10_empty_fs
            {[ "a.json" := [] ]} _)) _).
  - intros dir. reflexivity.
  - reflexivity.
  - intros name obj H. apply lookup_singleton_Some in H as [_ <-]. reflexivity.
Defined.

(** The example of the specification: one of two keys is translated, and
    the document holds the translated [A] and the original [B]. *)
Lemma compile_lang_example (install_dir_missing : string → string → bool) (DATE : string) :
  compile_lang map_to_list install_dir_missing DATE None "vi" "1" c4_spec_fs
  = (Ok (mk_report 1 2 50),
     set_document "chapter1/lang_vi.json"
       [("date", DATE); ("A", "translated"); ("B", "original2")] c4_spec_fs).
Proof. reflexivity. Qed.

Lemma length_filter_ne (x : string) (l : list string) :
  NoDup l → x ∈ l → length (filter (λ k, k ≠ x) l) = length l - 1.
Proof.
  induction l as [|y l IH]; [by intros _ ?%elem_of_nil|].
  intros [Hy Hl]%NoDup_cons Hin. rewrite filter_cons.
  destruct (decide (y = x)) as [->|Hne].
  - rewrite decide_False by (by intros ?). simpl.
    rewrite Nat.sub_0_r. clear IH Hin Hl.
    induction l as [|z l IH]; [done|].
    apply not_elem_of_cons in Hy as [Hz Hy].
    rewrite filter_cons, decide_True by done. simpl. by rewrite IH.
  - rewrite decide_True by done. simpl.
    apply elem_of_cons in Hin as [->|Hin]; [done|].
    rewrite IH by done. destruct l; [by apply elem_of_nil in Hin|simpl; lia].
Qed.

(** The total the Compiler reports is the number of keys of the document
    other than ["date"]. *)
Lemma compile_objs_total DATE listing new_lang_objs :
  let doc := (compile_objs DATE listing new_lang_objs).1 in
  length doc - 1 = length (filter (λ k, k ≠ "date") (dict_keys doc)).
Proof.
  destruct (compile_objs_keys DATE listing new_lang_objs) as [Hnd Hkeys].
  cbn zeta in *. rewrite length_filter_ne; [|done|apply Hkeys; by left].
  unfold dict_keys. by rewrite length_fmap.
Qed.

(** C4. The Compiler reports 57 percent for 29 translated keys out of 50,
    where floor(29 / 50 * 100) is 58: line 167 divides and multiplies in
    binary floating point and truncates the product 57.99999999999999. *)
Theorem compile_progress_float_truncation (install_dir_missing : string → string → bool) :
  (compile_lang map_to_list install_dir_missing "1700000000000" None "vi" "1" c4_fs).1
  = Ok (mk_report 29 50 57)
  ∧ (29 * 100 / 50 = 58)%Z
  ∧ l10n_progress 29 50 = Ok 57%Z
  ∧ l10n_progress 29 100 = Ok 28%Z.
Proof. split_and!; vm_compute; reflexivity. Qed.

(** ** Initializer *)

Lemma init_create_lookup (ls_base : list string) (new_lang_objs : directory) name :
  init_create ls_base new_lang_objs !! name
  = match new_lang_objs !! name with
    | Some obj => Some obj
    | None => if decide (name ∈ ls_base) then Some [] else None
    end.
Proof.
  unfold init_create. revert new_lang_objs.
  induction ls_base as [|obj ls IH]; intros dir.
  - cbn [foldl]. destruct (dir !! name); [done|].
    by rewrite decide_False by apply not_elem_of_nil.
  - cbn [foldl]. rewrite IH. destruct (dir !! obj) eqn:Hobj.
    + destruct (dir !! name) eqn:Hname; [done|].
      destruct (decide (name ∈ ls)).
      * by rewrite decide_True by by right.
      * rewrite decide_False; [done|]. rewrite elem_of_cons.
        intros [->|?]; congruence.
    + unfold dict2file. destruct (decide (obj = name)) as [->|Hne].
      * rewrite lookup_insert_eq, Hobj. by rewrite decide_True by left.
      * rewrite lookup_insert_ne by done. destruct (dir !! name); [done|].
        destruct (decide (name ∈ ls)).
        -- by rewrite decide_True by by right.
        -- rewrite decide_False; [done|]. rewrite elem_of_cons.
           intros [->|?]; congruence.
Qed.

Lemma for_each_unlink (diff : list string) (dir : directory) :
  NoDup diff → (∀ name, name ∈ diff → is_Some (dir !! name)) →
  ∃ dir', for_each unlink diff dir = (Ok (), dir')
          ∧ ∀ name, dir' !! name
                    = if decide (name ∈ diff) then None else dir !! name.
Proof.
  revert dir. induction diff as [|obj diff IH]; intros dir Hnd Hin.
  - exists dir. split; [done|]. intros name.
    by rewrite decide_False by apply not_elem_of_nil.
  - apply NoDup_cons in Hnd as [Hobj Hnd].
    destruct (Hin obj) as [o Ho]; [left|].
    destruct (IH (delete obj dir) Hnd) as (dir' & Hrun & Hlook).
    { intros name Hname. rewrite lookup_delete_ne; [apply Hin; by right|].
      by intros ->. }
    exists dir'. split.
    + cbn [for_each]. unfold unlink at 1. by rewrite Ho.
    + intros name. rewrite Hlook. destruct (decide (obj = name)) as [->|Hne].
      * rewrite (decide_True (P := name ∈ name :: diff)) by left.
        case_decide; [done|]. by rewrite lookup_delete_eq.
      * rewrite lookup_delete_ne by done.
        destruct (decide (name ∈ diff)).
        -- by rewrite decide_True by by right.
        -- rewrite decide_False; [done|]. rewrite elem_of_cons.
           intros [->|?]; congruence.
Qed.

Section initializer.
Variable iterdir : directory → list (string * pydict string).
Hypothesis iterdir_lists : ∀ dir, iterdir dir ≡ₚ map_to_list dir.

Lemma elem_of_iterdir_names (dir : directory) name :
  name ∈ (iterdir dir).*1 ↔ is_Some (dir !! name).
Proof.
  rewrite iterdir_lists. rewrite list_elem_of_fmap. split.
  - intros ([n obj] & -> & Hin%elem_of_map_to_list). eauto.
  - intros [obj Hobj]. exists (name, obj). by rewrite elem_of_map_to_list.
Qed.

Lemma iterdir_names_NoDup (dir : directory) : NoDup (iterdir dir).*1.
Proof. rewrite iterdir_lists. apply NoDup_fst_map_to_list. Qed.

End initializer.


(** The example of the specification: base [{x.json, y.json}] and target
    [{y.json, z.json}] give the target [{x.json, y.json}], with [x.json]
    empty and [y.json] as it was. *)
Lemma init_dir_example :
  init_dir map_to_list c6_base c6_target
  = (Ok (), {[ "x.json" := []; "y.json" := [("b", "deux")] ]}).
Proof. vm_compute. reflexivity. Qed.

(** * Further properties *)

(** ** Locations *)

Lemma split_not_nil sep s : split sep s ≠ [].
Proof.
  destruct s as [|c s]; [done|]. simpl.
  destruct (Ascii.eqb c sep); [done|]. by destruct (split sep s).
Qed.

Lemma split_join sep s : join sep (split sep s) = s.
Proof.
  induction s as [|c s IH]; [done|]. simpl.
  destruct (Ascii.eqb_spec c sep) as [->|Hne].
  - pose proof (split_not_nil sep s). simpl.
    destruct (split sep s) as [|p ps]; [done|]. by rewrite IH.
  - pose proof (split_not_nil sep s).
    destruct (split sep s) as [|p ps]; [done|]. simpl in *.
    destruct ps; rewrite <- IH; reflexivity.
Qed.

Lemma split_pieces sep s : Forall (λ piece, contains sep piece = false) (split sep s).
Proof.
  induction s as [|c s IH]; [by repeat constructor|]. simpl.
  destruct (Ascii.eqb_spec c sep) as [->|Hne].
  - by constructor.
  - destruct (split sep s) as [|p ps]; [repeat constructor|].
    + simpl. by rewrite (proj2 (Ascii.eqb_neq c sep) Hne).
    + apply Forall_cons in IH as [Hp Hps]. constructor; [|done].
      simpl. by rewrite (proj2 (Ascii.eqb_neq c sep) Hne).
Qed.

Lemma split_without_sep sep s : contains sep s = false → split sep s = [s].
Proof.
  induction s as [|c s IH]; [done|]. simpl.
  intros [Hc Hs]%orb_false_elim. rewrite Hc. by rewrite IH.
Qed.

Lemma split_app_sep sep (s1 s2 : string) :
  contains sep s1 = false →
  split sep (s1 +:+ String sep s2) = s1 :: split sep s2.
Proof.
  induction s1 as [|c s1 IH].
  - intros _. rewrite string_app_nil. simpl. by rewrite Ascii.eqb_refl.
  - intros Hcs. rewrite string_app_cons. simpl in *.
    apply orb_false_elim in Hcs as [Hc Hs]. rewrite Hc. by rewrite IH.
Qed.

(** X1. Line 83 accepts a location exactly when it has one colon, and then
    yields the text before the colon and the text after it. *)
Theorem split_location_one_colon (v filename lineno : string) :
  split_location v = Ok (filename, lineno)
  ↔ v = filename +:+ String ":" lineno
    ∧ contains ":" filename = false ∧ contains ":" lineno = false.
Proof.
  rewrite split_location_Ok. split.
  - intros Hsplit. pose proof (split_join ":" v) as Hjoin.
    pose proof (split_pieces ":" v) as Hpieces. rewrite Hsplit in Hjoin, Hpieces.
    apply Forall_cons in Hpieces as [Hf Hl]. apply Forall_cons in Hl as [Hl _].
    by rewrite <- Hjoin.
  - intros (-> & Hf & Hl). by rewrite split_app_sep, split_without_sep.
Qed.

Lemma split_location_one_colon_witness :
  split_location "file.gml:42" = Ok ("file.gml", "42").
Proof.
  apply (proj2 (split_location_one_colon "file.gml:42" "file.gml" "42")).
  split_and!; reflexivity.
Defined.

Lemma split_location_raises v e : split_location v = Raise e → e = ValueError.
Proof.
  unfold split_location.
  destruct (split ":" v) as [|f [|l [|x r]]]; by intros [= <-].
Qed.

Lemma position_tokens_raises linedups dupecount (entries : pydict string) e :
  Forall (λ kv, is_Some (dict_get linedups kv.2)) entries →
  position_tokens linedups dupecount entries = Raise e →
  e = ValueError ∧ Exists (λ kv, ¬ well_formed_location kv.2) entries.
Proof.
  intros Hall. revert dupecount.
  induction Hall as [|[k v] entries [count Hcount] _ IH]; intros c; [done|].
  rewrite position_tokens_cons. simpl in Hcount.
  destruct (split_location v) as [[f ln]|e'] eqn:Hloc.
  - unfold disambiguate. rewrite Hcount. cbn [fst snd].
    destruct (1 <? count); cbn [fst snd];
      (destruct (position_tokens _ _ entries) as [r|e'] eqn:Hrest; [done|];
       intros [= ->]; apply IH in Hrest as [-> Hex]; eauto using Exists_cons_tl).
  - intros [= ->]. split; [by eapply split_location_raises|].
    apply Exists_cons_hd. simpl. intros [loc Hwf]%split_location_well_formed.
    congruence.
Qed.

Lemma position_tokens_well_formed linedups dupecount (entries : pydict string) r :
  position_tokens linedups dupecount entries = Ok r →
  Forall (λ kv, well_formed_location kv.2) entries.
Proof.
  revert dupecount r. induction entries as [|[k v] entries IH]; intros c r;
    [by constructor|].
  rewrite position_tokens_cons.
  destruct (split_location v) as [[f ln]|e'] eqn:Hloc; [|done].
  destruct (disambiguate linedups c v (f, ln).2) as [dl|e']; [|done].
  destruct (position_tokens linedups dl.1 entries) as [rest|e'] eqn:Hrest; [|done].
  intros _. constructor; [|by eapply IH].
  apply split_location_well_formed. eauto.
Qed.

(** X2. The Chapter Source Map is built exactly when every location of the raw
    source map has one colon; otherwise the run raises [ValueError], and it
    raises nothing else. *)
Theorem new_sourcemap_raises_on_malformed (raw_sourcemap_ch : pydict string) :
  ((∃ ch_sourcemap, new_sourcemap raw_sourcemap_ch = Ok ch_sourcemap)
   ↔ Forall (λ kv, well_formed_location kv.2) raw_sourcemap_ch)
  ∧ (new_sourcemap raw_sourcemap_ch = Raise ValueError
     ↔ Exists (λ kv, ¬ well_formed_location kv.2) raw_sourcemap_ch)
  ∧ ∀ e, new_sourcemap raw_sourcemap_ch = Raise e → e = ValueError.
Proof.
  assert (Hcounted : Forall (λ kv : string * string,
            is_Some (dict_get (count_dups raw_sourcemap_ch.*2) kv.2))
            raw_sourcemap_ch).
  { apply Forall_forall. intros [k v] Hkv. simpl.
    rewrite count_dups_get, decide_True; [by eexists|].
    apply list_elem_of_fmap. by exists (k, v). }
  assert (Hnew : new_sourcemap raw_sourcemap_ch
    = match position_tokens (count_dups raw_sourcemap_ch.*2) 0 raw_sourcemap_ch with
      | Ok r => Ok (sort_sourcemap (record_tokens [] r.2))
      | Raise e => Raise e
      end).
  { unfold new_sourcemap, sourcemap_loop. rewrite sourcemap_loop_tokens.
    by destruct (position_tokens _ 0 raw_sourcemap_ch). }
  assert (Hok : (∃ ch_sourcemap, new_sourcemap raw_sourcemap_ch = Ok ch_sourcemap)
                ↔ Forall (λ kv, well_formed_location kv.2) raw_sourcemap_ch).
  { split; [|apply new_sourcemap_total].
    intros [sm Hsm]. rewrite Hnew in Hsm.
    destruct (position_tokens _ 0 raw_sourcemap_ch) as [r|e] eqn:Htoks; [|done].
    by eapply position_tokens_well_formed. }
  assert (Hraise : ∀ e, new_sourcemap raw_sourcemap_ch = Raise e →
            e = ValueError
            ∧ Exists (λ kv, ¬ well_formed_location kv.2) raw_sourcemap_ch).
  { intros e. rewrite Hnew.
    destruct (position_tokens _ 0 raw_sourcemap_ch) as [r|e'] eqn:Htoks; [done|].
    intros [= ->]. by eapply position_tokens_raises. }
  split_and!; [done| |by intros e [-> _]%Hraise].
  split; [by intros [_ ?]%Hraise|].
  intros Hex. destruct (new_sourcemap raw_sourcemap_ch) as [sm|e] eqn:Hsm.
  - exfalso. assert (Hall : Forall (λ kv, well_formed_location kv.2) raw_sourcemap_ch)
      by (apply Hok; eauto).
    apply Exists_exists in Hex as (kv & Hin & Hbad).
    by apply Hbad, (proj1 (Forall_forall _ _) Hall).
  - by destruct (Hraise e eq_refl) as [-> _].
Qed.

(** ** [sorted] and the order of the Chapter Source Map *)

Lemma string_ltb_asym (a b : string) : String.ltb a b = true → String.ltb b a = false.
Proof.
  unfold String.ltb. rewrite (String.compare_antisym a b).
  by destruct (String.compare b a).
Qed.

Lemma list_ltb_asym (a b : list string) : list_ltb a b = true → list_ltb b a = false.
Proof.
  revert b. induction a as [|x a IH]; intros [|y b]; simpl; try done.
  rewrite (String.eqb_sym y x). destruct (String.eqb x y); [apply IH|].
  apply string_ltb_asym.
Qed.

Lemma string_ltb_false_le (a b : string) :
  String.ltb a b = false ↔ String.le b a.
Proof.
  unfold String.le, String.leb, String.ltb.
  rewrite (String.compare_antisym a b).
  destruct (String.compare b a); simpl; split; done.
Qed.

Lemma list_ltb_head_le x y (a b : list string) :
  list_ltb (y :: b) (x :: a) = false → String.le x y.
Proof.
  simpl. destruct (String.eqb_spec y x) as [->|Hne]; [done|].
  apply string_ltb_false_le.
Qed.

Lemma list_ltb_false_trans (a b c : list string) :
  list_ltb b a = false → list_ltb c b = false → list_ltb c a = false.
Proof.
  revert b c. induction a as [|x a IH]; intros b c Hba Hcb.
  - by destruct c.
  - destruct b as [|y b]; [done|]. destruct c as [|z c]; [done|].
    pose proof (list_ltb_head_le _ _ _ _ Hba) as Hxy.
    pose proof (list_ltb_head_le _ _ _ _ Hcb) as Hyz.
    assert (Hxz : String.le x z) by (by etrans).
    simpl in *. destruct (String.eqb_spec z x) as [->|Hne].
    + assert (y = x) as -> by (by apply (anti_symm String.le)).
      rewrite String.eqb_refl in Hba, Hcb. by eapply IH.
    + by apply string_ltb_false_le.
Qed.

Lemma sorted_insert_elem {A} (key : A → list string) x (l : list A) y :
  y ∈ sorted_insert key x l → y = x ∨ y ∈ l.
Proof.
  induction l as [|z l IH]; simpl.
  - intros ->%list_elem_of_singleton. by left.
  - destruct (list_ltb (key x) (key z)).
    + intros [->|Hy]%elem_of_cons; [by left|by right].
    + intros [->|Hy]%elem_of_cons; [right; left|].
      destruct (IH Hy) as [->|?]; [by left|right; by right].
Qed.

Lemma sorted_insert_in_key_order {A} (key : A → list string) x (l : list A) :
  in_key_order key l → in_key_order key (sorted_insert key x l).
Proof.
  induction l as [|y l IH]; [done|]. intros [Hy Hl].
  cbn [sorted_insert]. destruct (list_ltb (key x) (key y)) eqn:Hxy.
  - split; [|by split]. apply list_ltb_asym in Hxy.
    constructor; [done|]. eapply Forall_impl; [apply Hy|].
    intros z Hyz. unfold key_le in *. by eapply list_ltb_false_trans.
  - split; [|by apply IH]. apply Forall_forall.
    intros z [->|Hz]%sorted_insert_elem; [done|].
    by apply (proj1 (Forall_forall _ _) Hy).
Qed.

Lemma sorted_in_key_order {A} (key : A → list string) (l : list A) :
  in_key_order key (sorted key l).
Proof.
  unfold sorted. assert (Hacc : in_key_order key (@nil A)) by done.
  revert Hacc. generalize (@nil A) as acc.
  induction l as [|x l IH]; intros acc Hacc; [done|].
  simpl. by apply IH, sorted_insert_in_key_order.
Qed.

Lemma dict_get_app_r {V} (d1 d2 : pydict V) k :
  k ∉ d1.*1 → dict_get (d1 ++ d2) k = dict_get d2 k.
Proof.
  induction d1 as [|[k1 v1] d1 IH]; [done|]. simpl.
  intros [Hne Hk]%not_elem_of_cons. by rewrite decide_False, IH.
Qed.

Lemma dict_set_app_r {V} (d1 d2 : pydict V) k v :
  k ∉ d1.*1 → dict_set (d1 ++ d2) k v = d1 ++ dict_set d2 k v.
Proof.
  induction d1 as [|[k1 v1] d1 IH]; [done|]. simpl.
  intros [Hne Hk]%not_elem_of_cons. by rewrite decide_False, IH.
Qed.

Lemma dict_update_fresh {V} (d other : pydict V) :
  NoDup (d ++ other).*1 → dict_update d other = d ++ other.
Proof.
  unfold dict_update. revert d.
  induction other as [|[k v] other IH]; intros d Hnd; simpl.
  - by rewrite app_nil_r.
  - rewrite dict_set_fresh.
    + rewrite IH; rewrite <- app_assoc; done.
    + rewrite fmap_app in Hnd. apply NoDup_app in Hnd as (_ & Hd & _).
      intros Hk. apply (Hd k Hk). left.
Qed.

Lemma dict_of_items_NoDup_id {V} (l : pydict V) :
  NoDup l.*1 → dict_of_items l = l.
Proof. intros Hnd. unfold dict_of_items. by rewrite dict_update_fresh. Qed.

(** The loop of lines 96-97 replaces each file's map in place. *)
Lemma sort_loop_fmap (g : pydict string → pydict string)
    (pre rest : pydict (pydict string)) :
  NoDup (pre ++ rest).*1 →
  foldl (λ sm filename,
           dict_set sm filename (g (default [] (dict_get sm filename))))
        (pre ++ rest) rest.*1
  = pre ++ ((λ fm, (fm.1, g fm.2)) <$> rest).
Proof.
  revert pre. induction rest as [|[f m] rest IH]; intros pre Hnd; [done|].
  assert (Hf : f ∉ pre.*1).
  { rewrite fmap_app in Hnd. apply NoDup_app in Hnd as (_ & Hd & _).
    intros Hk. apply (Hd f Hk). left. }
  cbn [fmap list_fmap foldl fst snd].
  rewrite dict_get_app_r, dict_set_app_r by done. simpl.
  rewrite !decide_True by done. cbn [default].
  rewrite (cons_middle _ pre), app_assoc. rewrite IH.
  - by rewrite <- app_assoc.
  - rewrite <- app_assoc. by rewrite !fmap_app in *.
Qed.

Lemma dict_set_Forall {V} (P : V → Prop) (d : pydict V) k v :
  Forall (λ kv, P kv.2) d → P v → Forall (λ kv, P kv.2) (dict_set d k v).
Proof.
  intros Hd Hv. induction Hd as [|[k0 v0] d H0 Hd IH]; simpl.
  - by repeat constructor.
  - case_decide; constructor; done.
Qed.

Lemma dict_get_Forall {V} (P : V → Prop) (d : pydict V) k v :
  Forall (λ kv, P kv.2) d → dict_get d k = Some v → P v.
Proof.
  intros Hd. induction Hd as [|[k0 v0] d H0 Hd IH]; simpl; [done|].
  case_decide; [by intros [= <-]|done].
Qed.

(** File names and, within a file, tokens are never repeated while the map
    is built. *)
Lemma record_tokens_NoDup (sm : pydict (pydict string)) toks :
  NoDup sm.*1 → Forall (λ fm, NoDup fm.2.*1) sm →
  NoDup (record_tokens sm toks).*1
  ∧ Forall (λ fm, NoDup fm.2.*1) (record_tokens sm toks).
Proof.
  unfold record_tokens. revert sm.
  induction toks as [|[[k f] tok] toks IH]; intros sm Hnd Hin; [done|].
  cbn [foldl]. apply IH.
  - unfold record_position, ensure_file. cbn [fst snd].
    destruct (dict_get sm f); by repeat apply dict_set_NoDup.
  - unfold record_position. cbn [fst snd].
    assert (Hens : Forall (λ fm : string * pydict string, NoDup fm.2.*1)
                     (ensure_file sm f)).
    { unfold ensure_file. destruct (dict_get sm f); [done|].
      apply (dict_set_Forall (λ m : pydict string, NoDup m.*1)); [done|].
      constructor. }
    apply (dict_set_Forall (λ m : pydict string, NoDup m.*1)); [done|].
    apply dict_set_NoDup.
    destruct (dict_get (ensure_file sm f) f) as [m|] eqn:Hm; [|constructor].
    by apply (dict_get_Forall (λ m : pydict string, NoDup m.*1) _ _ _ Hens Hm).
Qed.

(** X3. In the Chapter Source Map of a chapter, file names are not repeated
    and, within each file, tokens are not repeated and stand in the order of
    their natural sort keys. *)
Theorem new_sourcemap_sorted (raw_sourcemap_ch : pydict string)
    (ch_sourcemap : pydict (pydict string)) :
  new_sourcemap raw_sourcemap_ch = Ok ch_sourcemap →
  NoDup (dict_keys ch_sourcemap)
  ∧ Forall (λ fm, NoDup (dict_keys fm.2) ∧ in_key_order smartsort fm.2)
           ch_sourcemap.
Proof.
  unfold new_sourcemap, sourcemap_loop. rewrite sourcemap_loop_tokens.
  destruct (position_tokens _ 0 raw_sourcemap_ch) as [[c toks]|e]; [|done].
  intros [= <-]. cbn [fst snd].
  destruct (record_tokens_NoDup [] toks) as [Hnd Hin]; [constructor..|].
  set (sm := record_tokens [] toks) in *.
  assert (Hsort : sort_sourcemap sm
                  = (λ fm, (fm.1, dict_of_items (sorted smartsort fm.2))) <$> sm).
  { unfold sort_sourcemap, dict_keys.
    apply (sort_loop_fmap (λ m, dict_of_items (sorted smartsort m)) [] sm Hnd). }
  rewrite Hsort. unfold dict_keys. split.
  - by rewrite <- list_fmap_compose.
  - apply Forall_fmap. eapply Forall_impl; [apply Hin|]. intros [f m] Hm.
    simpl in *. rewrite dict_of_items_NoDup_id by by rewrite sorted_perm.
    split; [by rewrite sorted_perm|apply sorted_in_key_order].
Qed.

Lemma new_sourcemap_sorted_witness :
  NoDup (dict_keys c9_chapter_sourcemap)
  ∧ Forall (λ fm, NoDup (dict_keys fm.2) ∧ in_key_order smartsort fm.2)
           c9_chapter_sourcemap.
Proof. apply (new_sourcemap_sorted c9_sourcemap). reflexivity. Defined.

(** ** What the per-file objects and the orphan object hold *)

Lemma strings_at_cons strings tok k positions :
  strings_at strings ((tok, k) :: positions)
  = match strings ≫= (λ s, dict_get s k) with
    | Some txt => (k, txt) :: strings_at strings positions
    | None => strings_at strings positions
    end.
Proof.
  unfold strings_at. simpl. by destruct (strings ≫= (λ s, dict_get s k)).
Qed.

Lemma strings_at_keys strings positions k :
  k ∈ (strings_at strings positions).*1 → k ∈ positions.*2.
Proof.
  induction positions as [|[tok k0] positions IH]; [done|].
  rewrite strings_at_cons. simpl.
  destruct (strings ≫= (λ s, dict_get s k0)); simpl.
  - intros [->|?]%elem_of_cons; [left|right; auto].
  - intros ?. right. auto.
Qed.

Lemma split_obj_fold_exact strings positions (st : pydict string * pydict string) :
  NoDup positions.*2 →
  (∀ k, k ∈ positions.*2 → (k ∉ st.1.*1) ∧ (k ∉ st.2.*1)) →
  foldl (split_obj_step strings) st positions
  = (st.1 ++ strings_at strings positions, st.2 ++ strings_at strings positions).
Proof.
  revert st. induction positions as [|[tok k] positions IH]; intros [ls obj] Hnd Hfresh.
  - simpl. by rewrite !app_nil_r.
  - simpl in Hnd. apply NoDup_cons in Hnd as [Hk Hnd].
    cbn [foldl]. rewrite strings_at_cons. unfold split_obj_step at 2. cbn [fst snd].
    destruct (Hfresh k) as [Hk1 Hk2]; [left|].
    destruct (strings ≫= (λ s, dict_get s k)) as [txt|].
    + rewrite !dict_set_fresh by done. rewrite IH; [|done|].
      * cbn [fst snd]. by rewrite <- !app_assoc.
      * intros k' Hk'. cbn [fst snd]. rewrite !fmap_app, !not_elem_of_app.
        destruct (Hfresh k') as [? ?]; [by right|].
        assert (k' ≠ k) by (by intros ->).
        simpl. rewrite !list_elem_of_singleton. tauto.
    + rewrite IH; [done..|]. intros k' Hk'. apply Hfresh. by right.
Qed.

Lemma split_obj_exact strings positions lang_strings :
  NoDup positions.*2 →
  (∀ k, k ∈ positions.*2 → k ∉ lang_strings.*1) →
  split_obj strings positions lang_strings
  = (lang_strings ++ strings_at strings positions, strings_at strings positions).
Proof.
  intros Hnd Hfresh. unfold split_obj.
  rewrite split_obj_fold_exact; [done..|].
  intros k Hk. split; [by apply Hfresh|apply not_elem_of_nil].
Qed.

Lemma split_objects_fold_exact strings (sm : pydict (pydict string)) st :
  NoDup (all_values sm) →
  (∀ k, k ∈ all_values sm → k ∉ st.1.*1) →
  foldl (split_objects_step strings) st sm
  = (st.1 ++ mjoin ((λ fm, strings_at strings fm.2) <$> sm),
     st.2 ++ ((λ fm, (obj_file_name fm.1, strings_at strings fm.2)) <$> sm)).
Proof.
  revert st. induction sm as [|[f m] sm IH]; intros [ls objs] Hnd Hfresh.
  - simpl. by rewrite !app_nil_r.
  - rewrite all_values_cons in Hnd, Hfresh.
    apply NoDup_app in Hnd as (Hm & Hdisj & Hsm).
    cbn [foldl]. unfold split_objects_step at 2. cbn [fst snd].
    rewrite split_obj_exact; [|done|].
    + cbn [fst snd]. rewrite IH; [|done|].
      * cbn [fst snd fmap list_fmap mjoin list_join].
        by rewrite <- !app_assoc.
      * intros k Hk. cbn [fst]. rewrite fmap_app, not_elem_of_app. split.
        -- apply Hfresh, elem_of_app. by right.
        -- intros Hin%strings_at_keys. by apply (Hdisj k).
    + intros k Hk. apply Hfresh, elem_of_app. by left.
Qed.

Lemma new_sourcemap_values (raw_sourcemap_ch : pydict string) ch_sourcemap :
  new_sourcemap raw_sourcemap_ch = Ok ch_sourcemap →
  all_values ch_sourcemap ⊆+ dict_keys raw_sourcemap_ch.
Proof.
  unfold new_sourcemap, sourcemap_loop. rewrite sourcemap_loop_tokens.
  destruct (position_tokens _ 0 raw_sourcemap_ch) as [[c toks]|e] eqn:Htoks; [|done].
  intros [= <-]. cbn [fst snd].
  etrans; [apply sort_sourcemap_values|].
  etrans; [apply record_tokens_values|].
  rewrite (position_tokens_keys _ _ _ _ _ Htoks). unfold all_values. simpl.
  by rewrite app_nil_r.
Qed.

(** X4. The object written for a source file lists the file's keys in the
    order of the Chapter Source Map, each with its string from the Raw
    String Map, leaving out the keys that have none; and [lang_strings] is
    these objects one after the other. *)
Theorem split_objects_exact (raw_sourcemap_ch : pydict string)
    (ch_sourcemap : pydict (pydict string)) (strings : option (pydict string)) :
  NoDup (dict_keys raw_sourcemap_ch) →
  new_sourcemap raw_sourcemap_ch = Ok ch_sourcemap →
  split_objects ch_sourcemap strings
  = (mjoin ((λ fm, strings_at strings fm.2) <$> ch_sourcemap),
     (λ fm, (obj_file_name fm.1, strings_at strings fm.2)) <$> ch_sourcemap).
Proof.
  intros Hnd Hsm. destruct (new_sourcemap_NoDup _ _ Hnd Hsm) as [Hvals _].
  unfold split_objects. rewrite split_objects_fold_exact; [done..|].
  intros k _. apply not_elem_of_nil.
Qed.

Lemma split_objects_exact_witness :
  split_objects c9_chapter_sourcemap (Some c1_strings)
  = (mjoin ((λ fm, strings_at (Some c1_strings) fm.2) <$> c9_chapter_sourcemap),
     (λ fm, (obj_file_name fm.1, strings_at (Some c1_strings) fm.2))
       <$> c9_chapter_sourcemap).
Proof.
  apply (split_objects_exact c9_sourcemap).
  - apply (bool_decide_unpack _). vm_compute. exact I.
  - reflexivity.
Defined.

(** X5. A key of the Raw String Map that the Raw Source Map does not have
    is in no per-file object; unless it is ["date"], it is in the orphan
    object. *)
Theorem unmapped_key_is_orphan (raw_sourcemap_ch strings : pydict string)
    (ch_sourcemap : pydict (pydict string)) (k : string) :
  new_sourcemap raw_sourcemap_ch = Ok ch_sourcemap →
  k ∉ dict_keys raw_sourcemap_ch →
  (k ∉ object_keys (split_objects ch_sourcemap (Some strings)).2)
  ∧ (k ∈ dict_keys strings → k ≠ "date" →
     k ∈ dict_keys
           (orphans strings (split_objects ch_sourcemap (Some strings)).1)).
Proof.
  intros Hsm Hk.
  destruct (split_objects_keys (Some strings) ch_sourcemap) as (Hsub & Hls & Hobj).
  assert (Hnot : k ∉ (split_objects ch_sourcemap (Some strings)).1.*1).
  { rewrite (Hls k). intros [Hin _]. apply Hk.
    eapply elem_of_submseteq; [done|]. by apply new_sourcemap_values. }
  split.
  - by rewrite (Hobj k).
  - intros Hin Hdate. apply orphans_keys. by split_and!.
Qed.

Lemma unmapped_key_is_orphan_witness :
  ("zz" ∉ object_keys (split_objects c9_chapter_sourcemap (Some c1_strings)).2)
  ∧ ("zz" ∈ dict_keys c1_strings → "zz" ≠ "date" →
     "zz" ∈ dict_keys
              (orphans c1_strings
                 (split_objects c9_chapter_sourcemap (Some c1_strings)).1)).
Proof.
  apply (unmapped_key_is_orphan c9_sourcemap c1_strings c9_chapter_sourcemap "zz").
  - reflexivity.
  - apply (bool_decide_unpack _). vm_compute. exact I.
Defined.

Lemma orphans_fold_exact (lang_strings strings acc : pydict string) :
  NoDup (acc ++ strings).*1 →
  foldl (orphan_step lang_strings) acc strings
  = acc ++ unmapped strings lang_strings.
Proof.
  revert acc. induction strings as [|[k v] strings IH]; intros acc Hnd.
  - simpl. by rewrite app_nil_r.
  - cbn [foldl]. unfold unmapped. rewrite filter_cons.
    fold (unmapped strings lang_strings).
    unfold orphan_step at 2. cbn [fst snd].
    assert (Hk : k ∉ acc.*1).
    { rewrite fmap_app in Hnd. apply NoDup_app in Hnd as (_ & Hd & _).
      intros Hin. apply (Hd k Hin). left. }
    assert (Hrest : NoDup (acc ++ strings).*1).
    { rewrite fmap_app in *. simpl in Hnd.
      apply NoDup_app in Hnd as (Ha & Hd & [_ Hs]%NoDup_cons).
      apply NoDup_app. split_and!; [done| |done].
      intros x Hx Hxs. apply (Hd x Hx). by right. }
    destruct (dict_mem k lang_strings) eqn:Hmem.
    + apply dict_mem_spec in Hmem.
      rewrite decide_False by (intros [? _]; done). by apply IH.
    + apply dict_mem_false in Hmem. destruct (decide (k = "date")) as [->|Hne].
      * rewrite decide_False by (intros [_ ?]; done). by apply IH.
      * rewrite decide_True by done. rewrite dict_set_fresh by done.
        rewrite IH; [by rewrite <- app_assoc|].
        rewrite <- app_assoc. simpl. by rewrite !fmap_app in *.
Qed.

(** X6. The orphan object is the Raw String Map without the mapped keys and
    without ["date"], in the order and with the strings of the Raw String
    Map. *)
Theorem orphans_exact (strings lang_strings : pydict string) :
  NoDup (dict_keys strings) →
  orphans strings lang_strings = unmapped strings lang_strings.
Proof. intros Hnd. unfold orphans. by rewrite orphans_fold_exact. Qed.

Lemma orphans_exact_witness :
  orphans c1_strings [("k2", "two")] = unmapped c1_strings [("k2", "two")].
Proof.
  apply orphans_exact. apply (bool_decide_unpack _). vm_compute. exact I.
Defined.

(** ** The compiled document *)

Lemma merge_obj_keys baselang_obj newlang_obj :
  (merge_obj baselang_obj newlang_obj).*1 = baselang_obj.*1.
Proof. unfold merge_obj. rewrite <- list_fmap_compose. by apply list_fmap_ext. Qed.

Lemma compile_keys_exact newlang_obj (pre rest : pydict string) count :
  NoDup (pre ++ rest).*1 →
  foldl (compile_key newlang_obj) (pre ++ rest, count) rest.*1
  = (pre ++ merge_obj rest newlang_obj,
     count + translated_among newlang_obj rest.*1).
Proof.
  revert pre count. induction rest as [|[k v] rest IH]; intros pre count Hnd.
  - simpl. unfold translated_among. simpl. by rewrite Nat.add_0_r.
  - assert (Hk : k ∉ pre.*1).
    { rewrite fmap_app in Hnd. apply NoDup_app in Hnd as (_ & Hd & _).
      intros Hin. apply (Hd k Hin). left. }
    assert (Hnd' : NoDup ((pre ++ [(k, v)]) ++ rest).*1)
      by by rewrite <- app_assoc.
    cbn [fmap list_fmap foldl fst]. rewrite compile_key_unfold. cbn [fst snd].
    unfold translated_among. rewrite filter_cons.
    fold (translated_among newlang_obj rest.*1).
    unfold merge_obj. cbn [fmap list_fmap fst snd]. fold (merge_obj rest newlang_obj).
    destruct (dict_get newlang_obj k) as [t|] eqn:Hget.
    + rewrite decide_True by eauto. rewrite dict_set_app_r by done.
      simpl. rewrite decide_True by done.
      rewrite (cons_middle _ pre), app_assoc, IH.
      * rewrite <- app_assoc. simpl. f_equal. unfold translated_among. lia.
      * rewrite <- app_assoc. rewrite fmap_app in *. by simpl in *.
    + rewrite decide_False by (by intros [? ?]).
      rewrite (cons_middle _ pre), app_assoc, IH by done.
      by rewrite <- app_assoc.
Qed.

Lemma compile_obj_exact baselang_obj newlang_obj count :
  NoDup (dict_keys baselang_obj) →
  compile_obj baselang_obj newlang_obj count
  = (merge_obj baselang_obj newlang_obj,
     count + translated_among newlang_obj (dict_keys baselang_obj)).
Proof.
  intros Hnd. unfold compile_obj, dict_keys.
  apply (compile_keys_exact newlang_obj [] baselang_obj count Hnd).
Qed.

Lemma object_keys_NoDup_inv name obj objs :
  NoDup (object_keys ((name, obj) :: objs)) →
  NoDup (dict_keys obj) ∧ NoDup (object_keys objs)
  ∧ ∀ k, k ∈ dict_keys obj → k ∉ object_keys objs.
Proof.
  rewrite object_keys_cons. intros (H1 & H2 & H3)%NoDup_app. by split_and!.
Qed.

Lemma merged_objects_cons name obj listing (new_lang_objs : directory) :
  merged_objects ((name, obj) :: listing) new_lang_objs
  = merge_obj obj (load_newlang new_lang_objs name)
    ++ merged_objects listing new_lang_objs.
Proof. reflexivity. Qed.

Lemma translated_keys_cons name obj listing (new_lang_objs : directory) :
  translated_keys ((name, obj) :: listing) new_lang_objs
  = translated_among (load_newlang new_lang_objs name) (dict_keys obj)
    + translated_keys listing new_lang_objs.
Proof. reflexivity. Qed.

Lemma compile_steps_exact new_lang_objs (listing : list (string * pydict string))
    (doc : pydict string) count :
  NoDup (doc.*1 ++ object_keys listing) →
  foldl (compile_step new_lang_objs) (doc, count) listing
  = (doc ++ merged_objects listing new_lang_objs,
     count + translated_keys listing new_lang_objs).
Proof.
  revert doc count. induction listing as [|[name obj] listing IH];
    intros doc count Hnd.
  - unfold merged_objects, translated_keys. simpl.
    by rewrite app_nil_r, Nat.add_0_r.
  - rewrite object_keys_cons, app_assoc in Hnd.
    assert (Hobj : NoDup (dict_keys obj)).
    { apply NoDup_app in Hnd as (Hnd & _ & _).
      by apply NoDup_app in Hnd as (_ & _ & ?). }
    cbn [foldl]. unfold compile_step at 2. cbn [fst snd].
    rewrite compile_obj_exact by done. cbn [fst snd].
    rewrite dict_update_fresh.
    + rewrite IH.
      * rewrite merged_objects_cons, translated_keys_cons.
        rewrite <- app_assoc. f_equal. lia.
      * by rewrite fmap_app, merge_obj_keys.
    + rewrite fmap_app, merge_obj_keys. by apply NoDup_app in Hnd as (? & _ & _).
Qed.

(** X7. When no key occurs in two of the listed base objects, or twice in
    one, and none is ["date"], the compiled document is the time stamp
    followed by the base objects in the order listed, each key with the
    value of the same-named target object where that has the key and with
    its base value otherwise; the count of translated keys is the number of
    base keys the target objects have, and the total is the number of base
    keys. *)
Theorem compile_objs_exact (DATE : string)
    (listing : list (string * pydict string)) (new_lang_objs : directory) :
  NoDup ("date" :: object_keys listing) →
  compile_objs DATE listing new_lang_objs
  = (("date", DATE) :: merged_objects listing new_lang_objs,
     translated_keys listing new_lang_objs)
  ∧ length (compile_objs DATE listing new_lang_objs).1 - 1
    = length (object_keys listing)
  ∧ translated_keys listing new_lang_objs ≤ length (object_keys listing).
Proof.
  intros Hnd. unfold compile_objs.
  rewrite (compile_steps_exact new_lang_objs listing [("date", DATE)] 0 Hnd).
  split_and!; [done| |].
  - cbn [fst length]. clear Hnd.
    assert (Hlen : length (merged_objects listing new_lang_objs)
                   = length (object_keys listing)); [|simpl; lia].
    induction listing as [|[name obj] listing IH]; [done|].
    rewrite merged_objects_cons, object_keys_cons, !length_app, IH.
    unfold merge_obj, dict_keys. by rewrite !length_fmap.
  - clear Hnd.
    induction listing as [|[name obj] listing IH]; [done|].
    rewrite translated_keys_cons, object_keys_cons, length_app.
    unfold translated_among at 1.
    pose proof (length_filter
      (λ k, is_Some (dict_get (load_newlang new_lang_objs name) k))
      (dict_keys obj)). lia.
Qed.

Lemma compile_objs_exact_witness :
  compile_objs "1700000000000"
    (c8_listing_before ++ ("b.json", c8_base_obj) :: c8_listing_after) c8_target
  = (("date", "1700000000000")
       :: merged_objects
            (c8_listing_before ++ ("b.json", c8_base_obj) :: c8_listing_after)
            c8_target,
     translated_keys
       (c8_listing_before ++ ("b.json", c8_base_obj) :: c8_listing_after)
       c8_target).
Proof.
  apply (compile_objs_exact "1700000000000"
           (c8_listing_before ++ ("b.json", c8_base_obj) :: c8_listing_after)
           c8_target).
  apply (bool_decide_unpack _). vm_compute. exact I.
Defined.

Lemma dict_set_head {V} (d : pydict V) k0 v0 k v :
  ∃ v0' d', dict_set ((k0, v0) :: d) k v = (k0, v0') :: d'.
Proof. simpl. case_decide; subst; eauto. Qed.

Lemma dict_update_head {V} (d other : pydict V) k0 v0 :
  ∃ v0' d', dict_update ((k0, v0) :: d) other = (k0, v0') :: d'.
Proof.
  unfold dict_update. revert d v0.
  induction other as [|[k v] other IH]; intros d v0; [by eauto|].
  cbn [foldl fst snd]. destruct (dict_set_head d k0 v0 k v) as (v0' & d' & ->).
  apply IH.
Qed.

Lemma dict_get_merge_obj baselang_obj newlang_obj k :
  dict_get (merge_obj baselang_obj newlang_obj) k
  = (λ v, default v (dict_get newlang_obj k)) <$> dict_get baselang_obj k.
Proof.
  induction baselang_obj as [|[k0 v0] obj IH]; [done|].
  cbn [merge_obj fmap list_fmap dict_get fst snd]. case_decide; subst; [done|].
  apply IH.
Qed.

(** X8. The compiled document always begins with the ["date"] field. The
    field holds the time stamp of the run when no base object has a key
    ["date"]. When some have, the time stamp is lost: the field holds the
    value of the last of them in the listing, that of its target object if
    the target object has the key, its own otherwise. *)
Theorem compile_date_field (DATE : string)
    (listing : list (string * pydict string)) (new_lang_objs : directory) :
  (∃ v rest, (compile_objs DATE listing new_lang_objs).1 = ("date", v) :: rest)
  ∧ ("date" ∉ object_keys listing →
     dict_get (compile_objs DATE listing new_lang_objs).1 "date" = Some DATE)
  ∧ ∀ before name baselang_obj after v,
      listing = before ++ (name, baselang_obj) :: after →
      NoDup (dict_keys baselang_obj) →
      dict_get baselang_obj "date" = Some v →
      "date" ∉ object_keys after →
      dict_get (compile_objs DATE listing new_lang_objs).1 "date"
      = Some (default v (dict_get (load_newlang new_lang_objs name) "date")).
Proof.
  split_and!.
  - unfold compile_objs. generalize 0 as count. generalize DATE as v.
    generalize (@nil (string * string)) as d.
    induction listing as [|[name obj] listing IH]; intros d v count; [by eauto|].
    cbn [foldl]. unfold compile_step at 2. cbn [fst snd].
    destruct (dict_update_head d
                (compile_obj obj (load_newlang new_lang_objs name) count).1
                "date" v) as (v' & d' & ->).
    apply IH.
  - intros Hdate. unfold compile_objs. by rewrite compile_steps_frame.
  - intros before name baselang_obj after v -> Hnd Hv Hafter.
    unfold compile_objs. rewrite foldl_app. cbn [foldl].
    rewrite compile_steps_frame by done.
    unfold compile_step. cbn [fst snd]. rewrite compile_obj_exact by done.
    cbn [fst]. rewrite dict_get_update by (by rewrite merge_obj_keys).
    by rewrite dict_get_merge_obj, Hv.
Qed.

Lemma compile_date_field_witness :
  dict_get (compile_objs "1700000000000" c8_listing_before c8_target).1 "date"
  = Some "1700000000000".
Proof.
  apply (proj1 (proj2 (compile_date_field "1700000000000" c8_listing_before
                         c8_target))).
  apply (bool_decide_unpack _). vm_compute. exact I.
Defined.

(** X9. For a language and a chapter that make path components, the run of
    the Compiler ends in [FileNotFoundError] in two cases and no other:
    when the base directory of the chapter does not exist and
    the language compiled is not the base language (whose directory line
    153 creates); and when [DELTARUNE_HOME] is set, the directory
    [chapter<N>_windows/lang] under it is missing, and the run would
    return with that directory in place. *)
Theorem compile_file_not_found (iterdir : directory → list (string * pydict string))
    (install_dir_missing : string → string → bool) (DATE : string) (home : option string)
    (lang chapter : string) (st : fs) :
  compile_names_ok lang chapter = true →
  (compile_lang iterdir install_dir_missing DATE home lang chapter st).1
  = Raise FileNotFoundError
  ↔ (obj_dirs st !! (chapter, BASE_LANG) = None ∧ lang ≠ BASE_LANG)
    ∨ (∃ root rep,
          home = Some root ∧ install_dir_missing root chapter = true
          ∧ (compile_lang iterdir (λ _ _, false) DATE home lang chapter st).1
            = Ok rep).
Proof.
  intros _. unfold compile_lang. rewrite obj_dirs_mkdir.
  assert (Hprogress : ∀ n m, l10n_progress n m ≠ Raise FileNotFoundError).
  { intros n m Hp. unfold l10n_progress in Hp. destruct m; [done|].
    by apply int_of_float_not_file_not_found in Hp. }
  assert (Hbase : ∀ base,
    (if decide ((chapter, lang) = (chapter, BASE_LANG))
     then Some (dir_contents (chapter, lang) st)
     else obj_dirs st !! (chapter, BASE_LANG)) = Some base →
    ¬ (obj_dirs st !! (chapter, BASE_LANG) = None ∧ lang ≠ BASE_LANG)).
  { intros base Hb [Hnone Hlang]. rewrite decide_False in Hb by congruence.
    congruence. }
  destruct (if decide ((chapter, lang) = (chapter, BASE_LANG))
            then Some (dir_contents (chapter, lang) st)
            else obj_dirs st !! (chapter, BASE_LANG)) as [base|] eqn:Hb.
  - specialize (Hbase base eq_refl).
    destruct (l10n_progress _ _) as [p|e] eqn:Hp.
    + unfold write_document, new_lang_dir_missing. cbn [fst snd].
      destruct home as [root|].
      * destruct (install_dir_missing root chapter) eqn:Hdir; cbn [fst mbind result_bind].
        -- split; [|done]. intros _. right. exists root. eexists.
           split_and!; [done..|reflexivity].
        -- split; [done|]. intros [?|(? & ? & [= <-] & ? & _)]; [tauto|congruence].
      * cbn [fst mbind result_bind]. split; [done|].
        intros [?|(? & ? & ? & _)]; [tauto|done].
    + cbn [fst]. split.
      * intros [= ->]. by apply Hprogress in Hp.
      * intros [?|(? & ? & _ & _ & ?)]; [tauto|done].
  - cbn [fst]. split; [|done]. intros _. left.
    destruct (decide ((chapter, lang) = (chapter, BASE_LANG))) as [|Hne]; [done|].
    split; [done|]. by intros ->.
Qed.

Lemma compile_file_not_found_witness :
  (compile_lang map_to_list (λ _ _, true) "0" (Some "game") "vi" "1" c4_spec_fs).1
  = Raise FileNotFoundError
  ↔ (obj_dirs c4_spec_fs !! ("1", BASE_LANG) = None ∧ "vi" ≠ BASE_LANG)
    ∨ (∃ root rep,
          Some "game" = Some root ∧ (λ _ _ : string, true) root "1" = true
          ∧ (compile_lang map_to_list (λ _ _, false) "0" (Some "game") "vi" "1"
               c4_spec_fs).1
            = Ok rep).
Proof. apply (compile_file_not_found map_to_list). reflexivity. Defined.

(** ** The Initializer over directories and chapters *)

Lemma mirror_lookup (baselang_objs new_lang_objs : directory) name :
  mirror baselang_objs new_lang_objs !! name
  = if decide (is_Some (baselang_objs !! name))
    then Some (default [] (new_lang_objs !! name)) else None.
Proof.
  unfold mirror. rewrite map_lookup_imap.
  destruct (baselang_objs !! name) eqn:Hb.
  - by rewrite decide_True by eauto.
  - by rewrite decide_False by (by intros [? ?]).
Qed.

Lemma mirror_idemp (baselang_objs new_lang_objs : directory) :
  mirror baselang_objs (mirror baselang_objs new_lang_objs)
  = mirror baselang_objs new_lang_objs.
Proof.
  apply map_eq. intros name. rewrite !mirror_lookup. by case_decide.
Qed.

Lemma compile_objs_untranslated DATE listing (new_lang_objs : directory) :
  (∀ name obj, new_lang_objs !! name = Some obj → obj = []) →
  compile_objs DATE listing new_lang_objs = (untranslated DATE listing, 0).
Proof.
  intros Hempty. unfold compile_objs, untranslated.
  generalize [("date", DATE)] as doc.
  induction listing as [|[name obj] listing IH]; intros doc; [done|].
  cbn [foldl]. unfold compile_step at 2. cbn [fst snd].
  assert (Hload : load_newlang new_lang_objs name = []).
  { unfold load_newlang. destruct (new_lang_objs !! name) eqn:Hn; [|done].
    by eapply Hempty. }
  rewrite Hload, compile_obj_empty. cbn [fst snd]. apply IH.
Qed.

Section initializer_runs.
Variable iterdir : directory → list (string * pydict string).
Hypothesis iterdir_lists : ∀ dir, iterdir dir ≡ₚ map_to_list dir.

Lemma init_dir_mirror (baselang_objs new_lang_objs : directory) :
  init_dir iterdir baselang_objs new_lang_objs
  = (Ok (), mirror baselang_objs new_lang_objs).
Proof.
  unfold init_dir, init_prune.
  set (ls_base := (iterdir baselang_objs).*1).
  set (ls_new := (iterdir new_lang_objs).*1).
  assert (Hb : ∀ name, name ∈ ls_base ↔ is_Some (baselang_objs !! name))
    by (intros name; by apply elem_of_iterdir_names).
  assert (Hn : ∀ name, name ∈ ls_new ↔ is_Some (new_lang_objs !! name))
    by (intros name; by apply elem_of_iterdir_names).
  destruct (for_each_unlink (filter (λ i, i ∉ ls_base) ls_new)
              (init_create ls_base new_lang_objs)) as (dir' & Hrun & Hlook).
  { by apply NoDup_filter, iterdir_names_NoDup. }
  { intros name [_ Hnew]%list_elem_of_filter.
    apply Hn in Hnew as [obj Hobj]. rewrite init_create_lookup, Hobj. eauto. }
  rewrite Hrun. f_equal. apply map_eq. intros name.
  rewrite Hlook, init_create_lookup, mirror_lookup.
  specialize (Hb name). specialize (Hn name).
  destruct (decide (is_Some (baselang_objs !! name))) as [Hin|Hnotin].
  - rewrite decide_False by (rewrite list_elem_of_filter; tauto).
    destruct (new_lang_objs !! name); [done|].
    by rewrite decide_True by tauto.
  - destruct (new_lang_objs !! name) as [obj|] eqn:Hobj.
    + rewrite decide_True; [done|].
      apply list_elem_of_filter. split; [tauto|]. apply Hn. eauto.
    + rewrite decide_False; [by rewrite decide_False by tauto|].
      rewrite list_elem_of_filter. intros [_ [? ?]%Hn]. done.
Qed.

(** X11. When the target directory holds nothing but empty objects, or
    nothing at all, compiling after the Initializer counts no key as
    translated and gives the document of the base objects alone, whatever
    the order in which they are listed. *)
Theorem init_then_compile (DATE : string)
    (baselang_objs new_lang_objs : directory)
    (listing : list (string * pydict string)) :
  (∀ name obj, new_lang_objs !! name = Some obj → obj = []) →
  compile_objs DATE listing (init_dir iterdir baselang_objs new_lang_objs).2
  = (untranslated DATE listing, 0).
Proof.
  intros Hempty. rewrite init_dir_mirror. cbn [snd].
  apply compile_objs_untranslated. intros name obj.
  rewrite mirror_lookup. case_decide; [|done]. intros [= <-].
  destruct (new_lang_objs !! name) eqn:Hn; [|done]. by eapply Hempty.
Qed.

Lemma init_chapter_run chapter st :
  init_chapter iterdir chapter st
  = match obj_dirs st !! (chapter, BASE_LANG) with
    | None => (Raise FileNotFoundError, mkdir (chapter, L10N_LANG) st)
    | Some baselang_objs =>
        (Ok (), set_obj_dir (chapter, L10N_LANG)
                  (mirror baselang_objs (dir_contents (chapter, L10N_LANG) st))
                  st)
    end.
Proof.
  unfold init_chapter. rewrite obj_dirs_mkdir, decide_False by done.
  destruct (obj_dirs st !! (chapter, BASE_LANG)); [|done].
  rewrite init_dir_mirror, dir_contents_mkdir. cbn [fst snd]. f_equal.
  unfold mkdir, set_obj_dir. simpl. by rewrite insert_insert_eq.
Qed.

Lemma init_chapters_run (chapters : list string) st :
  NoDup chapters →
  (∀ ch, ch ∈ chapters → is_Some (obj_dirs st !! (ch, BASE_LANG))) →
  ∃ st',
    for_each (init_chapter iterdir) chapters st = (Ok (), st')
    ∧ sourcemaps st' = sourcemaps st ∧ documents st' = documents st
    ∧ ∀ d, obj_dirs st' !! d
           = if decide (d.2 = L10N_LANG ∧ d.1 ∈ chapters)
             then (λ baselang_objs, mirror baselang_objs (dir_contents d st))
                    <$> obj_dirs st !! (d.1, BASE_LANG)
             else obj_dirs st !! d.
Proof.
  intros Hnd. revert st. induction Hnd as [|ch chapters Hch Hnd IH]; intros st Hbase.
  - exists st. split_and!; [done..|]. intros d.
    rewrite decide_False; [done|]. intros [_ ?%elem_of_nil]. done.
  - destruct (Hbase ch) as [base Hb]; [left|].
    cbn [for_each]. rewrite init_chapter_run, Hb.
    set (st1 := set_obj_dir (ch, L10N_LANG) _ st).
    assert (Hst1 : ∀ d, obj_dirs st1 !! d
      = if decide ((ch, L10N_LANG) = d)
        then Some (mirror base (dir_contents (ch, L10N_LANG) st))
        else obj_dirs st !! d).
    { intros d. unfold st1, set_obj_dir. simpl. case_decide; subst.
      - by rewrite lookup_insert_eq.
      - by rewrite lookup_insert_ne. }
    destruct (IH st1) as (st' & Hrun & Hsm & Hdoc & Hdirs).
    { intros ch' Hch'. rewrite Hst1, decide_False by done.
      apply Hbase. by right. }
    exists st'. split_and!; [done..|]. intros [c l]. rewrite Hdirs. cbn [fst snd].
    rewrite (Hst1 (c, BASE_LANG)).
    rewrite (decide_False (P := (ch, L10N_LANG) = (c, BASE_LANG))) by done.
    destruct (decide (l = L10N_LANG ∧ c ∈ chapters)) as [[-> Hc]|Hno].
    + rewrite decide_True by (split; [done|by right]).
      assert (ch ≠ c) by (by intros ->).
      unfold dir_contents at 1. rewrite Hst1, decide_False by congruence. done.
    + rewrite Hst1. destruct (decide ((ch, L10N_LANG) = (c, l))) as [[= <- <-]|Hne].
      * rewrite decide_True by (split; [done|left]). by rewrite Hb.
      * rewrite decide_False; [done|]. intros [-> [->|?]%elem_of_cons]; tauto.
Qed.

(** X12. When the base directory of every chapter exists, [init_lang]
    returns normally, leaves every chapter's target directory as the
    mirror of its base directory (old contents under base names, empty
    objects under new ones, nothing else), and touches no other
    directory, no source map and no document. *)
Theorem init_lang_all_chapters (lang : string) (st : fs) :
  (∀ ch, ch ∈ CHAPTERS → is_Some (obj_dirs st !! (ch, BASE_LANG))) →
  ∃ st',
    init_lang iterdir lang st = (Ok (), st')
    ∧ sourcemaps st' = sourcemaps st ∧ documents st' = documents st
    ∧ (∀ ch baselang_objs,
          ch ∈ CHAPTERS → obj_dirs st !! (ch, BASE_LANG) = Some baselang_objs →
          obj_dirs st' !! (ch, L10N_LANG)
          = Some (mirror baselang_objs (dir_contents (ch, L10N_LANG) st)))
    ∧ ∀ d, d.2 ≠ L10N_LANG ∨ d.1 ∉ CHAPTERS →
           obj_dirs st' !! d = obj_dirs st !! d.
Proof.
  intros Hbase. unfold init_lang.
  destruct (init_chapters_run CHAPTERS st) as (st' & Hrun & Hsm & Hdoc & Hdirs);
    [by apply (bool_decide_unpack _)|done|].
  exists st'. split_and!; [done..| |].
  - intros ch base Hch Hb. rewrite Hdirs. cbn [fst snd].
    by rewrite decide_True, Hb.
  - intros d Hd. rewrite Hdirs. rewrite decide_False; [done|tauto].
Qed.

Lemma init_chapters_frame (chapters : list string) st :
  let st' := (for_each (init_chapter iterdir) chapters st).2 in
  sourcemaps st' = sourcemaps st ∧ documents st' = documents st
  ∧ ∀ d, d.2 ≠ L10N_LANG ∨ d.1 ∉ chapters →
         obj_dirs st' !! d = obj_dirs st !! d.
Proof.
  revert st. induction chapters as [|ch chapters IH]; intros st; [done|].
  cbn [for_each]. rewrite init_chapter_run.
  destruct (obj_dirs st !! (ch, BASE_LANG)) as [base|] eqn:Hb.
  - set (st1 := set_obj_dir (ch, L10N_LANG) _ st).
    destruct (IH st1) as (Hsm & Hdoc & Hdirs).
    destruct (for_each (init_chapter iterdir) chapters st1) as [r st2].
    cbn [fst snd] in *. split_and!; [done..|]. intros [c l] Hd.
    rewrite Hdirs by (rewrite not_elem_of_cons in Hd; tauto).
    unfold st1, set_obj_dir. simpl. rewrite lookup_insert_ne; [done|].
    intros [= <- <-]. cbn [fst snd] in Hd. rewrite not_elem_of_cons in Hd. tauto.
  - cbn [fst snd]. split_and!; [done..|]. intros [c l] Hd.
    rewrite obj_dirs_mkdir, decide_False; [done|].
    intros [= <- <-]. cbn [fst snd] in Hd. rewrite not_elem_of_cons in Hd. tauto.
Qed.

Lemma init_chapters_idempotent (chapters : list string) st :
  NoDup chapters →
  for_each (init_chapter iterdir) chapters
    (for_each (init_chapter iterdir) chapters st).2
  = for_each (init_chapter iterdir) chapters st.
Proof.
  intros Hnd. revert st. induction Hnd as [|ch chapters Hch Hnd IH]; intros st; [done|].
  cbn [for_each]. rewrite (init_chapter_run ch st).
  destruct (obj_dirs st !! (ch, BASE_LANG)) as [base|] eqn:Hb.
  - set (t1 := mirror base (dir_contents (ch, L10N_LANG) st)).
    set (st1 := set_obj_dir (ch, L10N_LANG) t1 st).
    specialize (IH st1).
    destruct (init_chapters_frame chapters st1) as (_ & _ & Hframe).
    destruct (for_each (init_chapter iterdir) chapters st1) as [r st2] eqn:Hrun.
    cbn [fst snd] in *.
    assert (Hbase2 : obj_dirs st2 !! (ch, BASE_LANG) = Some base).
    { rewrite Hframe by (by left). unfold st1, set_obj_dir. simpl.
      by rewrite lookup_insert_ne. }
    assert (Htarget2 : obj_dirs st2 !! (ch, L10N_LANG) = Some t1).
    { rewrite Hframe by (by right). unfold st1, set_obj_dir. simpl.
      by rewrite lookup_insert_eq. }
    assert (Hstep : init_chapter iterdir ch st2 = (Ok (), st2)).
    { rewrite init_chapter_run, Hbase2. f_equal.
      unfold dir_contents. rewrite Htarget2. simpl. unfold t1.
      rewrite mirror_idemp. fold t1. unfold set_obj_dir.
      rewrite insert_id by done. by destruct st2. }
    assert (Hagain : for_each (init_chapter iterdir) (ch :: chapters) st2
                     = (r, st2)).
    { cbn [for_each]. rewrite Hstep. cbn [fst snd]. rewrite IH.
      by destruct r as [[]|e]. }
    destruct r as [[]|e]; exact Hagain.
  - cbn [fst snd for_each]. rewrite init_chapter_run, obj_dirs_mkdir.
    rewrite decide_False by done. rewrite Hb. f_equal.
    unfold mkdir at 1. rewrite dir_contents_mkdir.
    unfold mkdir, set_obj_dir. simpl. by rewrite insert_insert_eq.
Qed.

(** X10. Running [init_lang] a second time changes nothing and ends as the
    first run did: on the state the first run has left, whether it
    returned or raised, the second run leaves every directory and file as
    it is and returns, or raises, the same. *)
Theorem init_lang_idempotent (lang : string) (st : fs) :
  init_lang iterdir lang (init_lang iterdir lang st).2
  = init_lang iterdir lang st.
Proof.
  unfold init_lang. apply init_chapters_idempotent.
  by apply (bool_decide_unpack _).
Qed.

Lemma init_chapters_missing (chapters : list string) st :
  Exists (λ ch, obj_dirs st !! (ch, BASE_LANG) = None) chapters →
  (for_each (init_chapter iterdir) chapters st).1 = Raise FileNotFoundError.
Proof.
  revert st. induction chapters as [|ch chapters IH]; intros st Hex.
  - by apply Exists_nil in Hex.
  - cbn [for_each]. rewrite init_chapter_run.
    destruct (obj_dirs st !! (ch, BASE_LANG)) as [base|] eqn:Hb; [|done].
    apply Exists_cons in Hex as [Hex|Hex]; [congruence|].
    apply IH. eapply Exists_impl; [apply Hex|]. intros ch' Hnone. simpl in *.
    unfold set_obj_dir. simpl. by rewrite lookup_insert_ne.
Qed.

(** X13. [init_lang] raises [FileNotFoundError] when the base directory of
    some chapter is missing, and only then. *)
Theorem init_lang_file_not_found (lang : string) (st : fs) :
  ((init_lang iterdir lang st).1 = Raise FileNotFoundError
   ↔ ∃ ch, ch ∈ CHAPTERS ∧ obj_dirs st !! (ch, BASE_LANG) = None)
  ∧ ((init_lang iterdir lang st).1 = Ok ()
     ↔ ∀ ch, ch ∈ CHAPTERS → is_Some (obj_dirs st !! (ch, BASE_LANG))).
Proof.
  assert (Hcases : (∀ ch, ch ∈ CHAPTERS → is_Some (obj_dirs st !! (ch, BASE_LANG)))
                   ∨ ∃ ch, ch ∈ CHAPTERS ∧ obj_dirs st !! (ch, BASE_LANG) = None).
  { destruct (decide (Exists (λ ch, obj_dirs st !! (ch, BASE_LANG) = None) CHAPTERS))
      as [Hex|Hno].
    - right. by apply Exists_exists in Hex.
    - left. intros ch Hch. apply not_eq_None_Some. intros Hnone.
      apply Hno, Exists_exists. eauto. }
  assert (Hok : (∀ ch, ch ∈ CHAPTERS → is_Some (obj_dirs st !! (ch, BASE_LANG))) →
                (init_lang iterdir lang st).1 = Ok ()).
  { intros Hall.
    destruct (init_chapters_run CHAPTERS st) as (st' & Hrun & _);
      [by apply (bool_decide_unpack _)|done|].
    unfold init_lang. by rewrite Hrun. }
  assert (Hbad : (∃ ch, ch ∈ CHAPTERS ∧ obj_dirs st !! (ch, BASE_LANG) = None) →
                 (init_lang iterdir lang st).1 = Raise FileNotFoundError).
  { intros Hex. apply init_chapters_missing. by apply Exists_exists. }
  split; split; try done.
  - intros Hrun. destruct Hcases as [Hall|Hex]; [|done].
    rewrite (Hok Hall) in Hrun. done.
  - intros Hrun ch Hch. destruct Hcases as [Hall|Hex]; [by apply Hall|].
    rewrite (Hbad Hex) in Hrun. done.
Qed.
End initializer_runs.

Lemma init_lang_idempotent_witness :
  init_lang map_to_list "vi" (init_lang map_to_list "vi" init_fs_missing).2
  = init_lang map_to_list "vi" init_fs_missing.
Proof. apply (init_lang_idempotent map_to_list). intros dir. reflexivity. Defined.

Lemma init_then_compile_witness :
  compile_objs "0" (map_to_list c6_base)
    (init_dir map_to_list c6_base {[ "y.json" := [] ]}).2
  = (untranslated "0" (map_to_list c6_base), 0).
Proof.
  apply (init_then_compile map_to_list).
  - intros dir. reflexivity.
  - intros name obj [_ <-]%lookup_singleton_Some. reflexivity.
Defined.

Lemma init_lang_all_chapters_witness :
  ∃ st',
    init_lang map_to_list "vi" init_fs = (Ok (), st')
    ∧ sourcemaps st' = sourcemaps init_fs ∧ documents st' = documents init_fs
    ∧ (∀ ch baselang_objs,
          ch ∈ CHAPTERS →
          obj_dirs init_fs !! (ch, BASE_LANG) = Some baselang_objs →
          obj_dirs st' !! (ch, L10N_LANG)
          = Some (mirror baselang_objs (dir_contents (ch, L10N_LANG) init_fs)))
    ∧ ∀ d, d.2 ≠ L10N_LANG ∨ d.1 ∉ CHAPTERS →
           obj_dirs st' !! d = obj_dirs init_fs !! d.
Proof.
  apply (init_lang_all_chapters map_to_list).
  - intros dir. reflexivity.
  - intros ch Hch. unfold CHAPTERS in Hch.
    repeat (apply elem_of_cons in Hch as [->|Hch]; [by eexists|]).
    by apply elem_of_nil in Hch.
Defined.

Lemma init_lang_file_not_found_witness :
  ((init_lang map_to_list "vi" init_fs_missing).1 = Raise FileNotFoundError
   ↔ ∃ ch, ch ∈ CHAPTERS ∧ obj_dirs init_fs_missing !! (ch, BASE_LANG) = None)
  ∧ ((init_lang map_to_list "vi" init_fs_missing).1 = Ok ()
     ↔ ∀ ch, ch ∈ CHAPTERS →
             is_Some (obj_dirs init_fs_missing !! (ch, BASE_LANG))).
Proof. apply (init_lang_file_not_found map_to_list). intros dir. reflexivity. Defined.

(** ** The runs of the Splitter on the file system *)

Lemma for_each_preserves {A S : Type} (R : S → S → Prop)
    (body : A → S → result unit * S) (l : list A) (st : S) :
  (∀ s, R s s) → (∀ s1 s2 s3, R s1 s2 → R s2 s3 → R s1 s3) →
  (∀ a s, a ∈ l → R s (body a s).2) →
  R st (for_each body l st).2.
Proof.
  intros Hrefl Htrans. revert st. induction l as [|a l IH]; intros st Hbody.
  - apply Hrefl.
  - cbn [for_each]. pose proof (Hbody a st) as Ha.
    destruct (body a st) as [[u|e] st1]; cbn [snd] in *.
    + eapply Htrans; [apply Ha; left|]. apply IH.
      intros a' s Ha'. apply Hbody. by right.
    + apply Ha. left.
Qed.

Lemma for_each_returns {A S : Type} (ok : A → Prop)
    (body : A → S → result unit * S) (l : list A) (st : S) :
  (∀ a s, a ∈ l → (body a s).1 = Ok () ↔ ok a) →
  (for_each body l st).1 = Ok () ↔ ∀ a, a ∈ l → ok a.
Proof.
  revert st. induction l as [|a l IH]; intros st Hbody.
  - split; [|done]. by intros _ a ?%elem_of_nil.
  - cbn [for_each]. pose proof (Hbody a st) as Ha.
    destruct (body a st) as [[[]|e] st1]; cbn [fst] in *.
    + rewrite IH by (intros a' s Ha'; apply Hbody; by right). split.
      * intros Hl a' [->|Ha']%elem_of_cons; [apply Ha; [left|done]|by apply Hl].
      * intros Hl a' Ha'. apply Hl. by right.
    + split; [done|]. intros Hl.
      assert (Hok : ok a) by (apply Hl; left). apply Ha in Hok; [done|left].
Qed.

Lemma for_each_raises {A S : Type} (P : exn → Prop)
    (body : A → S → result unit * S) (l : list A) (st : S) e :
  (∀ a s e, a ∈ l → (body a s).1 = Raise e → P e) →
  (for_each body l st).1 = Raise e → P e.
Proof.
  revert st. induction l as [|a l IH]; intros st Hbody; [done|].
  cbn [for_each]. pose proof (Hbody a st) as Ha.
  destruct (body a st) as [[u|e'] st1]; cbn [fst] in *.
  - apply IH. intros a' s e' Ha'. apply Hbody. by right.
  - intros [= ->]. apply Ha; [left|done].
Qed.

Lemma new_sourcemap_cases (raw_sourcemap_ch : pydict string) :
  ((∃ ch_sourcemap, new_sourcemap raw_sourcemap_ch = Ok ch_sourcemap)
   ∧ Forall (λ kv, well_formed_location kv.2) raw_sourcemap_ch)
  ∨ (new_sourcemap raw_sourcemap_ch = Raise ValueError
     ∧ ¬ Forall (λ kv, well_formed_location kv.2) raw_sourcemap_ch).
Proof.
  assert (Hcounted : Forall (λ kv : string * string,
            is_Some (dict_get (count_dups raw_sourcemap_ch.*2) kv.2))
            raw_sourcemap_ch).
  { apply Forall_forall. intros [k v] Hkv. simpl.
    rewrite count_dups_get, decide_True; [by eexists|].
    apply list_elem_of_fmap. by exists (k, v). }
  assert (Hnew : new_sourcemap raw_sourcemap_ch
    = match position_tokens (count_dups raw_sourcemap_ch.*2) 0 raw_sourcemap_ch with
      | Ok r => Ok (sort_sourcemap (record_tokens [] r.2))
      | Raise e => Raise e
      end).
  { unfold new_sourcemap, sourcemap_loop. rewrite sourcemap_loop_tokens.
    by destruct (position_tokens _ 0 raw_sourcemap_ch). }
  rewrite Hnew.
  destruct (position_tokens _ 0 raw_sourcemap_ch) as [r|e] eqn:Htoks.
  - left. split; [by eexists|]. by eapply position_tokens_well_formed.
  - right. apply position_tokens_raises in Htoks as [-> Hex]; [|done].
    split; [done|]. intros Hall. apply Exists_exists in Hex as (kv & Hin & Hbad).
    apply Hbad. by apply (proj1 (Forall_forall _ _) Hall).
Qed.

Lemma split_lang_fs_result raw_lang ch_sourcemap chapter lang st :
  (split_lang_fs raw_lang ch_sourcemap chapter lang st).1
  = match raw_strings raw_lang chapter lang with
    | Some _ => Ok ()
    | None => Raise KeyError
    end.
Proof.
  unfold split_lang_fs, split_lang. cbn [fst].
  by destruct (raw_strings raw_lang chapter lang).
Qed.

Lemma split_chapter_returns raw_lang raw_sourcemap chapter st :
  (split_chapter raw_lang raw_sourcemap chapter st).1 = Ok ()
  ↔ chapter_ok raw_lang raw_sourcemap chapter.
Proof.
  unfold split_chapter, chapter_ok.
  destruct (dict_get raw_sourcemap chapter) as [raw_sourcemap_ch|].
  2: { split; [done|]. by intros (? & ? & _). }
  destruct (new_sourcemap_cases raw_sourcemap_ch) as [[[sm ->] Hwf]|[-> Hbad]].
  - rewrite (for_each_returns
               (λ lang, is_Some (raw_strings raw_lang chapter lang))).
    + split; [by eauto|]. by intros (? & [= <-] & _ & ?).
    + intros lang s _. rewrite split_lang_fs_result.
      destruct (raw_strings raw_lang chapter lang).
      * split; [by eexists|done].
      * split; [done|by intros [? ?]].
  - split; [done|]. by intros (? & [= <-] & ? & _).
Qed.

Lemma split_chapter_raises raw_lang raw_sourcemap chapter st e :
  (split_chapter raw_lang raw_sourcemap chapter st).1 = Raise e →
  e = KeyError ∨ e = ValueError.
Proof.
  unfold split_chapter.
  destruct (dict_get raw_sourcemap chapter) as [raw_sourcemap_ch|].
  2: { intros [= <-]. by left. }
  destruct (new_sourcemap_cases raw_sourcemap_ch) as [[[sm ->] Hwf]|[-> Hbad]].
  - apply (for_each_raises (λ e, e = KeyError ∨ e = ValueError)).
    intros lang s e' _. rewrite split_lang_fs_result.
    destruct (raw_strings raw_lang chapter lang); [done|]. intros [= <-]. by left.
  - intros [= <-]. by right.
Qed.

(** X14. When the file names of [sourcemap.json] are path components,
    [split_dump] returns normally exactly when, for each of the four
    chapters, [sourcemap.json] has the chapter with one colon in each of its
    locations and [lang.json] has the chapter's strings in each language of
    [LANGS]; otherwise it raises [KeyError] or [ValueError], nothing else. *)
Theorem split_dump_returns (raw_lang : pydict (pydict (pydict string)))
    (raw_sourcemap : pydict (pydict string)) (st : fs) :
  flat_sourcemap raw_sourcemap = true →
  ((split_dump raw_lang raw_sourcemap st).1 = Ok ()
   ↔ ∀ chapter, chapter ∈ CHAPTERS → chapter_ok raw_lang raw_sourcemap chapter)
  ∧ ∀ e, (split_dump raw_lang raw_sourcemap st).1 = Raise e →
         e = KeyError ∨ e = ValueError.
Proof.
  intros _. unfold split_dump. split.
  - apply for_each_returns. intros chapter s _. apply split_chapter_returns.
  - intros e. apply (for_each_raises (λ e, e = KeyError ∨ e = ValueError)).
    intros chapter s e' _.
    apply split_chapter_raises.
Qed.

Lemma split_frame_refl st : split_frame st st.
Proof. done. Qed.

Lemma split_frame_trans st1 st2 st3 :
  split_frame st1 st2 → split_frame st2 st3 → split_frame st1 st3.
Proof.
  intros (Hd1 & Hs1 & Ho1) (Hd2 & Hs2 & Ho2). split_and!.
  - by rewrite Hd2.
  - intros chapter Hch. by rewrite Hs2, Hs1.
  - intros d Hd. by rewrite Ho2, Ho1.
Qed.

Lemma split_chapter_frame raw_lang raw_sourcemap chapter st :
  chapter ∈ CHAPTERS →
  split_frame st (split_chapter raw_lang raw_sourcemap chapter st).2.
Proof.
  intros Hch. unfold split_chapter.
  destruct (dict_get raw_sourcemap chapter) as [raw_sourcemap_ch|];
    [|apply split_frame_refl].
  destruct (new_sourcemap raw_sourcemap_ch) as [ch_sourcemap|e];
    [|apply split_frame_refl].
  apply (split_frame_trans _ (write_sourcemap chapter ch_sourcemap st)).
  - split_and!; [done| |done]. intros chapter' Hch'. simpl.
    rewrite lookup_insert_ne; [done|]. by intros ->.
  - apply (for_each_preserves split_frame);
      [apply split_frame_refl|apply split_frame_trans|].
    intros lang s Hlang. split_and!; [done..|]. intros [c l] Hd.
    unfold split_lang_fs, set_obj_dir. simpl. rewrite lookup_insert_ne; [done|].
    intros [= <- <-]. simpl in Hd. tauto.
Qed.

(** X15. When the file names of [sourcemap.json] are path components, a run
    of [split_dump], whether it returns or raises, leaves alone every
    compiled document, and every object directory of a language outside
    [LANGS], the translation among them, or of another chapter. *)
Theorem split_dump_frame (raw_lang : pydict (pydict (pydict string)))
    (raw_sourcemap : pydict (pydict string)) (st : fs) :
  flat_sourcemap raw_sourcemap = true →
  documents (split_dump raw_lang raw_sourcemap st).2 = documents st
  ∧ (∀ chapter, chapter ∉ CHAPTERS →
        sourcemaps (split_dump raw_lang raw_sourcemap st).2 !! chapter
        = sourcemaps st !! chapter)
  ∧ ∀ chapter lang, chapter ∉ CHAPTERS ∨ lang ∉ LANGS →
        obj_dirs (split_dump raw_lang raw_sourcemap st).2 !! (chapter, lang)
        = obj_dirs st !! (chapter, lang).
Proof.
  intros _.
  assert (H : split_frame st (split_dump raw_lang raw_sourcemap st).2).
  { apply (for_each_preserves split_frame);
      [apply split_frame_refl|apply split_frame_trans|].
    intros chapter s Hch. by apply split_chapter_frame. }
  destruct H as (Hdoc & Hsm & Hdirs). split_and!; [done..|].
  intros chapter lang Hd. by apply (Hdirs (chapter, lang)).
Qed.

Lemma split_dump_returns_witness :
  ((split_dump split_raw_lang split_raw_sourcemap split_fs).1 = Ok ()
   ↔ ∀ chapter, chapter ∈ CHAPTERS →
                chapter_ok split_raw_lang split_raw_sourcemap chapter)
  ∧ ∀ e, (split_dump split_raw_lang split_raw_sourcemap split_fs).1 = Raise e →
         e = KeyError ∨ e = ValueError.
Proof. apply split_dump_returns. reflexivity. Defined.

Lemma split_dump_frame_witness :
  documents (split_dump split_raw_lang split_raw_sourcemap split_fs).2
  = documents split_fs
  ∧ (∀ chapter, chapter ∉ CHAPTERS →
        sourcemaps (split_dump split_raw_lang split_raw_sourcemap split_fs).2
          !! chapter
        = sourcemaps split_fs !! chapter)
  ∧ ∀ chapter lang, chapter ∉ CHAPTERS ∨ lang ∉ LANGS →
        obj_dirs (split_dump split_raw_lang split_raw_sourcemap split_fs).2
          !! (chapter, lang)
        = obj_dirs split_fs !! (chapter, lang).
Proof. apply split_dump_frame. reflexivity. Defined.

Lemma emit_all_lookup_notin (objects : list (string * pydict string))
    (dir : directory) name :
  name ∉ objects.*1 → emit_all objects dir !! name = dir !! name.
Proof.
  induction objects as [|[n o] objects IH] using rev_ind; [done|].
  rewrite fmap_app, not_elem_of_app. simpl. rewrite list_elem_of_singleton.
  intros [Hin Hne]. rewrite emit_all_snoc, emit_lookup. cbn [fst snd].
  rewrite decide_False by done. by apply IH.
Qed.

Lemma emit_all_lookup_in (objects : list (string * pydict string))
    (dir : directory) name obj :
  NoDup objects.*1 → (name, obj) ∈ objects →
  emit_all objects dir !! name = emitted obj.
Proof.
  induction objects as [|[n o] objects IH] using rev_ind; [by intros _ ?%elem_of_nil|].
  rewrite fmap_app. intros (Hnd & Hdisj & _)%NoDup_app.
  rewrite elem_of_app, list_elem_of_singleton.
  rewrite emit_all_snoc, emit_lookup. cbn [fst snd]. intros [Hin|[= <- <-]].
  - rewrite decide_False; [by apply IH|]. intros ->.
    apply (Hdisj name); [|left]. apply list_elem_of_fmap. by exists (name, obj).
  - by rewrite decide_True.
Qed.

Lemma split_objects_names ch_sourcemap strings :
  (split_objects ch_sourcemap strings).2.*1
  = obj_file_name <$> dict_keys ch_sourcemap.
Proof.
  unfold split_objects.
  assert (Hgen : ∀ st,
    (foldl (split_objects_step strings) st ch_sourcemap).2.*1
    = st.2.*1 ++ (obj_file_name <$> dict_keys ch_sourcemap)).
  { induction ch_sourcemap as [|[f m] sm IH]; intros st.
    - simpl. by rewrite app_nil_r.
    - cbn [foldl]. rewrite IH. unfold split_objects_step. cbn [fst snd].
      rewrite fmap_app. simpl. by rewrite <- app_assoc. }
  by rewrite Hgen.
Qed.

Lemma split_lang_objects_names ch_sourcemap strings name :
  name ∈ (split_lang_objects ch_sourcemap strings).*1 →
  name ∈ object_names ch_sourcemap.
Proof.
  unfold split_lang_objects, object_names. destruct strings as [s|].
  - by rewrite fmap_app, split_objects_names.
  - rewrite split_objects_names, elem_of_app. by left.
Qed.

Lemma file_at_split_lang_fs raw_lang ch_sourcemap chapter lang st d name :
  d ≠ (chapter, lang) ∨ name ∉ object_names ch_sourcemap →
  file_at d name (split_lang_fs raw_lang ch_sourcemap chapter lang st).2
  = file_at d name st.
Proof.
  intros Hd. unfold file_at, split_lang_fs, set_obj_dir. simpl.
  destruct (decide (d = (chapter, lang))) as [->|Hne].
  - rewrite lookup_insert_eq. simpl. rewrite split_lang_writes.
    rewrite emit_all_lookup_notin.
    + unfold dir_contents. by destruct (obj_dirs st !! (chapter, lang)).
    + intros Hin%split_lang_objects_names. tauto.
  - by rewrite lookup_insert_ne.
Qed.

(** X16. [split_dump] clears no directory: when the file names of
    [sourcemap.json] are path components, a file of an object directory of a
    chapter that is neither [orphan.json] nor named after a file of the
    Chapter Source Map is left as it is, whether the run returns or raises;
    so the objects of code files that have left the dump stay. *)
Theorem split_dump_keeps_other_files (raw_lang : pydict (pydict (pydict string)))
    (raw_sourcemap : pydict (pydict string)) (st : fs)
    (chapter lang name : string) :
  flat_sourcemap raw_sourcemap = true →
  name ∉ written_names raw_sourcemap chapter →
  file_at (chapter, lang) name (split_dump raw_lang raw_sourcemap st).2
  = file_at (chapter, lang) name st.
Proof.
  intros _ Hname. unfold split_dump.
  apply (for_each_preserves
           (λ s s', file_at (chapter, lang) name s' = file_at (chapter, lang) name s));
    [done|by intros s1 s2 s3 -> ->|].
  intros chapter' s _. unfold split_chapter.
  destruct (dict_get raw_sourcemap chapter') as [raw_sourcemap_ch|] eqn:Hraw; [|done].
  destruct (new_sourcemap raw_sourcemap_ch) as [ch_sourcemap|e] eqn:Hsm; [|done].
  transitivity (file_at (chapter, lang) name (write_sourcemap chapter' ch_sourcemap s));
    [|done].
  apply (for_each_preserves
           (λ s s', file_at (chapter, lang) name s' = file_at (chapter, lang) name s));
    [done|by intros s1 s2 s3 -> ->|].
  intros lang' s' _. apply file_at_split_lang_fs.
  destruct (decide (chapter' = chapter)) as [->|Hne].
  - right. unfold written_names in Hname. by rewrite Hraw, Hsm in Hname.
  - left. congruence.
Qed.

Lemma split_dump_keeps_other_files_witness :
  file_at ("1", "en") "old.json"
    (split_dump split_raw_lang split_raw_sourcemap split_fs).2
  = file_at ("1", "en") "old.json" split_fs.
Proof.
  apply split_dump_keeps_other_files.
  - reflexivity.
  - apply (bool_decide_unpack _). vm_compute. exact I.
Defined.

Lemma strings_at_Some_keys (strings : pydict string) positions :
  (strings_at (Some strings) positions).*1
  = filter (λ k, k ∈ dict_keys strings) positions.*2.
Proof.
  induction positions as [|[tok k] positions IH]; [done|].
  rewrite strings_at_cons. cbn [fmap list_fmap snd mbind option_bind].
  rewrite filter_cons.
  destruct (dict_get strings k) as [txt|] eqn:Hk.
  - rewrite decide_True by (apply dict_get_is_Some; eauto).
    rewrite fmap_cons. cbn [fst]. by rewrite IH.
  - rewrite decide_False by (by apply dict_get_None). done.
Qed.

Lemma lang_strings_keys (strings : pydict string) (sm : pydict (pydict string)) :
  (mjoin ((λ fm, strings_at (Some strings) fm.2) <$> sm)).*1
  = filter (λ k, k ∈ dict_keys strings) (all_values sm).
Proof.
  induction sm as [|[f m] sm IH]; [done|].
  rewrite all_values_cons, filter_app. cbn [fmap list_fmap mjoin list_join].
  rewrite fmap_app. f_equal; [apply strings_at_Some_keys|apply IH].
Qed.

Lemma split_lang_exact raw_sourcemap_ch ch_sourcemap (strings : pydict string) dir :
  NoDup (dict_keys raw_sourcemap_ch) → NoDup (dict_keys strings) →
  new_sourcemap raw_sourcemap_ch = Ok ch_sourcemap →
  let lang_strings :=
    mjoin ((λ fm, strings_at (Some strings) fm.2) <$> ch_sourcemap) in
  split_lang ch_sourcemap (Some strings) dir
  = (Ok (length lang_strings + length (unmapped strings lang_strings),
         length lang_strings, length (unmapped strings lang_strings)),
     emit_all
       (((λ fm, (obj_file_name fm.1, strings_at (Some strings) fm.2))
           <$> ch_sourcemap)
        ++ [("orphan.json", unmapped strings lang_strings)]) dir).
Proof.
  intros Hraw Hstr Hsm. cbn zeta.
  destruct (new_sourcemap_NoDup _ _ Hraw Hsm) as [Hvals _].
  assert (Hobjs : split_objects ch_sourcemap (Some strings)
    = (mjoin ((λ fm, strings_at (Some strings) fm.2) <$> ch_sourcemap),
       (λ fm, (obj_file_name fm.1, strings_at (Some strings) fm.2))
         <$> ch_sourcemap)).
  { unfold split_objects. rewrite split_objects_fold_exact; [done..|].
    intros k _. apply not_elem_of_nil. }
  unfold split_lang. rewrite split_files_objects, Hobjs. cbn [fst snd].
  unfold orphans. rewrite orphans_fold_exact by done. cbn [app].
  by rewrite emit_all_snoc.
Qed.

(** X17. What an object directory holds after the run for one language, when
    no key is repeated in the raw maps, the object file names of the
    Chapter Source Map are path components, and no two of its files share
    an object file name or are named [orphan]: under each
    file's name its strings, or no file when it has none; under
    [orphan.json] the unmapped strings, or no file when there is none; and
    under any other name what was there. *)
Theorem split_lang_directory (raw_sourcemap_ch strings : pydict string)
    (ch_sourcemap : pydict (pydict string)) (dir : directory) :
  NoDup (dict_keys raw_sourcemap_ch) → NoDup (dict_keys strings) →
  new_sourcemap raw_sourcemap_ch = Ok ch_sourcemap →
  flat_names ch_sourcemap = true →
  NoDup (object_names ch_sourcemap) →
  (∀ filename positions,
      (filename, positions) ∈ ch_sourcemap →
      (split_lang ch_sourcemap (Some strings) dir).2 !! obj_file_name filename
      = emitted (strings_at (Some strings) positions))
  ∧ (split_lang ch_sourcemap (Some strings) dir).2 !! "orphan.json"
    = emitted (unmapped strings
                 (mjoin ((λ fm, strings_at (Some strings) fm.2) <$> ch_sourcemap)))
  ∧ ∀ name, name ∉ object_names ch_sourcemap →
            (split_lang ch_sourcemap (Some strings) dir).2 !! name = dir !! name.
Proof.
  intros Hraw Hstr Hsm _ Hnames.
  rewrite (split_lang_exact _ _ _ dir Hraw Hstr Hsm). cbn [snd].
  set (objects := _ ++ [("orphan.json", _)]).
  assert (Hobjnames : objects.*1 = object_names ch_sourcemap).
  { unfold objects, object_names, dict_keys. rewrite fmap_app. f_equal.
    rewrite <- !list_fmap_compose. by apply list_fmap_ext. }
  split_and!.
  - intros filename positions Hin. apply emit_all_lookup_in; [by rewrite Hobjnames|].
    apply elem_of_app. left. apply list_elem_of_fmap. by exists (filename, positions).
  - apply emit_all_lookup_in; [by rewrite Hobjnames|].
    apply elem_of_app. right. by apply list_elem_of_singleton.
  - intros name Hname. apply emit_all_lookup_notin. by rewrite Hobjnames.
Qed.

Lemma split_lang_directory_witness :
  (∀ filename positions,
      (filename, positions) ∈ c9_chapter_sourcemap →
      (split_lang c9_chapter_sourcemap (Some c1_strings) ∅).2
        !! obj_file_name filename
      = emitted (strings_at (Some c1_strings) positions))
  ∧ (split_lang c9_chapter_sourcemap (Some c1_strings) ∅).2 !! "orphan.json"
    = emitted (unmapped c1_strings
                 (mjoin ((λ fm, strings_at (Some c1_strings) fm.2)
                           <$> c9_chapter_sourcemap)))
  ∧ ∀ name, name ∉ object_names c9_chapter_sourcemap →
            (split_lang c9_chapter_sourcemap (Some c1_strings) ∅).2 !! name
            = (∅ : directory) !! name.
Proof.
  apply (split_lang_directory c9_sourcemap).
  - apply (bool_decide_unpack _). vm_compute. exact I.
  - apply (bool_decide_unpack _). vm_compute. exact I.
  - reflexivity.
  - reflexivity.
  - apply (bool_decide_unpack _). vm_compute. exact I.
Defined.

Lemma length_filter_ext {A B : Type} (f : A → B) (P : A → Prop) (Q : B → Prop)
    `{!∀ x, Decision (P x), !∀ y, Decision (Q y)} (l : list A) :
  (∀ x, x ∈ l → P x ↔ Q (f x)) →
  length (filter P l) = length (filter Q (f <$> l)).
Proof.
  induction l as [|x l IH]; intros Hext; [done|].
  rewrite fmap_cons, !filter_cons.
  assert (Hx : P x ↔ Q (f x)) by (apply Hext; left).
  assert (IH' : length (filter P l) = length (filter Q (f <$> l)))
    by (apply IH; intros y Hy; apply Hext; by right).
  destruct (decide (P x)), (decide (Q (f x))); simpl; try tauto; by rewrite ?IH'.
Qed.

(** X18. The statistics of a run for one language, when no key is repeated
    in the raw maps: [unique] is the number of strings whose key the Chapter
    Source Map records, [orphan] the number of the other strings, ["date"]
    aside, and [total] is their sum. *)
Theorem split_stats (raw_sourcemap_ch strings : pydict string)
    (ch_sourcemap : pydict (pydict string)) (dir : directory) :
  NoDup (dict_keys raw_sourcemap_ch) → NoDup (dict_keys strings) →
  new_sourcemap raw_sourcemap_ch = Ok ch_sourcemap →
  let stats_u :=
    length (filter (λ k, k ∈ all_values ch_sourcemap) (dict_keys strings)) in
  let stats_o :=
    length (filter (λ k, (k ∉ all_values ch_sourcemap) ∧ k ≠ "date")
              (dict_keys strings)) in
  (split_lang ch_sourcemap (Some strings) dir).1
  = Ok (stats_u + stats_o, stats_u, stats_o).
Proof.
  intros Hraw Hstr Hsm. cbn zeta.
  rewrite (split_lang_exact _ _ _ dir Hraw Hstr Hsm). cbn [fst].
  destruct (new_sourcemap_NoDup _ _ Hraw Hsm) as [Hvals _].
  set (lang_strings := mjoin _).
  assert (Hkeys : lang_strings.*1
                  = filter (λ k, k ∈ dict_keys strings) (all_values ch_sourcemap))
    by apply lang_strings_keys.
  assert (Hu : length lang_strings
    = length (filter (λ k, k ∈ all_values ch_sourcemap) (dict_keys strings))).
  { rewrite <- (length_fmap fst lang_strings), Hkeys.
    apply Permutation_length, NoDup_Permutation.
    - by apply NoDup_filter.
    - by apply NoDup_filter.
    - intros k. rewrite !list_elem_of_filter. tauto. }
  assert (Ho : length (unmapped strings lang_strings)
    = length (filter (λ k, (k ∉ all_values ch_sourcemap) ∧ k ≠ "date")
                (dict_keys strings))).
  { unfold unmapped, dict_keys.
    apply (length_filter_ext fst
             (λ kv : string * string, (kv.1 ∉ lang_strings.*1) ∧ kv.1 ≠ "date")
             (λ k, (k ∉ all_values ch_sourcemap) ∧ k ≠ "date")).
    intros [k v] Hin. cbn [fst]. rewrite Hkeys, list_elem_of_filter.
    assert (k ∈ dict_keys strings)
      by (apply list_elem_of_fmap; by exists (k, v)).
    tauto. }
  by rewrite Hu, Ho.
Qed.

Lemma split_stats_witness :
  (split_lang c9_chapter_sourcemap (Some c1_strings) ∅).1 = Ok (4, 2, 2).
Proof.
  apply (split_stats c9_sourcemap c1_strings c9_chapter_sourcemap ∅).
  - apply (bool_decide_unpack _). vm_compute. exact I.
  - apply (bool_decide_unpack _). vm_compute. exact I.
  - reflexivity.
Defined.

(** ** The Updater *)

Lemma fetch_dump_frame urlopen files (wd : gmap string string) filename :
  filename ∉ files →
  (fetch_dump urlopen files wd).2 !! filename = wd !! filename.
Proof.
  revert wd. induction files as [|f files IH]; intros wd; [done|].
  rewrite not_elem_of_cons. intros [Hne Hnotin]. cbn [fetch_dump].
  destruct (urlopen (dump_url f)) as [text|]; cbn [snd].
  - rewrite IH by done. by rewrite insert_insert_eq, lookup_insert_ne.
  - by rewrite lookup_insert_ne.
Qed.

(** X19. When every request is answered, [fetch_dump] returns normally, each
    of the files holds the text fetched for it, and no other file of the
    working directory is touched. *)
Theorem fetch_dump_success (urlopen : string → option string)
    (files : list string) (wd : gmap string string) :
  NoDup files →
  (∀ filename, filename ∈ files → is_Some (urlopen (dump_url filename))) →
  (fetch_dump urlopen files wd).1 = Some ()
  ∧ ∀ filename,
      (fetch_dump urlopen files wd).2 !! filename
      = if decide (filename ∈ files) then urlopen (dump_url filename)
        else wd !! filename.
Proof.
  intros Hnd. revert wd. induction Hnd as [|f files Hf Hnd IH]; intros wd Hall.
  - split; [done|]. intros filename.
    by rewrite decide_False by apply not_elem_of_nil.
  - cbn [fetch_dump]. destruct (Hall f) as [text Htext]; [left|]. rewrite Htext.
    destruct (IH (<[f := text]> (<[f := ""]> wd))) as [Hres Hfiles].
    { intros filename Hin. apply Hall. by right. }
    split; [done|]. intros filename. rewrite Hfiles.
    destruct (decide (filename = f)) as [->|Hne].
    + rewrite decide_False by done. rewrite decide_True by left.
      by rewrite lookup_insert_eq.
    + rewrite !lookup_insert_ne by done.
      destruct (decide (filename ∈ files)) as [Hin|Hnotin].
      * by rewrite decide_True by (by right).
      * rewrite decide_False; [done|]. rewrite elem_of_cons. tauto.
Qed.

(** X20. When a request fails, [fetch_dump] raises and the file it was
    fetching is left empty: what it held before is lost. The files before
    it hold the texts fetched, the files after it and all other files are
    as they were. *)
Theorem fetch_dump_failure (urlopen : string → option string)
    (fetched : list string) (filename : string) (rest : list string)
    (wd : gmap string string) :
  NoDup (fetched ++ filename :: rest) →
  (∀ f, f ∈ fetched → is_Some (urlopen (dump_url f))) →
  urlopen (dump_url filename) = None →
  (fetch_dump urlopen (fetched ++ filename :: rest) wd).1 = None
  ∧ (fetch_dump urlopen (fetched ++ filename :: rest) wd).2 !! filename = Some ""
  ∧ (∀ f, f ∈ fetched →
          (fetch_dump urlopen (fetched ++ filename :: rest) wd).2 !! f
          = urlopen (dump_url f))
  ∧ ∀ f, f ∉ fetched → f ≠ filename →
         (fetch_dump urlopen (fetched ++ filename :: rest) wd).2 !! f = wd !! f.
Proof.
  revert wd. induction fetched as [|f0 fetched IH]; intros wd Hnd Hall Hfail.
  - cbn [app fetch_dump]. rewrite Hfail. cbn [fst snd]. split_and!.
    + done.
    + by rewrite lookup_insert_eq.
    + by intros f ?%elem_of_nil.
    + intros f _ Hne. by rewrite lookup_insert_ne.
  - cbn [app] in Hnd. apply NoDup_cons in Hnd as [Hf0 Hnd].
    rewrite elem_of_app, elem_of_cons in Hf0.
    cbn [app fetch_dump]. destruct (Hall f0) as [text Htext]; [left|].
    rewrite Htext.
    destruct (IH (<[f0 := text]> (<[f0 := ""]> wd))) as (Hres & Hfile & Hdone & Hother);
      [done| |done|].
    { intros f Hin. apply Hall. by right. }
    split_and!; [done..| |].
    + intros f [->|Hin]%elem_of_cons; [|by apply Hdone].
      rewrite Hother by tauto. by rewrite lookup_insert_eq.
    + intros f Hnotin Hne. rewrite not_elem_of_cons in Hnotin.
      rewrite Hother by tauto. by rewrite !lookup_insert_ne by (intros ->; tauto).
Qed.

Lemma fetch_dump_success_witness :
  (fetch_dump (λ url, Some url) ["lang.json"; "sourcemap.json"] ∅).1 = Some ()
  ∧ ∀ filename,
      (fetch_dump (λ url, Some url) ["lang.json"; "sourcemap.json"] ∅).2
        !! filename
      = if decide (filename ∈ ["lang.json"; "sourcemap.json"])
        then (λ url, Some url) (dump_url filename)
        else (∅ : gmap string string) !! filename.
Proof.
  apply (fetch_dump_success (λ url, Some url)).
  - apply (bool_decide_unpack _). vm_compute. exact I.
  - intros filename _. by eexists.
Defined.

Lemma fetch_dump_failure_witness :
  (fetch_dump net_without_sourcemap
     (["lang.json"] ++ "sourcemap.json" :: [])
     {[ "sourcemap.json" := "old" ]}).1 = None
  ∧ (fetch_dump net_without_sourcemap
       (["lang.json"] ++ "sourcemap.json" :: [])
       {[ "sourcemap.json" := "old" ]}).2 !! "sourcemap.json" = Some ""
  ∧ (∀ f, f ∈ ["lang.json"] →
          (fetch_dump net_without_sourcemap
             (["lang.json"] ++ "sourcemap.json" :: [])
             {[ "sourcemap.json" := "old" ]}).2 !! f
          = net_without_sourcemap (dump_url f))
  ∧ ∀ f, f ∉ ["lang.json"] → f ≠ "sourcemap.json" →
         (fetch_dump net_without_sourcemap
            (["lang.json"] ++ "sourcemap.json" :: [])
            {[ "sourcemap.json" := "old" ]}).2 !! f
         = ({[ "sourcemap.json" := "old" ]} : gmap string string) !! f.
Proof.
  apply (fetch_dump_failure net_without_sourcemap ["lang.json"] "sourcemap.json" []).
  - apply (bool_decide_unpack _). vm_compute. exact I.
  - intros f ->%list_elem_of_singleton. by eexists.
  - reflexivity.
Defined.

(** ** Splitter, Initializer and Compiler in a row *)

Lemma for_each_establishes {A S : Type} (Q : A → S → Prop)
    (body : A → S → result unit * S) (l : list A) (st : S) :
  (∀ a s, a ∈ l → (body a s).1 = Ok () → Q a (body a s).2) →
  (∀ a b s, Q a s → Q a (body b s).2) →
  (for_each body l st).1 = Ok () →
  ∀ a, a ∈ l → Q a (for_each body l st).2.
Proof.
  intros Hest Hkeep. revert st Hest.
  induction l as [|b l IH]; intros st Hest Hrun a Ha; [by apply elem_of_nil in Ha|].
  cbn [for_each] in *. pose proof (Hest b st) as Hb.
  destruct (body b st) as [[[]|e] st1] eqn:Hbody; cbn [fst snd] in *; [|done].
  apply elem_of_cons in Ha as [->|Ha].
  - apply (for_each_preserves (λ s s', Q b s → Q b s')); [done|by eauto| |].
    + intros c s _ HQ. by apply Hkeep.
    + apply Hb; [left|done].
  - apply IH; [|done..]. intros c s Hc. apply Hest. by right.
Qed.

Lemma split_lang_fs_dirs raw_lang ch_sourcemap chapter lang st d :
  is_Some (obj_dirs st !! d) →
  is_Some (obj_dirs (split_lang_fs raw_lang ch_sourcemap chapter lang st).2 !! d).
Proof.
  intros Hd. unfold split_lang_fs, set_obj_dir. simpl.
  destruct (decide ((chapter, lang) = d)) as [<-|Hne].
  - rewrite lookup_insert_eq. eauto.
  - by rewrite lookup_insert_ne.
Qed.

Lemma split_chapter_dirs raw_lang raw_sourcemap chapter st d :
  is_Some (obj_dirs st !! d) →
  is_Some (obj_dirs (split_chapter raw_lang raw_sourcemap chapter st).2 !! d).
Proof.
  unfold split_chapter.
  destruct (dict_get raw_sourcemap chapter) as [raw_sourcemap_ch|]; [|done].
  destruct (new_sourcemap raw_sourcemap_ch) as [ch_sourcemap|e]; [|done].
  intros Hd.
  apply (for_each_preserves
           (λ s s', is_Some (obj_dirs s !! d) → is_Some (obj_dirs s' !! d)));
    [done|by eauto| |done].
  intros lang s _. apply split_lang_fs_dirs.
Qed.

Lemma split_chapter_makes_dirs raw_lang raw_sourcemap chapter st lang :
  (split_chapter raw_lang raw_sourcemap chapter st).1 = Ok () →
  lang ∈ LANGS →
  is_Some (obj_dirs (split_chapter raw_lang raw_sourcemap chapter st).2
             !! (chapter, lang)).
Proof.
  unfold split_chapter.
  destruct (dict_get raw_sourcemap chapter) as [raw_sourcemap_ch|]; [|done].
  destruct (new_sourcemap raw_sourcemap_ch) as [ch_sourcemap|e]; [|done].
  intros Hrun Hlang.
  apply (for_each_establishes (λ lang s, is_Some (obj_dirs s !! (chapter, lang))));
    [| |done..].
  - intros l s _ _. unfold split_lang_fs, set_obj_dir. simpl.
    rewrite lookup_insert_eq. eauto.
  - intros l l' s. apply split_lang_fs_dirs.
Qed.

Lemma split_dump_makes_dirs raw_lang raw_sourcemap st chapter lang :
  (split_dump raw_lang raw_sourcemap st).1 = Ok () →
  chapter ∈ CHAPTERS → lang ∈ LANGS →
  is_Some (obj_dirs (split_dump raw_lang raw_sourcemap st).2 !! (chapter, lang)).
Proof.
  intros Hrun Hch Hlang. unfold split_dump in *.
  apply (for_each_establishes
           (λ chapter s, ∀ lang, lang ∈ LANGS →
                                 is_Some (obj_dirs s !! (chapter, lang))));
    [| |done..].
  - intros ch s _ Hok l Hl. by apply split_chapter_makes_dirs.
  - intros ch ch' s Hs l Hl. by apply split_chapter_dirs, Hs.
Qed.

Section pipeline.
Variable iterdir : directory → list (string * pydict string).
Hypothesis iterdir_lists : ∀ dir, iterdir dir ≡ₚ map_to_list dir.
Variable install_dir_missing : string → string → bool.

(** X21. After a run of [split_dump] that returns, each chapter has its
    object directory in each language of [LANGS]; [init_lang] then
    returns normally, and [compile_lang] after it finds its directories:
    it ends in [FileNotFoundError] only at the write of the document, when
    [DELTARUNE_HOME] is set and the directory [chapter<N>_windows/lang]
    under it is missing. *)
Theorem split_then_init_then_compile
    (raw_lang : pydict (pydict (pydict string)))
    (raw_sourcemap : pydict (pydict string)) (st : fs)
    (lang DATE : string) (home : option string) :
  (split_dump raw_lang raw_sourcemap st).1 = Ok () →
  (∀ chapter l, chapter ∈ CHAPTERS → l ∈ LANGS →
      is_Some (obj_dirs (split_dump raw_lang raw_sourcemap st).2
                 !! (chapter, l)))
  ∧ (init_lang iterdir lang (split_dump raw_lang raw_sourcemap st).2).1 = Ok ()
  ∧ ((compile_lang iterdir install_dir_missing DATE home L10N_LANG L10N_CHAPTER
        (init_lang iterdir lang (split_dump raw_lang raw_sourcemap st).2).2).1
     = Raise FileNotFoundError
     ↔ ∃ root rep,
         home = Some root ∧ install_dir_missing root L10N_CHAPTER = true
         ∧ (compile_lang iterdir (λ _ _, false) DATE home L10N_LANG L10N_CHAPTER
              (init_lang iterdir lang
                 (split_dump raw_lang raw_sourcemap st).2).2).1
           = Ok rep).
Proof.
  intros Hrun.
  assert (Hdirs : ∀ chapter l, chapter ∈ CHAPTERS → l ∈ LANGS →
            is_Some (obj_dirs (split_dump raw_lang raw_sourcemap st).2
                       !! (chapter, l)))
    by (intros chapter l; by apply split_dump_makes_dirs).
  set (st1 := (split_dump raw_lang raw_sourcemap st).2) in *.
  assert (Hbase : ∀ ch, ch ∈ CHAPTERS → is_Some (obj_dirs st1 !! (ch, BASE_LANG))).
  { intros ch Hch. apply Hdirs; [done|]. by apply (bool_decide_unpack _). }
  destruct (init_chapters_run iterdir iterdir_lists CHAPTERS st1)
    as (st2 & Hinit & _ & _ & Hst2); [by apply (bool_decide_unpack _)|done|].
  unfold init_lang. rewrite Hinit. cbn [fst snd]. split_and!; [done..|].
  unfold compile_lang. rewrite obj_dirs_mkdir.
  rewrite decide_False by done. rewrite Hst2. cbn [fst snd].
  rewrite decide_False by (by intros [? _]).
  destruct (Hbase L10N_CHAPTER) as [base Hb]; [by apply (bool_decide_unpack _)|].
  rewrite Hb.
  destruct (l10n_progress _ _) as [p|e] eqn:Hp.
  - unfold write_document, new_lang_dir_missing. cbn [fst snd].
    destruct home as [root|].
    + destruct (install_dir_missing root L10N_CHAPTER) eqn:Hdir;
        cbn [fst mbind result_bind].
      * split; [|done]. intros _. exists root. eexists.
        split_and!; [done..|reflexivity].
      * split; [done|]. intros (? & ? & [= <-] & ? & _). congruence.
    + cbn [fst mbind result_bind]. split; [done|]. by intros (? & ? & ? & _).
  - cbn [fst]. split.
    + intros [= ->]. unfold l10n_progress in Hp.
      destruct (length _ - 1); [done|].
      by apply int_of_float_not_file_not_found in Hp.
    + by intros (? & ? & _ & _ & ?).
Qed.
End pipeline.

Lemma split_then_init_then_compile_witness :
  (∀ chapter l, chapter ∈ CHAPTERS → l ∈ LANGS →
      is_Some (obj_dirs (split_dump full_raw_lang full_raw_sourcemap split_fs).2
                 !! (chapter, l)))
  ∧ (init_lang map_to_list "vi"
       (split_dump full_raw_lang full_raw_sourcemap split_fs).2).1 = Ok ()
  ∧ ((compile_lang map_to_list (λ _ _, true) "0" (Some "game") L10N_LANG
        L10N_CHAPTER
        (init_lang map_to_list "vi"
           (split_dump full_raw_lang full_raw_sourcemap split_fs).2).2).1
     = Raise FileNotFoundError
     ↔ ∃ root rep,
         Some "game" = Some root
         ∧ (λ _ _ : string, true) root L10N_CHAPTER = true
         ∧ (compile_lang map_to_list (λ _ _, false) "0" (Some "game") L10N_LANG
              L10N_CHAPTER
              (init_lang map_to_list "vi"
                 (split_dump full_raw_lang full_raw_sourcemap split_fs).2).2).1
           = Ok rep).
Proof.
  apply (split_then_init_then_compile map_to_list).
  - intros dir. reflexivity.
  - vm_compute. reflexivity.
Defined.

(** ** The files of a run and the keys they hold *)

Lemma for_each_cell {A S C : Type} (get : A → S → C) (upd : A → C → C)
    (body : A → S → result unit * S) (l : list A) (st : S) :
  NoDup l →
  (∀ a b s, a ≠ b → get a (body b s).2 = get a s) →
  (∀ a s, (body a s).1 = Ok () → get a (body a s).2 = upd a (get a s)) →
  (for_each body l st).1 = Ok () →
  ∀ a, a ∈ l → get a (for_each body l st).2 = upd a (get a st).
Proof.
  intros Hnd Hframe Hstep. revert st.
  induction Hnd as [|b l Hb Hnd IH]; intros st Hrun a Ha; [by apply elem_of_nil in Ha|].
  cbn [for_each] in *. pose proof (Hstep b st) as Hbst.
  destruct (body b st) as [[[]|e] st1] eqn:Hbody; cbn [fst snd] in *; [|done].
  apply elem_of_cons in Ha as [->|Ha].
  - rewrite <- Hbst by done.
    apply (for_each_preserves (λ s s', get b s' = get b s));
      [done|by intros s1 s2 s3 -> ->|].
    intros c s Hc. apply Hframe. by intros ->.
  - rewrite IH by done. f_equal.
    replace st1 with (body b st).2 by by rewrite Hbody.
    apply Hframe. by intros ->.
Qed.

(** After a run that returns, an object directory is what the run for its
    chapter and language makes of what the directory held. *)
Lemma split_dump_directory raw_lang raw_sourcemap st chapter lang
    raw_sourcemap_ch ch_sourcemap :
  (split_dump raw_lang raw_sourcemap st).1 = Ok () →
  chapter ∈ CHAPTERS → lang ∈ LANGS →
  dict_get raw_sourcemap chapter = Some raw_sourcemap_ch →
  new_sourcemap raw_sourcemap_ch = Ok ch_sourcemap →
  obj_dirs (split_dump raw_lang raw_sourcemap st).2 !! (chapter, lang)
  = Some (split_lang ch_sourcemap (raw_strings raw_lang chapter lang)
            (dir_contents (chapter, lang) st)).2.
Proof.
  intros Hrun Hch Hlang Hraw Hsm. unfold split_dump in *.
  rewrite (for_each_cell (λ ch s, obj_dirs s !! (ch, lang))
             (λ ch c,
                match dict_get raw_sourcemap ch with
                | Some m =>
                    match new_sourcemap m with
                    | Ok sm => Some (split_lang sm (raw_strings raw_lang ch lang)
                                       (default ∅ c)).2
                    | Raise _ => c
                    end
                | None => c
                end)); [by rewrite Hraw, Hsm|by apply (bool_decide_unpack _)| | |done..].
  - intros a b s Hab. unfold split_chapter.
    destruct (dict_get raw_sourcemap b) as [m|]; [|done].
    destruct (new_sourcemap m) as [sm|e]; [|done].
    transitivity (obj_dirs (write_sourcemap b sm s) !! (a, lang)); [|done].
    apply (for_each_preserves (λ s s', obj_dirs s' !! (a, lang) = obj_dirs s !! (a, lang)));
      [done|by intros s1 s2 s3 -> ->|].
    intros l s' _. unfold split_lang_fs, set_obj_dir. simpl.
    rewrite lookup_insert_ne; [done|]. congruence.
  - intros a s. unfold split_chapter.
    destruct (dict_get raw_sourcemap a) as [m|]; [|done].
    destruct (new_sourcemap m) as [sm|e]; [|done].
    intros Hok.
    rewrite (for_each_cell (λ l s, obj_dirs s !! (a, l))
               (λ l c, Some (split_lang sm (raw_strings raw_lang a l)
                               (default ∅ c)).2));
      [done|by apply (bool_decide_unpack _)| | |done..].
    + intros l l' s' Hne. unfold split_lang_fs, set_obj_dir. simpl.
      rewrite lookup_insert_ne; [done|]. congruence.
    + intros l s' _. unfold split_lang_fs, set_obj_dir. simpl.
      by rewrite lookup_insert_eq.
Qed.

Lemma emit_all_files (objects : list (string * pydict string))
    (dir : directory) name obj :
  NoDup objects.*1 →
  name ∈ objects.*1 ∧ emit_all objects dir !! name = Some obj
  ↔ (name, obj) ∈ objects ∧ obj ≠ [].
Proof.
  intros Hnd. split.
  - intros [(o & -> & Hin)%list_elem_of_fmap Hfile]. destruct o as [n o].
    rewrite (emit_all_lookup_in _ _ _ _ Hnd Hin) in Hfile. cbn [fst] in *.
    destruct o; [done|]. injection Hfile as <-. done.
  - intros [Hin Hobj]. split.
    + apply list_elem_of_fmap. by exists (name, obj).
    + rewrite (emit_all_lookup_in _ _ _ _ Hnd Hin). by destruct obj.
Qed.

Lemma object_keys_one_object (objects : list (string * pydict string))
    k o1 o2 :
  NoDup (object_keys objects) →
  o1 ∈ objects → o2 ∈ objects →
  k ∈ dict_keys o1.2 → k ∈ dict_keys o2.2 → o1 = o2.
Proof.
  induction objects as [|[n o] objects IH]; [by intros _ ?%elem_of_nil|].
  rewrite object_keys_cons. intros (Ho & Hdisj & Hrest)%NoDup_app.
  intros [->|H1]%elem_of_cons [->|H2]%elem_of_cons Hk1 Hk2; [done| | |by apply IH].
  - exfalso. apply (Hdisj k Hk1). apply elem_of_object_keys.
    destruct o2 as [n2 o2]. by exists n2, o2.
  - exfalso. apply (Hdisj k Hk2). apply elem_of_object_keys.
    destruct o1 as [n1 o1]. by exists n1, o1.
Qed.

(** C1, as stated, fails when two files of the Chapter Source Map share an
    object file name: [a.gml] and [a] are both written to [a.json], the
    second write replaces the first, and the key [k1] of the first, which
    the Raw String Map has, is in no file of the directory after the run. *)
Lemma shared_object_file_counterexample :
  (split_dump c1_shared_raw_lang c1_shared_raw_sourcemap (mk_fs ∅ ∅ ∅)).1 = Ok ()
  ∧ flat_sourcemap c1_shared_raw_sourcemap = true
  ∧ NoDup (dict_keys c1_shared_sourcemap)
  ∧ raw_strings c1_shared_raw_lang "1" "en" = Some c1_shared_strings
  ∧ "k1" ∈ dict_keys c1_shared_strings
  ∧ obj_dirs (split_dump c1_shared_raw_lang c1_shared_raw_sourcemap
                (mk_fs ∅ ∅ ∅)).2 !! ("1", "en")
    = Some {[ "a.json" := [("k2", "two")] ]}
  ∧ ∀ name obj,
      ({[ "a.json" := [("k2", "two")] ]} : directory) !! name = Some obj →
      "k1" ∉ dict_keys obj.
Proof.
  split_and!; try (vm_compute; reflexivity).
  - apply (bool_decide_unpack _). vm_compute. exact I.
  - apply (bool_decide_unpack _). vm_compute. exact I.
  - intros name obj [_ <-]%lookup_singleton_Some.
    apply (bool_decide_unpack _). vm_compute. exact I.
Qed.

(** C1, amended. After a run of [split_dump] that returns, for a chapter
    and a language, when the file names of [sourcemap.json] are path
    components, no key is repeated in the raw maps, and no two files of the
    Chapter Source Map share an object file name or are named [orphan]: the
    keys of the files the run has left under the per-file names and under
    [orphan.json] are, apart from ["date"], exactly the keys of the Raw
    String Map, and no key lies in two of these files. *)
Theorem split_partitions_keys (raw_lang : pydict (pydict (pydict string)))
    (raw_sourcemap : pydict (pydict string)) (st : fs) (chapter lang : string)
    (raw_sourcemap_ch strings : pydict string)
    (ch_sourcemap : pydict (pydict string)) :
  flat_sourcemap raw_sourcemap = true →
  (split_dump raw_lang raw_sourcemap st).1 = Ok () →
  chapter ∈ CHAPTERS → lang ∈ LANGS →
  dict_get raw_sourcemap chapter = Some raw_sourcemap_ch →
  new_sourcemap raw_sourcemap_ch = Ok ch_sourcemap →
  raw_strings raw_lang chapter lang = Some strings →
  NoDup (dict_keys raw_sourcemap_ch) → NoDup (dict_keys strings) →
  NoDup (object_names ch_sourcemap) →
  ∃ dir,
    obj_dirs (split_dump raw_lang raw_sourcemap st).2 !! (chapter, lang) = Some dir
    ∧ (∀ k, k ≠ "date" →
            k ∈ dict_keys strings
            ↔ ∃ name obj, name ∈ object_names ch_sourcemap
                          ∧ dir !! name = Some obj ∧ k ∈ dict_keys obj)
    ∧ ∀ k name1 obj1 name2 obj2,
        name1 ∈ object_names ch_sourcemap → name2 ∈ object_names ch_sourcemap →
        dir !! name1 = Some obj1 → dir !! name2 = Some obj2 →
        k ∈ dict_keys obj1 → k ∈ dict_keys obj2 → name1 = name2.
Proof.
  intros _ Hrun Hch Hlang Hraw Hsm Hstrings Hnd Hnds Hnames.
  eexists. split; [by eapply split_dump_directory|].
  rewrite Hstrings, split_lang_writes.
  set (objects := split_lang_objects ch_sourcemap (Some strings)).
  set (dir0 := dir_contents (chapter, lang) st).
  assert (Hobjnames : objects.*1 = object_names ch_sourcemap).
  { unfold objects, split_lang_objects, object_names.
    by rewrite fmap_app, split_objects_names. }
  assert (Hfiles : ∀ name obj,
            name ∈ object_names ch_sourcemap ∧ emit_all objects dir0 !! name = Some obj
            ↔ (name, obj) ∈ objects ∧ obj ≠ []).
  { intros name obj. rewrite <- Hobjnames. apply emit_all_files.
    by rewrite Hobjnames. }
  destruct (split_objects_partition _ strings _ Hnd Hsm) as [Hdisj Hunion].
  cbn zeta in Hdisj, Hunion. unfold per_file_objects in Hdisj, Hunion.
  rewrite object_keys_filter in Hdisj, Hunion.
  assert (Hkeys : object_keys objects
    = object_keys (split_objects ch_sourcemap (Some strings)).2
      ++ dict_keys (orphans strings (split_objects ch_sourcemap (Some strings)).1)).
  { unfold objects, split_lang_objects. rewrite object_keys_app.
    unfold object_keys at 2. simpl. by rewrite app_nil_r. }
  split.
  - intros k Hdate. transitivity (k ∈ object_keys objects).
    + rewrite Hkeys.
      assert (Hk : k ∈ (list_to_set (dict_keys strings) ∖ {["date"]} : gset string)
                   ↔ k ∈ dict_keys strings).
      { rewrite elem_of_difference, elem_of_list_to_set, elem_of_singleton. tauto. }
      rewrite <- Hk, <- Hunion.
      rewrite elem_of_difference, elem_of_list_to_set, elem_of_singleton. tauto.
    + rewrite elem_of_object_keys. split.
      * intros (name & obj & Hin & Hk). exists name, obj.
        assert (Hobj : obj ≠ []) by (intros ->; by apply elem_of_nil in Hk).
        destruct (proj2 (Hfiles name obj) (conj Hin Hobj)) as [Hname Hfile].
        done.
      * intros (name & obj & Hname & Hfile & Hk). exists name, obj.
        split; [|done]. by apply (proj1 (Hfiles name obj)).
  - intros k name1 obj1 name2 obj2 Hn1 Hn2 Hf1 Hf2 Hk1 Hk2.
    assert (Hnodup : NoDup (object_keys objects)).
    { rewrite Hkeys. apply NoDup_app. split_and!; [done| |].
      - intros x Hx. rewrite orphans_keys.
        destruct (split_objects_keys (Some strings) ch_sourcemap) as (_ & _ & Hobj).
        apply (Hobj x) in Hx. unfold dict_keys. tauto.
      - unfold orphans. rewrite orphans_fold_exact by done.
        unfold unmapped, dict_keys. cbn [app].
        eapply sublist_NoDup; [exact Hnds|].
        apply fmap_sublist, sublist_filter. }
    assert (H1 : (name1, obj1) ∈ objects)
      by (by apply (proj1 (Hfiles name1 obj1))).
    assert (H2 : (name2, obj2) ∈ objects)
      by (by apply (proj1 (Hfiles name2 obj2))).
    by injection (object_keys_one_object objects k _ _ Hnodup H1 H2 Hk1 Hk2).
Qed.

Lemma split_partitions_keys_witness :
  ∃ dir,
    obj_dirs (split_dump full_raw_lang full_raw_sourcemap split_fs).2 !! ("1", "en")
    = Some dir
    ∧ (∀ k, k ≠ "date" →
            k ∈ dict_keys c1_strings
            ↔ ∃ name obj, name ∈ object_names c9_chapter_sourcemap
                          ∧ dir !! name = Some obj ∧ k ∈ dict_keys obj)
    ∧ ∀ k name1 obj1 name2 obj2,
        name1 ∈ object_names c9_chapter_sourcemap →
        name2 ∈ object_names c9_chapter_sourcemap →
        dir !! name1 = Some obj1 → dir !! name2 = Some obj2 →
        k ∈ dict_keys obj1 → k ∈ dict_keys obj2 → name1 = name2.
Proof.
  apply (split_partitions_keys full_raw_lang full_raw_sourcemap split_fs "1" "en"
           c9_sourcemap c1_strings c9_chapter_sourcemap).
  - reflexivity.
  - vm_compute. reflexivity.
  - apply (bool_decide_unpack _). vm_compute. exact I.
  - apply (bool_decide_unpack _). vm_compute. exact I.
  - reflexivity.
  - reflexivity.
  - reflexivity.
  - apply (bool_decide_unpack _). vm_compute. exact I.
  - apply (bool_decide_unpack _). vm_compute. exact I.
  - apply (bool_decide_unpack _). vm_compute. exact I.
Defined.
